(** * The SWMM5 engine driver ([swmm5.c]): lifecycle and time stepping

    A shallow embedding of the control module of the EPA SWMM 5.1 engine as
    shipped with itzi ([src/itzi/swmm/source/swmm5.c], built as a shared
    object library: [SOL] defined, no Windows exception handling).

    Conventions of the embedding:
    - a C [double] is an exact rational ([Q]); comparisons are the order of
      [Q], arithmetic is exact (rounding is outside the model);
    - a C [int]/[long] is an integer ([Z]); the [int] product
      [1000 * ReportStep] is taken as a 32-bit machine computes it (two's
      complement wrap-around, see [int_mul]); other signed overflow, which C
      leaves undefined, is outside the model;
    - a flag ([int] holding TRUE/FALSE) is a [bool];
    - the file-local ([static]) variables of [swmm5.c] and the [extern]
      globals of [globals.h] are kept apart: the other modules of the engine
      can write the latter, never the former;
    - a call to a function of another module of the engine is recorded in a
      trace and its effect on the shared globals is given by a parameter;
    - an array access outside the array is [Undefined]. *)

From Stdlib Require Import ZArith QArith Qround Bool List Lia Lqa String.
From Stdlib Require Import Ascii DecimalString Sorted.
Import ListNotations.

Set Implicit Arguments.

(** ** Error codes ([error.h]) *)

(** The enumerators that [swmm5.c] names, and [ERR_OTHER] for the codes
    only the other modules set.  [ERR_NONE] is the zero of the C enum. *)
Inductive ErrorType : Type :=
| ERR_NONE
| ERR_TIMESTEP
| ERR_NUMBER
| ERR_SYSTEM
| ERR_NOT_OPEN
| ERR_OTHER (n : positive).

(** The C test [if ( ErrorCode )]. *)
Definition is_set (e : ErrorType) : bool :=
  match e with ERR_NONE => false | _ => true end.

(** ** Comparisons and macros on doubles *)

Definition Qltb (x y : Q) : bool :=
  match x ?= y with Lt => true | _ => false end.

Definition Qleb (x y : Q) : bool := Qle_bool x y.

(** Modelled from the spec: the macros [MIN] and [MAX] of [macros.h], which
    is not part of the sources at hand; "the smaller of" and "never less
    than" in the words of the spec. *)
Definition MIN (x y : Z) : Z := if (x <=? y)%Z then x else y.
Definition MAX (x y : Q) : Q := if Qleb y x then x else y.

(** ** Arithmetic on [int]

    An [int] has 32 bits.  [wrap_int z] is the [int] a two's complement
    machine keeps of the integer [z]: [z] itself when it fits, [z] less a
    multiple of [2^32] otherwise. *)
Definition wrap_int (z : Z) : Z := ((z + 2 ^ 31) mod 2 ^ 32 - 2 ^ 31)%Z.

(** [z] is the value of an [int]. *)
Definition fits_int (z : Z) : Prop := (- 2 ^ 31 <= z < 2 ^ 31)%Z.

(** The product [x * y] of two [int]s. *)
Definition int_mul (x y : Z) : Z := wrap_int (x * y).

(** A [double] that holds a whole number (of milliseconds, say). *)
Definition whole (x : Q) : Prop := exists z : Z, x == inject_Z z.

(** Modelled from the spec: [MSECperDAY] of [consts.h], the number of
    milliseconds of a day, by which the routing clock is "converted to
    elapsed days". *)
Definition MSECperDAY : Q := 86400000.

(** ** Nodes ([objects.h]) and the node record handed to callers ([swmm5.h]) *)

Module TNode.
Record t : Type := mk {
  ID : string;
  type : Z;
  subIndex : Z;
  invertElev : Q;
  initDepth : Q;
  fullDepth : Q;
  surDepth : Q;
  pondedArea : Q;
  degree : Z;
  updated : Z;
  crownElev : Q;
  inflow : Q;
  outflow : Q;
  losses : Q;
  newVolume : Q;
  fullVolume : Q;
  overflow : Q;
  newDepth : Q;
  newLatFlow : Q;
  dllInflow : Q
}.

Definition add_dllInflow (x : Q) (n : t) : t :=
  mk (ID n) (type n) (subIndex n) (invertElev n) (initDepth n) (fullDepth n)
     (surDepth n) (pondedArea n) (degree n) (updated n) (crownElev n)
     (inflow n) (outflow n) (losses n) (newVolume n) (fullVolume n)
     (overflow n) (newDepth n) (newLatFlow n) (dllInflow n + x).
End TNode.

Module nodeData.
Record t : Type := mk {
  inflow : Q;
  outflow : Q;
  head : Q;
  crestElev : Q;
  type : Z;
  subIndex : Z;
  invertElev : Q;
  initDepth : Q;
  fullDepth : Q;
  surDepth : Q;
  pondedArea : Q;
  degree : Z;
  updated : Z;
  crownElev : Q;
  losses : Q;
  newVolume : Q;
  fullVolume : Q;
  overflow : Q;
  newDepth : Q;
  newLatFlow : Q
}.
End nodeData.

(** The result of a C function that indexes an array: a value, or
    undefined behaviour when the index falls outside the array. *)
Inductive outcome (A : Type) : Type :=
| Ret (a : A)
| Undefined.
Arguments Undefined {A}.

(** [Node[index]] for a C [int] index. *)
Definition Node_at (nodes : list TNode.t) (index : Z) : option TNode.t :=
  if (index <? 0)%Z then None else nth_error nodes (Z.to_nat index).

(** [Node[index] = n]. *)
Fixpoint Node_put (nodes : list TNode.t) (i : nat) (n : TNode.t)
  : list TNode.t :=
  match nodes, i with
  | [], _ => []
  | _ :: rest, O => n :: rest
  | x :: rest, S j => x :: Node_put rest j n
  end.

(** ** Calls into the other modules of the engine

    One constructor per function of another module that [swmm5.c] calls
    for its effect, with the arguments that are passed
    ([datetime_setDateFormat] is only ever called with [M_D_Y]).
    [writecon] is left out: built as a library ([CLE] not defined) its
    body is empty. *)
Inductive Call : Type :=
| datetime_setDateFormat_M_D_Y
| project_open (f1 f2 f3 : string)
| report_writeLogo
| project_readInput
| report_writeTitle
| project_validate
| inputrpt_writeInput
| report_writeErrorMsg (code : ErrorType) (msg : string)
| rain_open
| project_init
| output_open
| runoff_open
| hotstart_open
| routing_open
| massbal_open
| stats_open
| report_writeOptions
| report_writeControlActionsHeading
| runoff_execute
| climate_setState (theDate : Q)
| routing_execute (routingModel : Z) (routingStep : Q)
| output_saveResults (reportTime : Q)
| output_end
| massbal_report
| stats_report
| stats_close
| massbal_close
| rain_close
| runoff_close
| routing_close (routingModel : Z)
| hotstart_close.

Definition is_output_saveResults (c : Call) : bool :=
  match c with output_saveResults _ => true | _ => false end.

Definition is_climate_setState (c : Call) : bool :=
  match c with climate_setState _ => true | _ => false end.

Definition is_runoff_execute (c : Call) : bool :=
  match c with runoff_execute => true | _ => false end.

Definition is_routing_execute (c : Call) : bool :=
  match c with routing_execute _ _ => true | _ => false end.

(** The calls [swmm_step] and [execRouting] make. *)
Definition step_call (c : Call) : bool :=
  match c with
  | runoff_execute | climate_setState _ | routing_execute _ _
  | output_saveResults _ => true
  | _ => false
  end.

(** The calls [swmm_open] makes. *)
Definition opens_project (c : Call) : bool :=
  match c with
  | datetime_setDateFormat_M_D_Y | project_open _ _ _ | report_writeLogo
  | project_readInput | report_writeTitle | project_validate
  | inputrpt_writeInput => true
  | _ => false
  end.

(** Number of calls of a kind in a trace. *)
Definition count (p : Call -> bool) (t : list Call) : nat :=
  List.length (List.filter p t).

(** ** The state *)

(** Project data of [globals.h] that [swmm5.c] only reads. *)
Record Project : Type := mkProject {
  IgnoreRainfall : bool;
  IgnoreRouting : bool;
  Nobjects_SUBCATCH : Z;
  Nobjects_NODE : Z;
  ReportStep : Z;
  WetStep : Z;
  RouteStep : Q;
  RouteModel : Z;
  TotalDuration : Q;
  StartDateTime : Q;
  RptFlags_input : bool;
  RptFlags_controls : bool;
  Fout_file : bool
}.

Section Engine.

(** Whatever else the other modules keep (hydraulic state, files). *)
Variable World : Type.

(** The [extern] globals: [swmm5.c] and the other modules both write them. *)
Record Shared : Type := mkShared {
  ErrorCode : ErrorType;
  WarningCode : Z;
  NewRunoffTime : Q;
  NewRoutingTime : Q;
  ReportTime : Q;
  StepCount : Z;
  NonConvergeCount : Z;
  RunoffError : Q;
  GwaterError : Q;
  FlowError : Q;
  QualError : Q;
  Node : list TNode.t;
  proj : Project;
  world : World
}.

Definition set_ErrorCode (v : ErrorType) (g : Shared) : Shared :=
  mkShared v (WarningCode g) (NewRunoffTime g) (NewRoutingTime g)
    (ReportTime g) (StepCount g) (NonConvergeCount g) (RunoffError g)
    (GwaterError g) (FlowError g) (QualError g) (Node g) (proj g) (world g).

Definition set_WarningCode (v : Z) (g : Shared) : Shared :=
  mkShared (ErrorCode g) v (NewRunoffTime g) (NewRoutingTime g)
    (ReportTime g) (StepCount g) (NonConvergeCount g) (RunoffError g)
    (GwaterError g) (FlowError g) (QualError g) (Node g) (proj g) (world g).

Definition set_NewRunoffTime (v : Q) (g : Shared) : Shared :=
  mkShared (ErrorCode g) (WarningCode g) v (NewRoutingTime g)
    (ReportTime g) (StepCount g) (NonConvergeCount g) (RunoffError g)
    (GwaterError g) (FlowError g) (QualError g) (Node g) (proj g) (world g).

Definition set_NewRoutingTime (v : Q) (g : Shared) : Shared :=
  mkShared (ErrorCode g) (WarningCode g) (NewRunoffTime g) v
    (ReportTime g) (StepCount g) (NonConvergeCount g) (RunoffError g)
    (GwaterError g) (FlowError g) (QualError g) (Node g) (proj g) (world g).

Definition set_ReportTime (v : Q) (g : Shared) : Shared :=
  mkShared (ErrorCode g) (WarningCode g) (NewRunoffTime g) (NewRoutingTime g)
    v (StepCount g) (NonConvergeCount g) (RunoffError g)
    (GwaterError g) (FlowError g) (QualError g) (Node g) (proj g) (world g).

Definition set_StepCount (v : Z) (g : Shared) : Shared :=
  mkShared (ErrorCode g) (WarningCode g) (NewRunoffTime g) (NewRoutingTime g)
    (ReportTime g) v (NonConvergeCount g) (RunoffError g)
    (GwaterError g) (FlowError g) (QualError g) (Node g) (proj g) (world g).

Definition set_NonConvergeCount (v : Z) (g : Shared) : Shared :=
  mkShared (ErrorCode g) (WarningCode g) (NewRunoffTime g) (NewRoutingTime g)
    (ReportTime g) (StepCount g) v (RunoffError g)
    (GwaterError g) (FlowError g) (QualError g) (Node g) (proj g) (world g).

(** [RunoffError = GwaterError = FlowError = QualError = 0.0]. *)
Definition clear_continuity_errors (g : Shared) : Shared :=
  mkShared (ErrorCode g) (WarningCode g) (NewRunoffTime g) (NewRoutingTime g)
    (ReportTime g) (StepCount g) (NonConvergeCount g) 0 0 0 0
    (Node g) (proj g) (world g).

Definition set_Node (v : list TNode.t) (g : Shared) : Shared :=
  mkShared (ErrorCode g) (WarningCode g) (NewRunoffTime g) (NewRoutingTime g)
    (ReportTime g) (StepCount g) (NonConvergeCount g) (RunoffError g)
    (GwaterError g) (FlowError g) (QualError g) v (proj g) (world g).

(** The whole state: the [static] variables of [swmm5.c], the shared
    globals, and the trace of the calls made so far. *)
Record St : Type := mkSt {
  IsOpenFlag : bool;
  IsStartedFlag : bool;
  SaveResultsFlag : bool;
  ExceptionCount : Z;
  DoRunoff : bool;
  DoRouting : bool;
  G : Shared;
  trace : list Call
}.

Definition set_IsOpenFlag (v : bool) (s : St) : St :=
  mkSt v (IsStartedFlag s) (SaveResultsFlag s) (ExceptionCount s)
    (DoRunoff s) (DoRouting s) (G s) (trace s).

Definition set_IsStartedFlag (v : bool) (s : St) : St :=
  mkSt (IsOpenFlag s) v (SaveResultsFlag s) (ExceptionCount s)
    (DoRunoff s) (DoRouting s) (G s) (trace s).

Definition set_SaveResultsFlag (v : bool) (s : St) : St :=
  mkSt (IsOpenFlag s) (IsStartedFlag s) v (ExceptionCount s)
    (DoRunoff s) (DoRouting s) (G s) (trace s).

Definition set_ExceptionCount (v : Z) (s : St) : St :=
  mkSt (IsOpenFlag s) (IsStartedFlag s) (SaveResultsFlag s) v
    (DoRunoff s) (DoRouting s) (G s) (trace s).

Definition set_DoRunoff (v : bool) (s : St) : St :=
  mkSt (IsOpenFlag s) (IsStartedFlag s) (SaveResultsFlag s) (ExceptionCount s)
    v (DoRouting s) (G s) (trace s).

Definition set_DoRouting (v : bool) (s : St) : St :=
  mkSt (IsOpenFlag s) (IsStartedFlag s) (SaveResultsFlag s) (ExceptionCount s)
    (DoRunoff s) v (G s) (trace s).

(** An assignment to shared globals from within [swmm5.c]. *)
Definition on_G (f : Shared -> Shared) (s : St) : St :=
  mkSt (IsOpenFlag s) (IsStartedFlag s) (SaveResultsFlag s) (ExceptionCount s)
    (DoRunoff s) (DoRouting s) (f (G s)) (trace s).

(** *** The other modules *)

(** What a call does to the shared globals. *)
Variable extern : Call -> Shared -> Shared.

(** The value [routing_getRoutingStep(routingModel, fixedStep)] returns. *)
Variable routing_getRoutingStep : Z -> Q -> Shared -> Q.

(** The value [hotstart_open()] returns, from the globals it leaves. *)
Variable hotstart_open_result : Shared -> bool.

(** [datetime_addSeconds(date1, seconds)] of [datetime.c]. *)
Variable datetime_addSeconds : Q -> Q -> Q.

(** Modelled from the spec: the instant at which the routing engine, asked
    to execute a step of [routingStep] seconds, "must leave the shared
    clock" ("the candidate instant"): the clock advanced by the step, or
    total duration where that would pass it.  [routing.c] is not part of
    the sources at hand. *)
Definition candidate_instant (routingStep : Q) (g : Shared) : Q :=
  let t := NewRoutingTime g + 1000 * routingStep in
  if Qltb (TotalDuration (proj g)) t then TotalDuration (proj g) else t.

(** A call: recorded, then performed on the shared globals. *)
Definition call (c : Call) (s : St) : St :=
  mkSt (IsOpenFlag s) (IsStartedFlag s) (SaveResultsFlag s) (ExceptionCount s)
    (DoRunoff s) (DoRouting s) (extern c (G s)) (trace s ++ [c]).

(** [MAXLINE] of [consts.h]. *)
Variable MAXLINE : nat.

(** [k] consecutive calls of [runoff_execute]. *)
Definition runoff_calls (k : nat) (s : St) : St :=
  Nat.iter k (call runoff_execute) s.

(** *** What is expected of the other modules

    Stated here, assumed only where a property says so. *)

(** The other modules leave the runoff clock alone, the runoff engine
    apart. *)
Definition runoff_clock_is_runoff's : Prop :=
  forall (c : Call) (g : Shared),
    step_call c = true -> is_runoff_execute c = false ->
    NewRunoffTime (extern c g) = NewRunoffTime g.

(** Saving results leaves the clocks, the step counter and total duration
    as they are. *)
Definition saving_keeps_clocks : Prop :=
  forall (t : Q) (g : Shared),
    NewRoutingTime (extern (output_saveResults t) g) = NewRoutingTime g /\
    NewRunoffTime (extern (output_saveResults t) g) = NewRunoffTime g /\
    StepCount (extern (output_saveResults t) g) = StepCount g /\
    TotalDuration (proj (extern (output_saveResults t) g)) =
      TotalDuration (proj g).

(** Once the project is open, the other modules leave the report time and
    the report step as they are. *)
Definition reporting_untouched : Prop :=
  forall (c : Call) (g : Shared),
    opens_project c = false ->
    ReportTime (extern c g) = ReportTime g /\
    ReportStep (proj (extern c g)) = ReportStep (proj g).

(** The other modules leave the routing clock alone, the routing engine
    apart. *)
Definition routing_clock_is_routing's : Prop :=
  forall (c : Call) (g : Shared),
    step_call c = true -> is_routing_execute c = false ->
    NewRoutingTime (extern c g) = NewRoutingTime g.

(** Total duration does not change during a run. *)
Definition total_duration_fixed : Prop :=
  forall (c : Call) (g : Shared),
    step_call c = true ->
    TotalDuration (proj (extern c g)) = TotalDuration (proj g).

(** Modelled from the spec: the routing engine "must leave the shared
    clock at the candidate instant on success". *)
Definition routing_reaches_candidate : Prop :=
  forall (routingModel : Z) (routingStep : Q) (g : Shared),
    ErrorCode (extern (routing_execute routingModel routingStep) g)
      = ERR_NONE ->
    NewRoutingTime (extern (routing_execute routingModel routingStep) g)
      == candidate_instant routingStep g.

(** Modelled from the spec: the routing engine's "execute(method,
    stepSeconds) -> error (advances shared routing clock)": it advances
    the clock by the step it is handed, when it reports no error. *)
Definition routing_advances_by_step : Prop :=
  forall (routingModel : Z) (routingStep : Q) (g : Shared),
    ErrorCode (extern (routing_execute routingModel routingStep) g)
      = ERR_NONE ->
    NewRoutingTime (extern (routing_execute routingModel routingStep) g)
      == NewRoutingTime g + 1000 * routingStep.

(** Saving results does not clear an error. *)
Definition saving_keeps_error : Prop :=
  forall (t : Q) (g : Shared),
    ErrorCode g <> ERR_NONE ->
    ErrorCode (extern (output_saveResults t) g) <> ERR_NONE.

(** [g] with [code] for error code and [w] for the rest of the world. *)
Definition recorded (code : ErrorType) (w : World) (g : Shared) : Shared :=
  mkShared code (WarningCode g) (NewRunoffTime g) (NewRoutingTime g)
    (ReportTime g) (StepCount g) (NonConvergeCount g) (RunoffError g)
    (GwaterError g) (FlowError g) (QualError g) (Node g) (proj g) w.

(** Modelled from the spec: "any error sets a sticky process-wide code":
    writing an error message records its code as the error code; the
    report apart (it is part of the world), nothing else changes.
    [report.c] is not part of the sources at hand. *)
Definition error_message_sets_code : Prop :=
  forall (code : ErrorType) (msg : string) (g : Shared),
    exists w : World,
      extern (report_writeErrorMsg code msg) g = recorded code w g.

(** The project loader and the report writer report no error while a
    project is opened. *)
Definition project_opens_cleanly : Prop :=
  forall (c : Call) (g : Shared),
    opens_project c = true -> ErrorCode g = ERR_NONE ->
    ErrorCode (extern c g) = ERR_NONE.

(** The phase flags, the other file-local variables, the clocks and the
    step counter of [s'] are those of [s]. *)
Definition same_run (s s' : St) : Prop :=
  IsOpenFlag s' = IsOpenFlag s /\
  IsStartedFlag s' = IsStartedFlag s /\
  SaveResultsFlag s' = SaveResultsFlag s /\
  ExceptionCount s' = ExceptionCount s /\
  DoRunoff s' = DoRunoff s /\
  DoRouting s' = DoRouting s /\
  NewRunoffTime (G s') = NewRunoffTime (G s) /\
  NewRoutingTime (G s') = NewRoutingTime (G s) /\
  ReportTime (G s') = ReportTime (G s) /\
  StepCount (G s') = StepCount (G s).

(** ** The functions of [swmm5.c] *)

(** [getDateTime(elapsedMsec)]. *)
Definition getDateTime (elapsedMsec : Q) (g : Shared) : Q :=
  datetime_addSeconds (StartDateTime (proj g)) ((elapsedMsec + 1) / 1000).

(** [sstrncpy(dest, src, maxlen)]: the contents of [dest] afterwards. *)
Definition sstrncpy (src : string) (maxlen : nat) : string :=
  substring 0 maxlen src.

(** [swmm_open(f1, f2, f3)]: the state afterwards and the returned code. *)
Definition swmm_open (f1 f2 f3 : string) (s : St) : St * ErrorType :=
  let s := call datetime_setDateFormat_M_D_Y s in
  let s := on_G (set_ErrorCode ERR_NONE) s in
  let s := on_G (set_WarningCode 0) s in
  let s := set_IsOpenFlag false s in
  let s := set_IsStartedFlag false s in
  let s := set_ExceptionCount 0 s in
  let s := call (project_open f1 f2 f3) s in
  if is_set (ErrorCode (G s)) then (s, ErrorCode (G s)) else
  let s := set_IsOpenFlag true s in
  let s := call report_writeLogo s in
  let s := call project_readInput s in
  if is_set (ErrorCode (G s)) then (s, ErrorCode (G s)) else
  let s := call report_writeTitle s in
  let s := call project_validate s in
  let s := if RptFlags_input (proj (G s))
           then call inputrpt_writeInput s else s in
  (s, ErrorCode (G s)).

(** [swmm_start(saveResults)]. *)
Definition swmm_start (saveResults : bool) (s : St) : St * ErrorType :=
  if is_set (ErrorCode (G s)) then (s, ErrorCode (G s)) else
  if negb (IsOpenFlag s) || IsStartedFlag s then
    let s := call (report_writeErrorMsg ERR_NOT_OPEN "") s in
    (s, ErrorCode (G s))
  else
  let s := set_ExceptionCount 0 s in
  let s := on_G (set_NewRunoffTime 0) s in
  let s := on_G (set_NewRoutingTime 0) s in
  let s := on_G (fun g =>
             set_ReportTime
               (inject_Z (int_mul 1000 (ReportStep (proj g)))) g) s in
  let s := on_G (set_StepCount 0) s in
  let s := on_G (set_NonConvergeCount 0) s in
  let s := set_IsStartedFlag true s in
  let s := on_G clear_continuity_errors s in
  let s := if negb (IgnoreRainfall (proj (G s)))
           then call rain_open s else s in
  if is_set (ErrorCode (G s)) then (s, ErrorCode (G s)) else
  let s := call project_init s in
  let s := set_DoRunoff (0 <? Nobjects_SUBCATCH (proj (G s)))%Z s in
  let s := set_DoRouting ((0 <? Nobjects_NODE (proj (G s)))%Z
                          && negb (IgnoreRouting (proj (G s)))) s in
  let s := call output_open s in
  let s := if DoRunoff s then call runoff_open s else s in
  let s := call hotstart_open s in
  if negb (hotstart_open_result (G s)) then (s, ErrorCode (G s)) else
  let s := if DoRouting s then call routing_open s else s in
  let s := call massbal_open s in
  let s := call stats_open s in
  let s := call report_writeOptions s in
  let s := if RptFlags_controls (proj (G s))
           then call report_writeControlActionsHeading s else s in
  let s := set_SaveResultsFlag saveResults s in
  (s, ErrorCode (G s)).

(** *** [execRouting] *)

(** [StepCount++] (line 490). *)
Definition count_step (s : St) : St :=
  on_G (fun g => set_StepCount (StepCount g + 1)%Z g) s.

(** The routing step first computed (lines 491-492). *)
Definition candidate_routingStep (s : St) : Q :=
  if negb (DoRouting s)
  then inject_Z (MIN (WetStep (proj (G s))) (ReportStep (proj (G s))))
  else routing_getRoutingStep (RouteModel (proj (G s)))
                              (RouteStep (proj (G s))) (G s).

(** The next routing time and the adjustment of the step "so that total
    duration not exceeded" (lines 498-508): the pair
    [(routingStep, nextRoutingTime)] afterwards. *)
Definition adjust_routingStep (routingStep : Q) (g : Shared) : Q * Q :=
  let nextRoutingTime := NewRoutingTime g + 1000 * routingStep in
  if Qltb (TotalDuration (proj g)) nextRoutingTime then
    let routingStep := (TotalDuration (proj g) - NewRoutingTime g) / 1000 in
    let routingStep := MAX routingStep (1 / 1000) in
    (routingStep, TotalDuration (proj g))
  else (routingStep, nextRoutingTime).

(** The loop [while ( NewRunoffTime < nextRoutingTime )] (lines 512-516),
    with a bound on the number of iterations; the flag tells whether the
    function returned from within the loop. *)
Fixpoint runoff_loop (fuel : nat) (nextRoutingTime : Q) (s : St)
  : option (bool * St) :=
  if Qltb (NewRunoffTime (G s)) nextRoutingTime then
    match fuel with
    | O => None
    | S fuel' =>
        let s := call runoff_execute s in
        if is_set (ErrorCode (G s)) then Some (true, s)
        else runoff_loop fuel' nextRoutingTime s
    end
  else Some (false, s).

(** [execRouting(elapsedTime)]; [None] when the bound on the runoff loop is
    too small. *)
Definition execRouting (fuel : nat) (elapsedTime : Q) (s : St) : option St :=
  let s := count_step s in
  let routingStep := candidate_routingStep s in
  if Qleb routingStep 0 then Some (on_G (set_ErrorCode ERR_TIMESTEP) s)
  else
    let '(routingStep, nextRoutingTime) :=
      adjust_routingStep routingStep (G s) in
    match
      (if DoRunoff s then runoff_loop fuel nextRoutingTime s
       else Some (false,
                  call (climate_setState
                          (getDateTime (NewRoutingTime (G s)) (G s))) s))
    with
    | None => None
    | Some (true, s) => Some s
    | Some (false, s) =>
        Some (if DoRouting s
              then call (routing_execute (RouteModel (proj (G s)))
                                         routingStep) s
              else on_G (set_NewRoutingTime nextRoutingTime) s)
    end.

(** *** [swmm_step] *)

(** "save results at next reporting time" (lines 445-450). *)
Definition save_at_ReportTime (s : St) : St :=
  if Qleb (ReportTime (G s)) (NewRoutingTime (G s)) then
    let s := if SaveResultsFlag s
             then call (output_saveResults (ReportTime (G s))) s else s in
    on_G (fun g =>
       set_ReportTime
         (ReportTime g + inject_Z (int_mul 1000 (ReportStep (proj g)))) g)
      s
  else s.

(** "update elapsed time (days)" (lines 452-459): the value written to
    [*elapsedTime]. *)
Definition new_elapsedTime (g : Shared) : Q :=
  if Qltb (NewRoutingTime g) (TotalDuration (proj g))
  then NewRoutingTime g / MSECperDAY
  else 0.

(** The call of [execRouting] under its guard (lines 436-443). *)
Definition route_if_not_done (fuel : nat) (elapsedTime : Q) (s : St)
  : option St :=
  if Qltb (NewRoutingTime (G s)) (TotalDuration (proj (G s)))
  then execRouting fuel elapsedTime s
  else Some s.

(** [swmm_step(&elapsedTime)]: the state, the returned code and the value
    of [*elapsedTime] afterwards. *)
Definition swmm_step (fuel : nat) (elapsedTime : Q) (s : St)
  : option (St * ErrorType * Q) :=
  if is_set (ErrorCode (G s)) then Some (s, ErrorCode (G s), elapsedTime) else
  if negb (IsOpenFlag s) || negb (IsStartedFlag s) then
    let s := call (report_writeErrorMsg ERR_NOT_OPEN "") s in
    Some (s, ErrorCode (G s), elapsedTime)
  else
    match route_if_not_done fuel elapsedTime s with
    | None => None
    | Some s =>
        let s := save_at_ReportTime s in
        Some (s, ErrorCode (G s), new_elapsedTime (G s))
    end.

(** A caller making consecutive [swmm_step] calls on the same
    [elapsedTime] variable, one per entry of [fuels] (as the loop of
    [swmm_run] does, without its stopping test). *)
Fixpoint swmm_steps (fuels : list nat) (elapsedTime : Q) (s : St)
  : option (St * Q) :=
  match fuels with
  | [] => Some (s, elapsedTime)
  | fuel :: rest =>
      match swmm_step fuel elapsedTime s with
      | None => None
      | Some (s, _, elapsedTime) => swmm_steps rest elapsedTime s
      end
  end.

(** [swmm_end()]. *)
Definition swmm_end (s : St) : St * ErrorType :=
  if negb (IsOpenFlag s) then
    let s := call (report_writeErrorMsg ERR_NOT_OPEN "") s in
    (s, ErrorCode (G s))
  else
    let s :=
      if IsStartedFlag s then
        let s := if Fout_file (proj (G s)) then call output_end s else s in
        let s := if negb (is_set (ErrorCode (G s)))
                 then call stats_report (call massbal_report s) else s in
        let s := call stats_close s in
        let s := call massbal_close s in
        let s := if negb (IgnoreRainfall (proj (G s)))
                 then call rain_close s else s in
        let s := if DoRunoff s then call runoff_close s else s in
        let s := if DoRouting s
                 then call (routing_close (RouteModel (proj (G s)))) s
                 else s in
        let s := call hotstart_close s in
        set_IsStartedFlag false s
      else s in
    (s, ErrorCode (G s)).

(** *** Coupling functions *)

(** [swmm_getNodeID(index, id)]: the returned code and the contents of
    [id] afterwards. *)
Definition swmm_getNodeID (index : Z) (id : string) (s : St)
  : outcome (ErrorType * string) :=
  if IsOpenFlag s then
    if (Nobjects_NODE (proj (G s)) <=? index)%Z then Ret (ERR_NUMBER, id)
    else
      match Node_at (Node (G s)) index with
      | Some n => Ret (ERR_NONE, sstrncpy (TNode.ID n) MAXLINE)
      | None => Undefined
      end
  else Ret (ERR_NOT_OPEN, id).

(** The fields [swmm_getNodeData] copies from a node. *)
Definition nodeData_of (n : TNode.t) : nodeData.t :=
  nodeData.mk (TNode.inflow n) (TNode.outflow n)
    (TNode.invertElev n + TNode.newDepth n)
    (TNode.invertElev n + TNode.fullDepth n)
    (TNode.type n) (TNode.subIndex n) (TNode.invertElev n)
    (TNode.initDepth n) (TNode.fullDepth n) (TNode.surDepth n)
    (TNode.pondedArea n) (TNode.degree n) (TNode.updated n)
    (TNode.crownElev n) (TNode.losses n) (TNode.newVolume n)
    (TNode.fullVolume n) (TNode.overflow n) (TNode.newDepth n)
    (TNode.newLatFlow n).

(** [swmm_getNodeData(index, data)]: the returned code and [*data]
    afterwards. *)
Definition swmm_getNodeData (index : Z) (data : nodeData.t) (s : St)
  : outcome (ErrorType * nodeData.t) :=
  if IsOpenFlag s then
    match Node_at (Node (G s)) index with
    | Some n => Ret (ERR_NONE, nodeData_of n)
    | None => Undefined
    end
  else Ret (ERR_NOT_OPEN, data).

(** [swmm_addNodeInflow(index, inflow)]. *)
Definition swmm_addNodeInflow (index : Z) (inflow : Q) (s : St)
  : outcome (St * ErrorType) :=
  if IsOpenFlag s then
    match Node_at (Node (G s)) index with
    | Some n =>
        Ret (on_G (fun g =>
               set_Node (Node_put (Node g) (Z.to_nat index)
                                  (TNode.add_dllInflow inflow n)) g) s,
             ERR_NONE)
    | None => Undefined
    end
  else Ret (s, ERR_NOT_OPEN).

End Engine.

(** ** A reference instance of the other modules

    Used to run the functions above on concrete projects. *)

Module Reference.

(** Modelled from the spec: the collaborators of its section 6, which live
    in other modules of the engine.  The report writer records the error
    ("any error sets a sticky process-wide code"); the runoff engine
    "advances its own clock by one internal step" (the wet-weather step)
    and reports a non-positive step as an error; the routing engine
    "advances shared routing clock" to the candidate instant; every other
    call leaves the shared globals as they are. *)
Definition extern (c : Call) (g : Shared unit) : Shared unit :=
  match c with
  | report_writeErrorMsg code _ => set_ErrorCode code g
  | runoff_execute =>
      if (WetStep (proj g) <=? 0)%Z then set_ErrorCode ERR_TIMESTEP g
      else set_NewRunoffTime
             (NewRunoffTime g + inject_Z (1000 * WetStep (proj g))) g
  | routing_execute _ routingStep =>
      set_NewRoutingTime (candidate_instant routingStep g) g
  | _ => g
  end.

(** Modelled from the spec: "getStepLength(method, nominalStep)", here the
    nominal step itself. *)
Definition routing_getRoutingStep (routingModel : Z) (fixedStep : Q)
  (g : Shared unit) : Q := fixedStep.

(** Modelled from the spec: the hot-start "open() -> boolean", here with no
    checkpoint to fail on. *)
Definition hotstart_open_result (g : Shared unit) : bool := true.

(** Modelled from the spec: date-times are decimal days ("elapsed-days"),
    so adding seconds adds their share of a day. *)
Definition datetime_addSeconds (date1 seconds : Q) : Q :=
  date1 + seconds / 86400.

Definition MAXLINE : nat := 1024.

Definition a_node : TNode.t :=
  TNode.mk "J1" 0 0 10 0 2 0 0 1 0 12 0 0 0 0 0 0 (1 # 2) 0 0.

(** A project of two days reported daily, routed in steps of six hours. *)
Definition two_days (nsubcatch nnode : Z) : Project :=
  mkProject false false nsubcatch nnode 86400 300 21600 0 172800000 0
            false false true.

(** A project without subcatchments or nodes whose wet-weather step is
    zero. *)
Definition stalled : Project :=
  mkProject false false 0 0 86400 0 21600 0 172800000 0 false false true.

Definition globals (p : Project) : Shared unit :=
  mkShared ERR_NONE 0 0 0 0 0 0 0 0 0 0 [a_node] p tt.

(** A project of two hours, reported and routed every hour. *)
Definition hourly : Project :=
  mkProject false false 0 1 3600 300 3600 0 7200000 0 false false true.

(** A project of one minute routed in steps of 59.9995 seconds. *)
Definition odd_step : Project :=
  mkProject false false 0 1 30 10 (119999 # 2000) 0 60000 0
            false false true.

(** Modelled from the spec: a routing engine whose "execute(method,
    stepSeconds)" advances the shared routing clock by the step it is
    handed; every other call as in [extern]. *)
Definition advancing (c : Call) (g : Shared unit) : Shared unit :=
  match c with
  | routing_execute _ routingStep =>
      set_NewRoutingTime (NewRoutingTime g + 1000 * routingStep) g
  | _ => extern c g
  end.

(** Before [swmm_open]. *)
Definition closed (p : Project) : St unit :=
  mkSt false false false 0 false false (globals p) [].

Definition open := swmm_open extern.
Definition start := swmm_start extern hotstart_open_result.
Definition step := swmm_step extern routing_getRoutingStep datetime_addSeconds.
Definition steps :=
  swmm_steps extern routing_getRoutingStep datetime_addSeconds.
Definition route :=
  execRouting extern routing_getRoutingStep datetime_addSeconds.
Definition finish := swmm_end extern.

(** After [swmm_open]. *)
Definition opened (p : Project) : St unit :=
  fst (open "in" "rpt" "out" (closed p)).

(** After [swmm_open] and [swmm_start(TRUE)]. *)
Definition started (p : Project) : St unit :=
  fst (start true (opened p)).

(** A simulation started twice: the second [swmm_start] has set the
    not-open error. *)
Definition started_twice : St unit :=
  fst (start true (started (two_days 0 1))).

(** The same with the routing engine that advances by the step it is
    handed. *)
Definition started_advancing (p : Project) : St unit :=
  fst (swmm_start advancing hotstart_open_result true
         (fst (swmm_open advancing "in" "rpt" "out" (closed p)))).

(** After [n] further calls of [swmm_step]. *)
Definition stepped (n : nat) (p : Project) : option (St unit * Q) :=
  steps (repeat 1000%nat n) 0 (started p).

End Reference.

(** * More of [swmm5.c]

    The rest of the driver: the run as a whole, its report and its closing,
    the accessors of the coupling interface, the general purpose functions
    and the exception filter of the Windows build. *)

(** ** General purpose functions *)

(** A cast of a [double] to [long] or [int]: the fraction is dropped. *)
Definition trunc (x : Q) : Z := Z.quot (Qnum x) (Zpos (Qden x)).

(** [%d]. *)
Definition decimal (z : Z) : string := NilZero.string_of_int (Z.to_int z).

(** [Ucf[10][2]]: a row per quantity, US and SI. *)
Definition Ucf : list (Q * Q) :=
  [ (43200.0, 1097280.0);
    (12.0, 304.8);
    (1036800.0, 26334720.0);
    (1.0, 0.3048);
    (2.2956e-5, 0.92903e-5);
    (1.0, 0.02832);
    (1.0, 1.608);
    (1.0, 1.8);
    (2.203e-6, 1.0e-6);
    (43560.0, 3048.0) ].

(** [Qcf[6]]. *)
Definition Qcf : list Q :=
  [ 1.0; 448.831; 0.64632; 0.02832; 28.317; 2.4466 ].

(** [a[i]] for a C [int] index. *)
Definition at_index {A : Type} (a : list A) (i : Z) : option A :=
  if (i <? 0)%Z then None else nth_error a (Z.to_nat i).

(** [UCF(u)], given [FLOW] of [enums.h] and the globals [UnitSystem] and
    [FlowUnits]. *)
Definition UCF (FLOW UnitSystem FlowUnits : Z) (u : Z) : outcome Q :=
  if (u <? FLOW)%Z then
    match at_index Ucf u with
    | Some (us, si) =>
        match UnitSystem with
        | 0%Z => Ret us
        | 1%Z => Ret si
        | _ => Undefined
        end
    | None => Undefined
    end
  else
    match at_index Qcf FlowUnits with
    | Some f => Ret f
    | None => Undefined
    end.

Section Strings.

(** The macro [UCHAR] of [macros.h]. *)
Variable UCHAR : ascii -> ascii.

(** [strcomp(s1, s2)], on what is left of the two strings from position
    [i] on.  A string ends in a NUL that is not part of it; the loop
    compares that NUL like any character, and looks one character further
    whenever two characters agree. *)
Fixpoint strcomp (s1 s2 : string) : outcome Z :=
  match s1, s2 with
  | String c1 r1, String c2 r2 =>
      if Ascii.eqb (UCHAR c1) (UCHAR c2) then
        match r1, r2 with
        | EmptyString, EmptyString => Ret 1%Z
        | _, _ => strcomp r1 r2
        end
      else Ret 0%Z
  | String c1 _, EmptyString =>
      if Ascii.eqb (UCHAR c1) (UCHAR zero) then Undefined else Ret 0%Z
  | EmptyString, String c2 _ =>
      if Ascii.eqb (UCHAR zero) (UCHAR c2) then Undefined else Ret 0%Z
  | EmptyString, EmptyString =>
      if Ascii.eqb (UCHAR zero) (UCHAR zero) then Undefined else Ret 0%Z
  end.

(** The characters of a string, each through [UCHAR]. *)
Fixpoint folded (s : string) : list ascii :=
  match s with
  | EmptyString => []
  | String c r => UCHAR c :: folded r
  end.

(** No character of the string is taken for the closing NUL. *)
Fixpoint NUL_apart (s : string) : Prop :=
  match s with
  | EmptyString => True
  | String c r => UCHAR c <> UCHAR zero /\ NUL_apart r
  end.

End Strings.

(** ** Arrays of the coupling interface *)

(** [a[i] = x]. *)
Fixpoint array_put {A : Type} (a : list A) (i : nat) (x : A) : list A :=
  match a, i with
  | [], _ => []
  | _ :: rest, O => x :: rest
  | y :: rest, S j => y :: array_put rest j x
  end.

(** [for (i = 0; i < Nobjects[NODE]; i++) buf[i] = field(Node[i]);] with
    [count] iterations to go from index [i]. *)
Fixpoint copy_nodes (field : TNode.t -> Q) (nodes : list TNode.t)
    (count i : nat) (buf : list Q) : outcome (list Q) :=
  match count with
  | O => Ret buf
  | S count' =>
      match nth_error nodes i with
      | None => Undefined
      | Some n =>
          if (i <? List.length buf)%nat
          then copy_nodes field nodes count' (S i) (array_put buf i (field n))
          else Undefined
      end
  end.

(** [Node[index].fullDepth = depth]. *)
Definition TNode_set_fullDepth (depth : Q) (n : TNode.t) : TNode.t :=
  TNode.mk (TNode.ID n) (TNode.type n) (TNode.subIndex n)
    (TNode.invertElev n) (TNode.initDepth n) depth (TNode.surDepth n)
    (TNode.pondedArea n) (TNode.degree n) (TNode.updated n)
    (TNode.crownElev n) (TNode.inflow n) (TNode.outflow n)
    (TNode.losses n) (TNode.newVolume n) (TNode.fullVolume n)
    (TNode.overflow n) (TNode.newDepth n) (TNode.newLatFlow n)
    (TNode.dllInflow n).

(** [Node[index].fullVolume = volume]. *)
Definition TNode_set_fullVolume (volume : Q) (n : TNode.t) : TNode.t :=
  TNode.mk (TNode.ID n) (TNode.type n) (TNode.subIndex n)
    (TNode.invertElev n) (TNode.initDepth n) (TNode.fullDepth n)
    (TNode.surDepth n) (TNode.pondedArea n) (TNode.degree n)
    (TNode.updated n) (TNode.crownElev n) (TNode.inflow n)
    (TNode.outflow n) (TNode.losses n) (TNode.newVolume n) volume
    (TNode.overflow n) (TNode.newDepth n) (TNode.newLatFlow n)
    (TNode.dllInflow n).

(** [Node[index].pondedArea = area]. *)
Definition TNode_set_pondedArea (area : Q) (n : TNode.t) : TNode.t :=
  TNode.mk (TNode.ID n) (TNode.type n) (TNode.subIndex n)
    (TNode.invertElev n) (TNode.initDepth n) (TNode.fullDepth n)
    (TNode.surDepth n) area (TNode.degree n) (TNode.updated n)
    (TNode.crownElev n) (TNode.inflow n) (TNode.outflow n)
    (TNode.losses n) (TNode.newVolume n) (TNode.fullVolume n)
    (TNode.overflow n) (TNode.newDepth n) (TNode.newLatFlow n)
    (TNode.dllInflow n).

(** ** Further calls into the other modules and the C library

    Those of [swmm_run], [swmm_report], [swmm_close] and [xfilter]; they are
    performed on the shared globals, not recorded. *)
Inductive Service : Type :=
| output_checkFileSize
| report_writeErrorCode
| report_writeReport
| output_close
| project_close
| report_writeSysTime
| fclose_Finp
| fclose_Frpt
| fclose_Fout
| remove_Fout
| sprintf_Msg (theDay theHour : Z)
| report_writeLine (line : string).

(** The operating system exceptions [xfilter] tells apart. *)
Inductive ExceptionCode : Type :=
| EXCEPTION_ACCESS_VIOLATION
| EXCEPTION_FLT_DENORMAL_OPERAND
| EXCEPTION_FLT_DIVIDE_BY_ZERO
| EXCEPTION_FLT_INVALID_OPERATION
| EXCEPTION_FLT_OVERFLOW
| EXCEPTION_FLT_STACK_CHECK
| EXCEPTION_FLT_UNDERFLOW
| EXCEPTION_INT_DIVIDE_BY_ZERO
| EXCEPTION_INT_OVERFLOW
| EXCEPTION_other (xc : Z).

(** What an exception filter answers. *)
Inductive Disposition : Type :=
| EXCEPTION_EXECUTE_HANDLER
| EXCEPTION_CONTINUE_EXECUTION.

Definition is_EXECUTE_HANDLER (rc : Disposition) : bool :=
  match rc with
  | EXCEPTION_EXECUTE_HANDLER => true
  | EXCEPTION_CONTINUE_EXECUTION => false
  end.

Definition MAX_EXCEPTIONS : Z := 100.

(** The line feed that opens each text. *)
Definition LF : string := String (ascii_of_nat 10) EmptyString.

(** The [switch] of [xfilter]: the text and the answer for each code. *)
Definition xfilter_case (xc : ExceptionCode) : string * Disposition :=
  match xc with
  | EXCEPTION_ACCESS_VIOLATION =>
      (LF ++ "  Access violation ", EXCEPTION_EXECUTE_HANDLER)
  | EXCEPTION_FLT_DENORMAL_OPERAND =>
      (LF ++ "  Illegal floating point operand ",
       EXCEPTION_CONTINUE_EXECUTION)
  | EXCEPTION_FLT_DIVIDE_BY_ZERO =>
      (LF ++ "  Floating point divide by zero ",
       EXCEPTION_CONTINUE_EXECUTION)
  | EXCEPTION_FLT_INVALID_OPERATION =>
      (LF ++ "  Illegal floating point operation ",
       EXCEPTION_CONTINUE_EXECUTION)
  | EXCEPTION_FLT_OVERFLOW =>
      (LF ++ "  Floating point overflow ", EXCEPTION_CONTINUE_EXECUTION)
  | EXCEPTION_FLT_STACK_CHECK =>
      (LF ++ "  Floating point stack violation ",
       EXCEPTION_EXECUTE_HANDLER)
  | EXCEPTION_FLT_UNDERFLOW =>
      (LF ++ "  Floating point underflow ", EXCEPTION_CONTINUE_EXECUTION)
  | EXCEPTION_INT_DIVIDE_BY_ZERO =>
      (LF ++ "  Integer divide by zero ", EXCEPTION_CONTINUE_EXECUTION)
  | EXCEPTION_INT_OVERFLOW =>
      (LF ++ "  Integer overflow ", EXCEPTION_CONTINUE_EXECUTION)
  | EXCEPTION_other n =>
      (LF ++ "  Exception " ++ decimal n, EXCEPTION_EXECUTE_HANDLER)
  end%string.

Section Driver.

Variable World : Type.
Variable extern : Call -> Shared World -> Shared World.
Variable routing_getRoutingStep : Z -> Q -> Shared World -> Q.
Variable hotstart_open_result : Shared World -> bool.
Variable datetime_addSeconds : Q -> Q -> Q.

(** What a further call does to the shared globals. *)
Variable service : Service -> Shared World -> Shared World.

(** [Fout.mode == SCRATCH_FILE], [Finp.file != NULL], [Frpt.file != NULL]:
    the files are part of the world. *)
Variable Fout_scratch : Shared World -> bool.
Variable Finp_file : Shared World -> bool.
Variable Frpt_file : Shared World -> bool.

(** [datetime_decodeTime(time, &h, &m, &s)] of [datetime.c]: the hours,
    minutes and seconds. *)
Variable datetime_decodeTime : Q -> Z * Z * Z.

(** [node_getVolume(j, d)] of [node.c]. *)
Variable node_getVolume : Z -> Q -> Shared World -> Q.

(** The cast [(float)] of a [double]. *)
Variable float_of_double : Q -> Q.

(** A further call, performed on the shared globals. *)
Definition perform (c : Service) (s : St World) : St World :=
  on_G (service c) s.

(** *** [swmm_run] *)

(** The body of the loop of [swmm_run] (lines 240-250): the state, the
    elapsed time and [oldHour] afterwards.  [writecon] does nothing in a
    library. *)
Definition run_iteration (fuel : nat) (elapsedTime : Q) (oldHour : Z)
    (s : St World) : option (St World * Q * Z) :=
  match swmm_step extern routing_getRoutingStep datetime_addSeconds
                  fuel elapsedTime s with
  | None => None
  | Some (s, _, elapsedTime) =>
      let newHour := trunc (elapsedTime * 24) in
      if (oldHour <? newHour)%Z then
        let theDay := trunc elapsedTime in
        let theHour :=
          trunc ((elapsedTime - inject_Z (Qfloor elapsedTime)) * 24) in
        let s := perform (sprintf_Msg theDay theHour) s in
        Some (s, elapsedTime, newHour)
      else Some (s, elapsedTime, oldHour)
  end.

(** [do { ... } while ( elapsedTime > 0.0 && !ErrorCode )], with a bound
    on the runoff loop for each iteration allowed. *)
Fixpoint run_loop (fuels : list nat) (elapsedTime : Q) (oldHour : Z)
    (s : St World) : option (St World * Q * Z) :=
  match fuels with
  | [] => None
  | fuel :: rest =>
      match run_iteration fuel elapsedTime oldHour s with
      | None => None
      | Some (s, elapsedTime, oldHour) =>
          if Qltb 0 elapsedTime && negb (is_set (ErrorCode (G s)))
          then run_loop rest elapsedTime oldHour s
          else Some (s, elapsedTime, oldHour)
      end
  end.

(** [swmm_report()]. *)
Definition swmm_report (s : St World) : St World * ErrorType :=
  let s := if Fout_scratch (G s) then perform output_checkFileSize s
           else s in
  let s := if is_set (ErrorCode (G s)) then perform report_writeErrorCode s
           else perform report_writeReport s in
  (s, ErrorCode (G s)).

(** [swmm_close()]. *)
Definition swmm_close (s : St World) : St World * ErrorType :=
  let s := if Fout_file (proj (G s)) then perform output_close s else s in
  let s := if IsOpenFlag s then perform project_close s else s in
  let s := perform report_writeSysTime s in
  let s := if Finp_file (G s) then perform fclose_Finp s else s in
  let s := if Frpt_file (G s) then perform fclose_Frpt s else s in
  let s := if Fout_file (proj (G s)) then
             let s := perform fclose_Fout s in
             if Fout_scratch (G s) then perform remove_Fout s else s
           else s in
  let s := set_IsOpenFlag false s in
  let s := set_IsStartedFlag false s in
  (s, ERR_NONE).

(** [swmm_run(f1, f2, f3)]; [None] when the bounds are too small. *)
Definition swmm_run (fuels : list nat) (f1 f2 f3 : string) (s : St World)
  : option (St World * ErrorType) :=
  let s := on_G (set_ErrorCode ERR_NONE) s in
  let s := fst (swmm_open extern f1 f2 f3 s) in
  let after_run :=
    if negb (is_set (ErrorCode (G s))) then
      let s := fst (swmm_start extern hotstart_open_result true s) in
      let after_loop :=
        if negb (is_set (ErrorCode (G s))) then
          match run_loop fuels 0 0 s with
          | None => None
          | Some (s, _, _) => Some s
          end
        else Some s in
      match after_loop with
      | None => None
      | Some s => Some (fst (swmm_end extern s))
      end
    else Some s in
  match after_run with
  | None => None
  | Some s =>
      let s := if Fout_scratch (G s) then fst (swmm_report s) else s in
      let s := fst (swmm_close s) in
      Some (s, ErrorCode (G s))
  end.

(** [swmm_getMassBalErr(&runoffErr, &flowErr, &qualErr)]: the three
    values written and the returned code. *)
Definition swmm_getMassBalErr (s : St World) : Q * Q * Q * ErrorType :=
  let runoffErr := 0 in
  let flowErr := 0 in
  let qualErr := 0 in
  if IsOpenFlag s && negb (IsStartedFlag s)
  then (float_of_double (RunoffError (G s)),
        float_of_double (FlowError (G s)),
        float_of_double (QualError (G s)), ERR_NONE)
  else (runoffErr, flowErr, qualErr, ERR_NONE).

(** *** Coupling functions *)

(** The loop of [swmm_getNodeInflows], [swmm_getNodeOutflows] and
    [swmm_getNodeHeads], and what surrounds it. *)
Definition get_node_values (field : TNode.t -> Q) (buf : list Q)
    (s : St World) : outcome (ErrorType * list Q) :=
  if IsOpenFlag s then
    match copy_nodes field (Node (G s))
                     (Z.to_nat (Nobjects_NODE (proj (G s)))) 0 buf with
    | Ret buf => Ret (ERR_NONE, buf)
    | Undefined => Undefined
    end
  else Ret (ERR_NOT_OPEN, buf).

(** [swmm_getNodeInflows(flows)]. *)
Definition swmm_getNodeInflows (flows : list Q) (s : St World)
  : outcome (ErrorType * list Q) :=
  get_node_values TNode.inflow flows s.

(** [swmm_getNodeOutflows(flows)]. *)
Definition swmm_getNodeOutflows (flows : list Q) (s : St World)
  : outcome (ErrorType * list Q) :=
  get_node_values TNode.outflow flows s.

(** [swmm_getNodeHeads(heads)]. *)
Definition swmm_getNodeHeads (heads : list Q) (s : St World)
  : outcome (ErrorType * list Q) :=
  get_node_values (fun n => TNode.invertElev n + TNode.newDepth n) heads s.

(** [swmm_setNodeFullDepth(index, depth)]. *)
Definition swmm_setNodeFullDepth (index : Z) (depth : Q) (s : St World)
  : outcome (St World * ErrorType) :=
  if IsOpenFlag s then
    match Node_at (Node (G s)) index with
    | Some n =>
        let g := set_Node (Node_put (Node (G s)) (Z.to_nat index)
                                    (TNode_set_fullDepth depth n)) (G s) in
        let volume := node_getVolume index depth g in
        Ret (on_G (fun _ =>
               set_Node (Node_put (Node g) (Z.to_nat index)
                           (TNode_set_fullVolume volume
                              (TNode_set_fullDepth depth n))) g) s,
             ERR_NONE)
    | None => Undefined
    end
  else Ret (s, ERR_NOT_OPEN).

(** [swmm_setNodePondedArea(index, area)]. *)
Definition swmm_setNodePondedArea (index : Z) (area : Q) (s : St World)
  : outcome (St World * ErrorType) :=
  if IsOpenFlag s then
    match Node_at (Node (G s)) index with
    | Some n =>
        Ret (on_G (fun g =>
               set_Node (Node_put (Node g) (Z.to_nat index)
                                  (TNode_set_pondedArea area n)) g) s,
             ERR_NONE)
    | None => Undefined
    end
  else Ret (s, ERR_NOT_OPEN).

(** *** [getElapsedTime] *)

(** [getElapsedTime(aDate, &days, &hrs, &mins)]: the three values. *)
Definition getElapsedTime (aDate : Q) (g : Shared World) : Z * Z * Z :=
  let x := aDate - StartDateTime (proj g) in
  if Qleb x 0 then (0, 0, 0)%Z
  else
    let '(hrs, mins, secs) := datetime_decodeTime x in
    (trunc x, hrs, mins).

(** *** [xfilter] (Windows build) *)

(** [xfilter(xc, elapsedTime, step)]: the state afterwards and the answer. *)
Definition xfilter (xc : ExceptionCode) (elapsedTime : Q) (step : Z)
    (s : St World) : St World * Disposition :=
  let '(msg, rc) := xfilter_case xc in
  let hour := trunc (elapsedTime / 1000 / 3600) in
  let xmsg :=
    (msg ++ " at step " ++ decimal step ++ ", hour " ++ decimal hour)%string
  in
  let '(halt, s) :=
    if is_EXECUTE_HANDLER rc then (true, s)
    else
      let s := set_ExceptionCount (ExceptionCount s + 1)%Z s in
      ((MAX_EXCEPTIONS <=? ExceptionCount s)%Z, s) in
  let xmsg :=
    if halt then (xmsg ++ " --- execution halted.")%string else xmsg in
  let rc := if halt then EXCEPTION_EXECUTE_HANDLER else rc in
  (perform (report_writeLine xmsg) s, rc).

End Driver.

(** ** Calls in a row *)

(** [swmm_addNodeInflow] on the state a first call leaves. *)
Definition then_addNodeInflow {World : Type} (index : Z) (inflow : Q)
    (r : outcome (St World * ErrorType)) : outcome (St World * ErrorType) :=
  match r with
  | Ret (s, _) => swmm_addNodeInflow index inflow s
  | Undefined => Undefined
  end.

(** The exceptions [xfilter] lets execution continue after. *)
Definition continuable (xc : ExceptionCode) : bool :=
  negb (is_EXECUTE_HANDLER (snd (xfilter_case xc))).

(** [xfilter] on one exception after the other: the state in the end and
    the answers. *)
Fixpoint xfilter_all {World : Type}
    (service : Service -> Shared World -> Shared World)
    (xcs : list ExceptionCode) (elapsedTime : Q) (step : Z) (s : St World)
  : St World * list Disposition :=
  match xcs with
  | [] => (s, [])
  | xc :: rest =>
      let '(s, rc) := xfilter service xc elapsedTime step s in
      let '(s, rcs) := xfilter_all service rest elapsedTime step s in
      (s, rc :: rcs)
  end.

(** ** Kinds of calls, and the file-local variables together *)

Definition is_report_writeErrorMsg (c : Call) : bool :=
  match c with report_writeErrorMsg _ _ => true | _ => false end.

Definition is_report_writeOptions (c : Call) : bool :=
  match c with report_writeOptions => true | _ => false end.

(** The calls that close what [swmm_start] opened. *)
Definition is_closing (c : Call) : bool :=
  match c with
  | stats_close | massbal_close | rain_close | runoff_close
  | routing_close _ | hotstart_close => true
  | _ => false
  end.

(** The calls [swmm_end] makes. *)
Definition is_teardown (c : Call) : bool :=
  match c with
  | output_end | massbal_report | stats_report | stats_close
  | massbal_close | rain_close | runoff_close | routing_close _
  | hotstart_close => true
  | _ => false
  end.

(** The calls of [swmm_end] leave the options of the project that it
    reads as they are. *)
Definition teardown_keeps_options {World : Type}
    (extern : Call -> Shared World -> Shared World) : Prop :=
  forall (c : Call) (g : Shared World),
    is_teardown c = true ->
    IgnoreRainfall (proj (extern c g)) = IgnoreRainfall (proj g) /\
    RouteModel (proj (extern c g)) = RouteModel (proj g).

(** The calls that report on the run as a whole. *)
Definition is_summary (c : Call) : bool :=
  match c with
  | massbal_report | stats_report => true
  | _ => false
  end.

(** The [static] variables of [swmm5.c]. *)
Definition statics {World : Type} (s : St World)
  : bool * bool * bool * Z * bool * bool :=
  (IsOpenFlag s, IsStartedFlag s, SaveResultsFlag s, ExceptionCount s,
   DoRunoff s, DoRouting s).

(** The other modules leave the step counter alone during a step. *)
Definition step_count_is_the_driver's {World : Type}
    (extern : Call -> Shared World -> Shared World) : Prop :=
  forall (c : Call) (g : Shared World),
    step_call c = true -> StepCount (extern c g) = StepCount g.

(** ** The run as a whole *)

(** The report instants: [n] of them from [t] on, [interval] apart. *)
Fixpoint report_instants (n : nat) (t interval : Q) : list Q :=
  match n with
  | O => []
  | S n => t :: report_instants n (t + interval) interval
  end.

(** The instant that follows them. *)
Fixpoint report_instant_after (n : nat) (t interval : Q) : Q :=
  match n with
  | O => t
  | S n => report_instant_after n (t + interval) interval
  end.

(** What the reporting of a run has come to: the results saved so far, the
    report time and the report step. *)
Definition schedule {World : Type} (s : St World) : list Call * Q * Z :=
  (List.filter is_output_saveResults (trace s),
   ReportTime (G s), ReportStep (proj (G s))).

(** Writing the progress text of [swmm_run] into [Msg] touches neither the
    routing clock, nor total duration, nor the error code. *)
Definition progress_text_is_text {World : Type}
    (service : Service -> Shared World -> Shared World) : Prop :=
  forall (theDay theHour : Z) (g : Shared World),
    NewRoutingTime (service (sprintf_Msg theDay theHour) g)
      = NewRoutingTime g /\
    TotalDuration (proj (service (sprintf_Msg theDay theHour) g))
      = TotalDuration (proj g) /\
    ErrorCode (service (sprintf_Msg theDay theHour) g) = ErrorCode g.

(** The routing engine proposes no positive step shorter than [d]
    seconds. *)
Definition routing_step_at_least {World : Type}
    (routing_getRoutingStep : Z -> Q -> Shared World -> Q) (d : Q) : Prop :=
  forall (routingModel : Z) (fixedStep : Q) (g : Shared World),
    0 < routing_getRoutingStep routingModel fixedStep g ->
    d <= routing_getRoutingStep routingModel fixedStep g.

(** ** The reference instance, continued *)

Module Reference2.

(** Further calls leave the shared globals as they are. *)
Definition service (c : Service) (g : Shared unit) : Shared unit := g.

Definition Fout_scratch (g : Shared unit) : bool := false.
Definition Finp_file (g : Shared unit) : bool := true.
Definition Frpt_file (g : Shared unit) : bool := true.

(** Hours, minutes and seconds of the fraction of a day. *)
Definition datetime_decodeTime (t : Q) : Z * Z * Z :=
  let secs := Qfloor ((t - inject_Z (Qfloor t)) * 86400) in
  ((secs / 3600)%Z, ((secs mod 3600) / 60)%Z, (secs mod 60)%Z).

(** The cast of a value that a [float] holds exactly. *)
Definition float_of_double (x : Q) : Q := x.

(** The volume of a node of unit area. *)
Definition node_getVolume (j : Z) (d : Q) (g : Shared unit) : Q := d.

(** Lower case letters to upper case. *)
Definition UCHAR (c : ascii) : ascii :=
  let n := nat_of_ascii c in
  if ((97 <=? n) && (n <=? 122))%nat then ascii_of_nat (n - 32) else c.

(** A routing engine whose step is the nominal step, though a second at
    least. *)
Definition routing_getRoutingStep (routingModel : Z) (fixedStep : Q)
  (g : Shared unit) : Q := MAX fixedStep 1.

Definition run :=
  swmm_run Reference.extern routing_getRoutingStep
           Reference.hotstart_open_result Reference.datetime_addSeconds
           service Fout_scratch Finp_file Frpt_file.

Definition loop :=
  run_loop Reference.extern routing_getRoutingStep
           Reference.datetime_addSeconds service.

(** A project of one minute reported every thirty seconds, routed in steps
    of twenty seconds. *)
Definition one_minute : Project :=
  mkProject false false 0 1 30 10 20 0 60000 0 false false true.

Definition close := swmm_close service Fout_scratch Finp_file Frpt_file.

(** A second node. *)
Definition b_node : TNode.t :=
  TNode.mk "J2" 0 1 8 0 3 0 0 1 0 11 (3 # 2) (1 # 4) 0 0 0 0 1 0 0.

(** An open project with two nodes. *)
Definition two_nodes : St unit :=
  mkSt true false false 0 false false
    (mkShared ERR_NONE 0 0 0 0 0 0 0 0 0 0 [Reference.a_node; b_node]
       (Reference.two_days 0 2) tt)
    [].

End Reference2.

(** * Properties *)

Unset Implicit Arguments.

(** ** Tests and comparisons *)

Lemma wrap_int_fits (z : Z) : fits_int z -> wrap_int z = z.
Proof.
  unfold fits_int, wrap_int. intro H.
  change (2 ^ 31)%Z with 2147483648%Z in *.
  change (2 ^ 32)%Z with 4294967296%Z.
  rewrite Z.mod_small by lia. lia.
Qed.

(** Beyond the range of an [int] the product wraps around. *)
Example int_mul_overflows : int_mul 1000 3000000 = (-1294967296)%Z.
Proof. reflexivity. Qed.

Lemma is_set_false (e : ErrorType) : is_set e = false <-> e = ERR_NONE.
Proof. destruct e; simpl; split; congruence. Qed.

Lemma is_set_true (e : ErrorType) : is_set e = true <-> e <> ERR_NONE.
Proof. destruct e; simpl; split; congruence. Qed.

Lemma Qltb_lt (x y : Q) : Qltb x y = true <-> x < y.
Proof.
  unfold Qltb. rewrite Qlt_alt. destruct (x ?= y); split; congruence.
Qed.

Lemma Qltb_ge (x y : Q) : Qltb x y = false <-> y <= x.
Proof.
  split; intro H.
  - apply Qnot_lt_le. intro L. apply Qltb_lt in L. congruence.
  - destruct (Qltb x y) eqn:E; [|reflexivity].
    apply Qltb_lt in E. exfalso. exact (Qle_not_lt _ _ H E).
Qed.

Lemma Qleb_le (x y : Q) : Qleb x y = true <-> x <= y.
Proof. apply Qle_bool_iff. Qed.

Lemma Qleb_gt (x y : Q) : Qleb x y = false <-> y < x.
Proof.
  split; intro H.
  - apply Qnot_le_lt. intro L. apply Qleb_le in L. congruence.
  - destruct (Qleb x y) eqn:E; [|reflexivity].
    apply Qleb_le in E. exfalso. exact (Qle_not_lt _ _ E H).
Qed.

Lemma count_app (p : Call -> bool) (t u : list Call) :
  count p (t ++ u) = (count p t + count p u)%nat.
Proof. unfold count. rewrite filter_app, length_app. reflexivity. Qed.

Lemma MAX_lower (x y : Q) : y <= MAX x y.
Proof.
  unfold MAX. destruct (Qleb y x) eqn:E.
  - now apply Qleb_le.
  - apply Qle_refl.
Qed.

Lemma MAX_upper (x y : Q) : x <= MAX x y.
Proof.
  unfold MAX. destruct (Qleb y x) eqn:E.
  - apply Qle_refl.
  - apply Qleb_gt in E. now apply Qlt_le_weak.
Qed.

Lemma MAX_left (x y : Q) : y <= x -> MAX x y = x.
Proof. intro H. unfold MAX. apply Qleb_le in H. now rewrite H. Qed.

(** Every rational is below some multiple of a positive one. *)
Lemma Q_archimedean (x d : Q) :
  0 < d -> exists n : nat, x <= inject_Z (Z.of_nat n) * d.
Proof.
  intro Hd.
  exists (Z.to_nat (Qceiling (x / d))).
  assert (Hc : x / d <= inject_Z (Z.of_nat (Z.to_nat (Qceiling (x / d))))).
  { apply Qle_trans with (inject_Z (Qceiling (x / d))).
    - apply Qle_ceiling.
    - rewrite <- Zle_Qle. lia. }
  apply Qle_trans with (x / d * d).
  - assert (E : x / d * d == x) by (field; lra). rewrite E. apply Qle_refl.
  - apply Qmult_le_compat_r; [exact Hc | lra].
Qed.

Section Properties.

Variable World : Type.
Variable extern : Call -> Shared World -> Shared World.
Variable routing_getRoutingStep : Z -> Q -> Shared World -> Q.
Variable hotstart_open_result : Shared World -> bool.
Variable datetime_addSeconds : Q -> Q -> Q.
Variable MAXLINE : nat.

Local Abbreviation State := (St World).
Local Abbreviation do_call := (call extern).
Local Abbreviation loop := (runoff_loop extern).
Local Abbreviation runoffs := (runoff_calls extern).
Local Abbreviation candidate := (candidate_routingStep routing_getRoutingStep).
Local Abbreviation exec :=
  (execRouting extern routing_getRoutingStep datetime_addSeconds).
Local Abbreviation route_guarded :=
  (route_if_not_done extern routing_getRoutingStep datetime_addSeconds).
Local Abbreviation step :=
  (swmm_step extern routing_getRoutingStep datetime_addSeconds).
Local Abbreviation steps :=
  (swmm_steps extern routing_getRoutingStep datetime_addSeconds).
Local Abbreviation start := (swmm_start extern hotstart_open_result).
Local Abbreviation save := (save_at_ReportTime extern).
Local Abbreviation open := (swmm_open extern).
Local Abbreviation finish := (swmm_end extern).

(** Projections of updated states. *)
Ltac st_simpl :=
  cbn [call on_G count_step
       trace G IsOpenFlag IsStartedFlag SaveResultsFlag ExceptionCount
       DoRunoff DoRouting
       set_IsOpenFlag set_IsStartedFlag set_SaveResultsFlag
       set_ExceptionCount set_DoRunoff set_DoRouting
       ErrorCode WarningCode NewRunoffTime NewRoutingTime ReportTime
       StepCount NonConvergeCount RunoffError GwaterError FlowError
       QualError Node proj world
       set_ErrorCode set_WarningCode set_NewRunoffTime set_NewRoutingTime
       set_ReportTime set_StepCount set_NonConvergeCount
       clear_continuity_errors set_Node].

Ltac st_simpl_in H :=
  cbn [call on_G count_step
       trace G IsOpenFlag IsStartedFlag SaveResultsFlag ExceptionCount
       DoRunoff DoRouting
       set_IsOpenFlag set_IsStartedFlag set_SaveResultsFlag
       set_ExceptionCount set_DoRunoff set_DoRouting
       ErrorCode WarningCode NewRunoffTime NewRoutingTime ReportTime
       StepCount NonConvergeCount RunoffError GwaterError FlowError
       QualError Node proj world
       set_ErrorCode set_WarningCode set_NewRunoffTime set_NewRoutingTime
       set_ReportTime set_StepCount set_NonConvergeCount
       clear_continuity_errors set_Node] in H.

(** ** The runoff loop *)

Lemma runoff_calls_S (k : nat) (s : State) :
  runoffs (S k) s = runoffs k (do_call runoff_execute s).
Proof. unfold runoff_calls. apply Nat.iter_succ_r. Qed.

Lemma runoff_calls_trace (k : nat) (s : State) :
  trace (runoffs k s) = trace s ++ repeat runoff_execute k.
Proof.
  induction k as [|k IH].
  - simpl. now rewrite app_nil_r.
  - change (runoffs (S k) s)
      with (do_call runoff_execute (runoffs k s)).
    unfold call at 1. cbn [trace]. rewrite IH.
    rewrite <- app_assoc. f_equal.
    change [runoff_execute] with (repeat runoff_execute 1).
    rewrite <- repeat_app. now rewrite Nat.add_comm.
Qed.

Lemma runoff_calls_statics (k : nat) (s : State) :
  IsOpenFlag (runoffs k s) = IsOpenFlag s /\
  IsStartedFlag (runoffs k s) = IsStartedFlag s /\
  SaveResultsFlag (runoffs k s) = SaveResultsFlag s /\
  DoRunoff (runoffs k s) = DoRunoff s /\
  DoRouting (runoffs k s) = DoRouting s.
Proof.
  induction k as [|k IH]; [simpl; tauto|].
  change (runoffs (S k) s)
    with (do_call runoff_execute (runoffs k s)).
  unfold call at 1 2 3 4 5. cbn [IsOpenFlag IsStartedFlag SaveResultsFlag
    DoRunoff DoRouting]. exact IH.
Qed.

Lemma runoff_loop_eq (fuel : nat) (next : Q) (s : State) :
  loop fuel next s =
  if Qltb (NewRunoffTime (G s)) next then
    match fuel with
    | O => None
    | S fuel' =>
        if is_set (ErrorCode (G (do_call runoff_execute s)))
        then Some (true, do_call runoff_execute s)
        else loop fuel' next (do_call runoff_execute s)
    end
  else Some (false, s).
Proof. destruct fuel; reflexivity. Qed.

(** What the loop has done when it is over: some number of runoff calls,
    each made with the runoff clock still short of the next routing time
    and, but for the last, without error; it returned from within exactly
    when the last call left an error, and it fell through exactly when the
    clock had reached the next routing time. *)
Lemma runoff_loop_spec (fuel : nat) (next : Q) :
  forall (s : State) (b : bool) (s' : State),
    loop fuel next s = Some (b, s') ->
    exists k : nat,
      s' = runoffs k s /\
      (forall j, (j < k)%nat ->
         NewRunoffTime (G (runoffs j s)) < next) /\
      (forall j, (0 < j < k)%nat ->
         ErrorCode (G (runoffs j s)) = ERR_NONE) /\
      (b = true -> (0 < k)%nat /\ ErrorCode (G s') <> ERR_NONE) /\
      (b = false -> next <= NewRunoffTime (G s') /\
                    ((0 < k)%nat -> ErrorCode (G s') = ERR_NONE)).
Proof.
  assert (Hzero : forall s : State,
            Qltb (NewRunoffTime (G s)) next = false ->
            exists k : nat,
              s = runoffs k s /\
              (forall j, (j < k)%nat ->
                 NewRunoffTime (G (runoffs j s)) < next) /\
              (forall j, (0 < j < k)%nat ->
                 ErrorCode (G (runoffs j s)) = ERR_NONE) /\
              (false = true -> (0 < k)%nat /\ ErrorCode (G s) <> ERR_NONE) /\
              (false = false -> next <= NewRunoffTime (G s) /\
                            ((0 < k)%nat -> ErrorCode (G s) = ERR_NONE))).
  { intros s E. exists 0%nat.
    split; [reflexivity|]. split; [intros j Hj; lia|].
    split; [intros j Hj; lia|]. split; [discriminate|].
    intros _. split; [now apply Qltb_ge|intro Hk; lia]. }
  induction fuel as [|fuel IH]; intros s b s' H; rewrite runoff_loop_eq in H.
  - destruct (Qltb (NewRunoffTime (G s)) next) eqn:E; [discriminate|].
    inversion H; subst. now apply Hzero.
  - destruct (Qltb (NewRunoffTime (G s)) next) eqn:E.
    + destruct (is_set (ErrorCode (G (do_call runoff_execute s)))) eqn:Er.
      * inversion H; subst. exists 1%nat.
        split; [reflexivity|]. split; [|split; [|split]].
        -- intros j Hj. assert (j = 0)%nat by lia. subst. simpl.
           now apply Qltb_lt.
        -- intros j Hj. lia.
        -- intros _. split; [lia|]. now apply is_set_true.
        -- discriminate.
      * destruct (IH _ _ _ H) as (k & -> & Hlt & Hok & Ht & Hf).
        exists (S k). rewrite runoff_calls_S.
        split; [reflexivity|]. split; [|split; [|split]].
        -- intros [|j] Hj; [simpl; now apply Qltb_lt|].
           rewrite runoff_calls_S. apply Hlt. lia.
        -- intros [|j] Hj; [lia|]. rewrite runoff_calls_S.
           destruct j as [|j]; [simpl; now apply is_set_false|].
           apply Hok. lia.
        -- intro Hb. destruct (Ht Hb) as [_ Hne]. split; [lia|exact Hne].
        -- intro Hb. destruct (Hf Hb) as [Hge Hnone]. split; [exact Hge|].
           intros _. destruct k as [|k]; [simpl; now apply is_set_false|].
           apply Hnone. lia.
    + inversion H; subst. now apply Hzero.
Qed.

(** More iterations allowed, same result. *)
Lemma runoff_loop_more_fuel (fuel : nat) (next : Q) :
  forall (s : State) (r : bool * State) (fuel' : nat),
    loop fuel next s = Some r -> (fuel <= fuel')%nat ->
    loop fuel' next s = Some r.
Proof.
  induction fuel as [|fuel IH]; intros s r fuel' H Hle;
    rewrite runoff_loop_eq in H; rewrite runoff_loop_eq.
  - destruct (Qltb (NewRunoffTime (G s)) next) eqn:E;
      [discriminate|exact H].
  - destruct fuel' as [|fuel']; [lia|].
    destruct (Qltb (NewRunoffTime (G s)) next); [|exact H].
    destruct (is_set (ErrorCode (G (do_call runoff_execute s))));
      [exact H|].
    apply IH; [exact H|lia].
Qed.

(** The saving of results, seen from the flags and the clocks. *)
Lemma save_statics (s : State) :
  IsOpenFlag (save s) = IsOpenFlag s /\
  IsStartedFlag (save s) = IsStartedFlag s /\
  SaveResultsFlag (save s) = SaveResultsFlag s /\
  DoRunoff (save s) = DoRunoff s /\
  DoRouting (save s) = DoRouting s.
Proof.
  unfold save_at_ReportTime.
  destruct (Qleb (ReportTime (G s)) (NewRoutingTime (G s)));
    [|tauto].
  destruct (SaveResultsFlag s) eqn:E; st_simpl; rewrite ?E; tauto.
Qed.

Lemma save_keeps_clocks (s : State) :
  saving_keeps_clocks extern ->
  NewRoutingTime (G (save s)) = NewRoutingTime (G s) /\
  NewRunoffTime (G (save s)) = NewRunoffTime (G s) /\
  StepCount (G (save s)) = StepCount (G s) /\
  TotalDuration (proj (G (save s))) = TotalDuration (proj (G s)).
Proof.
  intro Hsave. unfold save_at_ReportTime.
  destruct (Qleb (ReportTime (G s)) (NewRoutingTime (G s)));
    [|tauto].
  destruct (SaveResultsFlag s); st_simpl; [|tauto].
  apply Hsave.
Qed.

Section RunoffAdvances.

(** The runoff engine "advances its own clock by one internal step": by
    at least [min_runoff_step] milliseconds whenever it reports no
    error. *)
Variable min_runoff_step : Q.
Hypothesis min_runoff_step_pos : 0 < min_runoff_step.
Hypothesis runoff_execute_advances : forall g : Shared World,
  ErrorCode (extern runoff_execute g) = ERR_NONE ->
  NewRunoffTime g + min_runoff_step <= NewRunoffTime (extern runoff_execute g).

Lemma runoff_loop_enough_fuel (n : nat) (next : Q) :
  forall (s : State) (fuel : nat),
    next - NewRunoffTime (G s) <= inject_Z (Z.of_nat n) * min_runoff_step ->
    (n <= fuel)%nat ->
    exists r, loop fuel next s = Some r.
Proof.
  induction n as [|n IH]; intros s fuel Hn Hle.
  - assert (E : Qltb (NewRunoffTime (G s)) next = false).
    { apply Qltb_ge. change (inject_Z (Z.of_nat 0)) with 0 in Hn. lra. }
    rewrite runoff_loop_eq, E. eauto.
  - destruct fuel as [|fuel]; [lia|]. rewrite runoff_loop_eq.
    destruct (Qltb (NewRunoffTime (G s)) next); [|eauto].
    destruct (is_set (ErrorCode (G (do_call runoff_execute s)))) eqn:Er;
      [eauto|].
    apply IH; [|lia].
    apply is_set_false in Er. simpl in Er.
    pose proof (runoff_execute_advances _ Er) as Hadv. simpl.
    rewrite Nat2Z.inj_succ in Hn. unfold Z.succ in Hn.
    rewrite inject_Z_plus in Hn. change (inject_Z 1) with 1 in Hn.
    setoid_replace ((inject_Z (Z.of_nat n) + 1) * min_runoff_step)
      with (inject_Z (Z.of_nat n) * min_runoff_step + min_runoff_step)
      in Hn by ring.
    lra.
Qed.

(** The loop ends, whatever the state it starts in. *)
Lemma runoff_loop_terminates (next : Q) (s : State) :
  exists fuel0 : nat, forall fuel, (fuel0 <= fuel)%nat ->
    exists r, loop fuel next s = Some r.
Proof.
  destruct (Q_archimedean (next - NewRunoffTime (G s)) _ min_runoff_step_pos)
    as [n Hn].
  exists n. intros fuel Hle. now apply runoff_loop_enough_fuel with n.
Qed.

(** The orchestrator returns. *)
Lemma execRouting_returns (e : Q) (s : State) :
  exists fuel0 : nat, forall fuel, (fuel0 <= fuel)%nat ->
    exists s' : State, exec fuel e s = Some s'.
Proof.
  unfold execRouting.
  destruct (Qleb (candidate (count_step s)) 0); [exists 0%nat; eauto|].
  destruct (adjust_routingStep (candidate (count_step s)) (G (count_step s)))
    as [routingStep next].
  destruct (DoRunoff (count_step s)).
  - destruct (runoff_loop_terminates next (count_step s)) as [fuel0 H0].
    exists fuel0. intros fuel Hle.
    destruct (H0 fuel Hle) as [[[|] s2] ->]; eauto.
  - exists 0%nat. eauto.
Qed.

(** ** The runoff catch-up *)

(** C3: in an invocation of the orchestrator with runoff on that gets past
    the check of the step length, the runoff engine is called some number
    [k] of times in a row, each call made with the runoff clock still short
    of the next routing time and following calls that left no error.
    Either the last call left an error, and the invocation is over at once
    (no routing: the state is the one that call left, also when that call
    took the runoff clock to the next routing time); or no call left an
    error, the runoff clock has reached or passed the next routing time,
    and routing goes on from there.  The invocation returns, given the
    runoff engine advances its clock. *)
Theorem C3_runoff_catches_up (e : Q) (s : State) :
  DoRunoff s = true ->
  0 < candidate (count_step s) ->
  let s1 := count_step s in
  let routingStep := fst (adjust_routingStep (candidate s1) (G s1)) in
  let next := snd (adjust_routingStep (candidate s1) (G s1)) in
  exists fuel0 : nat, forall fuel, (fuel0 <= fuel)%nat ->
    exists k : nat,
      let s2 := runoffs k s1 in
      (forall j, (j < k)%nat -> NewRunoffTime (G (runoffs j s1)) < next) /\
      (forall j, (0 < j < k)%nat ->
         ErrorCode (G (runoffs j s1)) = ERR_NONE) /\
      trace s2 = trace s ++ repeat runoff_execute k /\
      (((0 < k)%nat /\ ErrorCode (G s2) <> ERR_NONE /\
        exec fuel e s = Some s2)
       \/
       (next <= NewRunoffTime (G s2) /\
        (forall j, (0 < j <= k)%nat ->
           ErrorCode (G (runoffs j s1)) = ERR_NONE) /\
        exists s' : State,
          exec fuel e s = Some s' /\
          s' = (if DoRouting s
                then do_call (routing_execute (RouteModel (proj (G s2)))
                                              routingStep) s2
                else on_G (set_NewRoutingTime next) s2) /\
          (runoff_clock_is_runoff's extern ->
           next <= NewRunoffTime (G s')))).
Proof.
  intros Hon Hpos s1 routingStep next.
  destruct (runoff_loop_terminates next s1) as [fuel0 H0].
  exists fuel0. intros fuel Hle.
  destruct (H0 fuel Hle) as [[b s2] Hloop].
  destruct (runoff_loop_spec _ _ _ _ _ Hloop) as (k & -> & Hlt & Hok & Ht & Hf).
  exists k. cbv zeta.
  split; [exact Hlt|]. split; [exact Hok|].
  split; [rewrite runoff_calls_trace; reflexivity|].
  assert (Hexec : exec fuel e s =
            match loop fuel next s1 with
            | None => None
            | Some (true, s) => Some s
            | Some (false, s) =>
                Some (if DoRouting s
                      then do_call (routing_execute (RouteModel (proj (G s)))
                                                    routingStep) s
                      else on_G (set_NewRoutingTime next) s)
            end).
  { unfold execRouting. apply Qleb_gt in Hpos. rewrite Hpos. fold s1.
    subst routingStep next.
    destruct (adjust_routingStep (candidate s1) (G s1)) as [a b'].
    replace (DoRunoff s1) with true by (symmetry; exact Hon).
    reflexivity. }
  rewrite Hloop in Hexec.
  destruct (runoff_calls_statics k s1) as (_ & _ & _ & _ & Hrt).
  destruct b.
  - left. destruct (Ht eq_refl) as [Hk Hne]. auto.
  - right. destruct (Hf eq_refl) as [Hge Hnone]. split; [exact Hge|].
    split.
    { intros j Hj. destruct (Nat.eq_dec j k) as [->|Hne].
      - apply Hnone. lia.
      - apply Hok. lia. }
    eexists. split; [exact Hexec|]. rewrite Hrt.
    change (DoRouting s1) with (DoRouting s).
    split; [reflexivity|].
    intro Hframe. destruct (DoRouting s).
    + st_simpl. rewrite Hframe by reflexivity. exact Hge.
    + exact Hge.
Qed.

(** ** The elapsed time handed back *)

(** C1: a call of [swmm_step] on a started simulation without error
    returns.  With [m] the state the orchestrator leaves: when the routing
    clock of [m] is below total duration, the elapsed time written is that
    clock over the milliseconds of a day; when it has reached total
    duration, it is exactly 0.  A call made with the routing clock already
    at total duration does not run the orchestrator, writes 0 and leaves
    the step counter, the routing clock and the runoff clock as they are,
    so that the next call finds the same situation again. *)
Theorem C1_elapsed_time (e : Q) (s : State) :
  saving_keeps_clocks extern ->
  IsOpenFlag s = true ->
  IsStartedFlag s = true ->
  ErrorCode (G s) = ERR_NONE ->
  exists fuel0 : nat, forall fuel, (fuel0 <= fuel)%nat ->
    exists (m s' : State) (rc : ErrorType) (e' : Q),
      route_guarded fuel e s = Some m /\
      step fuel e s = Some (s', rc, e') /\
      s' = save m /\
      (NewRoutingTime (G m) < TotalDuration (proj (G m)) ->
       e' = NewRoutingTime (G m) / MSECperDAY) /\
      (TotalDuration (proj (G m)) <= NewRoutingTime (G m) -> e' = 0) /\
      (TotalDuration (proj (G s)) <= NewRoutingTime (G s) ->
       m = s /\ e' = 0 /\
       StepCount (G s') = StepCount (G s) /\
       NewRoutingTime (G s') = NewRoutingTime (G s) /\
       NewRunoffTime (G s') = NewRunoffTime (G s) /\
       TotalDuration (proj (G s')) <= NewRoutingTime (G s') /\
       IsOpenFlag s' = true /\ IsStartedFlag s' = true).
Proof.
  intros Hsave Ho Hs He.
  destruct (execRouting_returns e s) as [fuel0 H0].
  exists fuel0. intros fuel Hle.
  assert (Hm : exists m, route_guarded fuel e s = Some m /\
                 (TotalDuration (proj (G s)) <= NewRoutingTime (G s) ->
                  m = s)).
  { unfold route_if_not_done.
    destruct (Qltb (NewRoutingTime (G s)) (TotalDuration (proj (G s))))
      eqn:E.
    - destruct (H0 fuel Hle) as [m Hm]. exists m. split; [exact Hm|].
      intro Hge. apply Qltb_lt in E. exfalso. exact (Qle_not_lt _ _ Hge E).
    - exists s. split; auto. }
  destruct Hm as (m & Hm & Hdone).
  destruct (save_keeps_clocks m Hsave) as (Kt & Kr & Kc & Kd).
  exists m, (save m), (ErrorCode (G (save m))), (new_elapsedTime (G (save m))).
  split; [exact Hm|].
  split.
  { unfold swmm_step. rewrite He, Ho, Hs. cbn [is_set negb orb].
    now rewrite Hm. }
  split; [reflexivity|].
  assert (Hlt : NewRoutingTime (G m) < TotalDuration (proj (G m)) ->
                new_elapsedTime (G (save m)) =
                NewRoutingTime (G m) / MSECperDAY).
  { intro L. unfold new_elapsedTime. rewrite Kt, Kd.
    apply Qltb_lt in L. now rewrite L. }
  assert (Hge : TotalDuration (proj (G m)) <= NewRoutingTime (G m) ->
                new_elapsedTime (G (save m)) = 0).
  { intro L. unfold new_elapsedTime. rewrite Kt, Kd.
    apply Qltb_ge in L. now rewrite L. }
  split; [exact Hlt|]. split; [exact Hge|].
  intro Hend. pose proof (Hdone Hend) as ->.
  destruct (save_statics s) as (So & Ss & _).
  split; [reflexivity|]. split; [now apply Hge|].
  rewrite Kt, Kr, Kc, Kd, So, Ss. auto 10.
Qed.

End RunoffAdvances.

(** ** An invalid time step *)

(** C5: when the routing step computed for an invocation of the
    orchestrator is not positive, the invocation ends with the error code
    set to the invalid-timestep code; the routing and runoff clocks are as
    before and no call to the runoff, climate or routing engines was made
    (the trace is as before); only the step counter has moved.  Seen from
    [swmm_step], when no report is due, the call returns that code. *)
Theorem C5_invalid_timestep_aborts (fuel : nat) (e : Q) (s : State) :
  candidate (count_step s) <= 0 ->
  exists s' : State,
    exec fuel e s = Some s' /\
    ErrorCode (G s') = ERR_TIMESTEP /\
    is_set (ErrorCode (G s')) = true /\
    NewRoutingTime (G s') = NewRoutingTime (G s) /\
    NewRunoffTime (G s') = NewRunoffTime (G s) /\
    StepCount (G s') = (StepCount (G s) + 1)%Z /\
    trace s' = trace s /\
    (IsOpenFlag s = true -> IsStartedFlag s = true ->
     ErrorCode (G s) = ERR_NONE ->
     NewRoutingTime (G s) < TotalDuration (proj (G s)) ->
     NewRoutingTime (G s) < ReportTime (G s) ->
     step fuel e s =
     Some (s', ERR_TIMESTEP, NewRoutingTime (G s) / MSECperDAY)).
Proof.
  intro Hc.
  exists (on_G (set_ErrorCode ERR_TIMESTEP) (count_step s)).
  assert (Hexec : exec fuel e s =
                  Some (on_G (set_ErrorCode ERR_TIMESTEP) (count_step s))).
  { unfold execRouting. apply Qleb_le in Hc. now rewrite Hc. }
  split; [exact Hexec|].
  repeat (split; [reflexivity|]).
  intros Ho Hs He Ht Hr.
  unfold swmm_step, route_if_not_done.
  rewrite He, Ho, Hs. cbn [is_set negb orb].
  pose proof Ht as Ht'. apply Qltb_lt in Ht'. rewrite Ht', Hexec.
  unfold save_at_ReportTime, new_elapsedTime.
  cbn [on_G count_step G set_ErrorCode set_StepCount ReportTime
       NewRoutingTime proj ErrorCode].
  apply Qleb_gt in Hr. rewrite Hr.
  cbn [on_G count_step G set_ErrorCode set_StepCount ReportTime
       NewRoutingTime proj ErrorCode].
  now rewrite Ht'.
Qed.

(** ** The routing clock and total duration *)

Lemma execRouting_statics (fuel : nat) (e : Q) (s m : State) :
  exec fuel e s = Some m ->
  IsOpenFlag m = IsOpenFlag s /\
  IsStartedFlag m = IsStartedFlag s /\
  SaveResultsFlag m = SaveResultsFlag s /\
  DoRunoff m = DoRunoff s /\
  DoRouting m = DoRouting s.
Proof.
  unfold execRouting.
  destruct (Qleb (candidate (count_step s)) 0).
  { intro E. injection E as <-. st_simpl. repeat split. }
  destruct (adjust_routingStep _ _) as [a b].
  destruct (DoRunoff (count_step s)).
  - destruct (loop fuel b (count_step s)) as [[r s2]|] eqn:Hloop;
      [|discriminate].
    destruct (runoff_loop_spec _ _ _ _ _ Hloop) as (k & -> & _).
    pose proof (runoff_calls_statics k (count_step s)) as Hst.
    destruct r; intro E; injection E as <-; [exact Hst|].
    match goal with |- context [if ?b then _ else _] => generalize b end.
    intros [|]; st_simpl; exact Hst.
  - intro E. injection E as <-.
    match goal with
    | |- context [if ?b then _ else _] => destruct b eqn:Hb
    end; st_simpl; st_simpl_in Hb; repeat split; assumption.
Qed.

(** The adjustment of the routing step, for a positive step and a routing
    clock short of total duration. *)
Lemma adjust_routingStep_spec (routingStep : Q) (g : Shared World) :
  0 < routingStep ->
  NewRoutingTime g < TotalDuration (proj g) ->
  let adjusted := fst (adjust_routingStep routingStep g) in
  let next := snd (adjust_routingStep routingStep g) in
  NewRoutingTime g < next /\
  next <= TotalDuration (proj g) /\
  candidate_instant adjusted g == next /\
  (TotalDuration (proj g) < NewRoutingTime g + 1000 * routingStep ->
   next = TotalDuration (proj g) /\
   adjusted = MAX ((TotalDuration (proj g) - NewRoutingTime g) / 1000)
                  (1 / 1000) /\
   1 / 1000 <= adjusted /\
   (1 <= TotalDuration (proj g) - NewRoutingTime g ->
    NewRoutingTime g + 1000 * adjusted == TotalDuration (proj g))) /\
  (NewRoutingTime g + 1000 * routingStep <= TotalDuration (proj g) ->
   adjusted = routingStep /\
   next = NewRoutingTime g + 1000 * routingStep).
Proof.
  intros Hpos Hlt. unfold adjust_routingStep. cbv zeta.
  set (T := TotalDuration (proj g)) in *.
  set (t := NewRoutingTime g) in *.
  destruct (Qltb T (t + 1000 * routingStep)) eqn:E; cbn [fst snd].
  - apply Qltb_lt in E.
    pose proof (MAX_lower ((T - t) / 1000) (1 / 1000)) as Hlow.
    pose proof (MAX_upper ((T - t) / 1000) (1 / 1000)) as Hup.
    set (a := MAX ((T - t) / 1000) (1 / 1000)) in *.
    assert (Hreach : T <= t + 1000 * a).
    { assert (E1 : 1000 * ((T - t) / 1000) == T - t) by (field; lra).
      assert (E2 : 1000 * ((T - t) / 1000) <= 1000 * a)
        by (apply Qmult_le_l; [lra|exact Hup]).
      lra. }
    split; [exact Hlt|]. split; [apply Qle_refl|].
    split.
    { unfold candidate_instant. cbv zeta. fold T t.
      destruct (Qltb T (t + 1000 * a)) eqn:E'; [reflexivity|].
      apply Qltb_ge in E'. now apply Qle_antisym. }
    split.
    { intros _. split; [reflexivity|]. split; [reflexivity|].
      split; [exact Hlow|].
      intro Hms. subst a. rewrite MAX_left.
      - field.
      - apply Qle_shift_div_l; [lra|].
        change (1 / 1000) with (1 # 1000). lra. }
    intro Hno. exfalso. exact (Qle_not_lt _ _ Hno E).
  - apply Qltb_ge in E.
    split; [lra|]. split; [exact E|].
    split.
    { unfold candidate_instant. cbv zeta. fold T t.
      apply Qltb_ge in E. rewrite E. reflexivity. }
    split.
    { intro Hover. exfalso. exact (Qle_not_lt _ _ E Hover). }
    intros _. split; reflexivity.
Qed.

Section ClockDiscipline.

Hypothesis routing_clock : routing_clock_is_routing's extern.
Hypothesis total_fixed : total_duration_fixed extern.
Hypothesis routing_contract : routing_reaches_candidate extern.
Hypothesis saving_error : saving_keeps_error extern.

Lemma runoff_calls_clock (k : nat) (s : State) :
  NewRoutingTime (G (runoffs k s)) = NewRoutingTime (G s) /\
  TotalDuration (proj (G (runoffs k s))) = TotalDuration (proj (G s)).
Proof.
  induction k as [|k IH]; [simpl; tauto|].
  change (runoffs (S k) s) with (do_call runoff_execute (runoffs k s)).
  st_simpl. rewrite routing_clock, total_fixed by reflexivity. exact IH.
Qed.

(** One invocation of the orchestrator, entered with the routing clock
    short of total duration. *)
Lemma execRouting_clock (fuel : nat) (e : Q) (s m : State) :
  NewRoutingTime (G s) < TotalDuration (proj (G s)) ->
  exec fuel e s = Some m ->
  TotalDuration (proj (G m)) = TotalDuration (proj (G s)) /\
  (ErrorCode (G m) = ERR_NONE ->
   NewRoutingTime (G s) <= NewRoutingTime (G m) /\
   NewRoutingTime (G m) <= TotalDuration (proj (G s))).
Proof.
  intros Hlt. unfold execRouting.
  destruct (Qleb (candidate (count_step s)) 0) eqn:Hc.
  { intro E. injection E as <-. st_simpl.
    split; [reflexivity|discriminate]. }
  apply Qleb_gt in Hc.
  pose proof (adjust_routingStep_spec _ (G (count_step s)) Hc Hlt) as Hadj.
  rewrite (surjective_pairing
             (adjust_routingStep (candidate (count_step s))
                                 (G (count_step s)))).
  cbv zeta in Hadj.
  set (adjusted := fst (adjust_routingStep _ _)) in *.
  set (next := snd (adjust_routingStep _ _)) in *.
  destruct Hadj as (Hnext1 & Hnext2 & Hinst & _).
  st_simpl_in Hnext1. st_simpl_in Hnext2.
  (* what routing does, from a state with the clock of [s] *)
  assert (Hroute : forall s2 : State,
            NewRoutingTime (G s2) = NewRoutingTime (G s) ->
            TotalDuration (proj (G s2)) = TotalDuration (proj (G s)) ->
            let m' := if DoRouting s2
                      then do_call (routing_execute
                                      (RouteModel (proj (G s2))) adjusted) s2
                      else on_G (set_NewRoutingTime next) s2 in
            TotalDuration (proj (G m')) = TotalDuration (proj (G s)) /\
            (ErrorCode (G m') = ERR_NONE ->
             NewRoutingTime (G s) <= NewRoutingTime (G m') /\
             NewRoutingTime (G m') <= TotalDuration (proj (G s)))).
  { intros s2 Ht HT. cbv zeta. destruct (DoRouting s2); st_simpl.
    - rewrite total_fixed by reflexivity. split; [exact HT|].
      intro Hok. pose proof (routing_contract _ _ _ Hok) as Hrc.
      assert (Hci : candidate_instant adjusted (G s2) == next).
      { rewrite <- Hinst. unfold candidate_instant. cbv zeta. st_simpl.
        rewrite Ht, HT. reflexivity. }
      rewrite Hrc, Hci. split; [now apply Qlt_le_weak|exact Hnext2].
    - split; [exact HT|]. intros _.
      split; [now apply Qlt_le_weak|exact Hnext2]. }
  destruct (DoRunoff (count_step s)).
  - destruct (loop fuel next (count_step s)) as [[r s2]|] eqn:Hloop;
      [|discriminate].
    destruct (runoff_loop_spec _ _ _ _ _ Hloop) as (k & -> & _ & _ & Ht & _).
    destruct (runoff_calls_clock k (count_step s)) as [Kt KT].
    st_simpl_in Kt. st_simpl_in KT.
    destruct r; intro E; injection E as <-.
    + split; [exact KT|]. intro Hok. destruct (Ht eq_refl) as [_ Hne].
      contradiction.
    + now apply Hroute.
  - intro E. injection E as <-.
    match goal with
    | |- context [on_G (set_NewRoutingTime next) ?x] => apply (Hroute x)
    end; st_simpl.
    + now rewrite routing_clock by reflexivity.
    + now rewrite total_fixed by reflexivity.
Qed.

Lemma save_clock (m : State) :
  NewRoutingTime (G (save m)) = NewRoutingTime (G m) /\
  TotalDuration (proj (G (save m))) = TotalDuration (proj (G m)) /\
  (ErrorCode (G (save m)) = ERR_NONE -> ErrorCode (G m) = ERR_NONE).
Proof.
  unfold save_at_ReportTime.
  destruct (Qleb (ReportTime (G m)) (NewRoutingTime (G m))); [|tauto].
  destruct (SaveResultsFlag m); st_simpl; [|tauto].
  rewrite routing_clock, total_fixed by reflexivity.
  split; [reflexivity|]. split; [reflexivity|].
  intro Hok. destruct (ErrorCode (G m)) eqn:Em; [reflexivity| | | | |];
    exfalso; apply (saving_error (ReportTime (G m)) (G m));
    solve [rewrite Em; discriminate | exact Hok].
Qed.

Lemma swmm_steps_after_error (fuels : list nat) (e : Q) (s : State) :
  ErrorCode (G s) <> ERR_NONE -> steps fuels e s = Some (s, e).
Proof.
  intro He. induction fuels as [|fuel rest IH]; [reflexivity|].
  cbn [swmm_steps]. unfold swmm_step.
  apply is_set_true in He. rewrite He. exact IH.
Qed.

End ClockDiscipline.

Lemma MAX_right (x y : Q) : x < y -> MAX x y = y.
Proof. intro H. unfold MAX. apply Qleb_gt in H. now rewrite H. Qed.

(** The step the orchestrator hands on when clock plus step would pass
    total duration: what is left, a millisecond at least. *)
Lemma clamped_step (t T : Q) :
  t < T ->
  let handed := MAX ((T - t) / 1000) (1 / 1000) in
  1 / 1000 <= handed /\
  T <= t + 1000 * handed /\
  t + 1000 * handed < T + 1 /\
  (1 <= T - t -> t + 1000 * handed == T) /\
  (T - t < 1 -> t + 1000 * handed == t + 1).
Proof.
  intro Hlt. cbv zeta.
  assert (E1 : 1000 * ((T - t) / 1000) == T - t) by (field; lra).
  assert (E2 : 1000 * (1 / 1000) == 1) by reflexivity.
  split; [apply MAX_lower|].
  destruct (Qlt_le_dec ((T - t) / 1000) (1 / 1000)) as [Hsmall|Hbig].
  - rewrite (MAX_right _ _ Hsmall).
    assert (H1 : 1000 * ((T - t) / 1000) < 1000 * (1 / 1000))
      by (apply Qmult_lt_l; [reflexivity|exact Hsmall]).
    repeat split; intros; lra.
  - rewrite (MAX_left _ _ Hbig).
    assert (H1 : 1000 * (1 / 1000) <= 1000 * ((T - t) / 1000))
      by (apply Qmult_le_l; [reflexivity|exact Hbig]).
    repeat split; intros; lra.
Qed.

Section StepAdvance.

Hypothesis routing_clock : routing_clock_is_routing's extern.
Hypothesis total_fixed : total_duration_fixed extern.
Hypothesis advances : routing_advances_by_step extern.
Hypothesis saving_error : saving_keeps_error extern.

(** One invocation of the orchestrator that leaves no error, entered with
    the routing clock short of total duration: the step handed to the
    routing engine and where the clock is left. *)
Lemma execRouting_advance (fuel : nat) (e : Q) (s m : State) :
  NewRoutingTime (G s) < TotalDuration (proj (G s)) ->
  exec fuel e s = Some m ->
  ErrorCode (G m) = ERR_NONE ->
  let t := NewRoutingTime (G s) in
  let T := TotalDuration (proj (G s)) in
  let routingStep := candidate (count_step s) in
  let handed := if Qltb T (t + 1000 * routingStep)
                then MAX ((T - t) / 1000) (1 / 1000) else routingStep in
  let next := if Qltb T (t + 1000 * routingStep)
              then T else t + 1000 * routingStep in
  0 < routingStep /\
  TotalDuration (proj (G m)) = T /\
  DoRouting m = DoRouting s /\
  (DoRouting s = true ->
   (exists (pre : list Call) (model : Z),
      trace m = pre ++ [routing_execute model handed]) /\
   NewRoutingTime (G m) == t + 1000 * handed) /\
  (DoRouting s = false -> NewRoutingTime (G m) = next).
Proof.
  intros Hlt. cbv zeta. unfold execRouting.
  destruct (Qleb (candidate (count_step s)) 0) eqn:Hc.
  { intro E. injection E as <-. st_simpl. discriminate. }
  apply Qleb_gt in Hc. unfold adjust_routingStep. cbv zeta. st_simpl.
  set (routingStep := candidate (count_step s)) in *.
  set (t := NewRoutingTime (G s)) in *.
  set (T := TotalDuration (proj (G s))) in *.
  assert (Hpair : (if Qltb T (t + 1000 * routingStep)
                   then (MAX ((T - t) / 1000) (1 / 1000), T)
                   else (routingStep, t + 1000 * routingStep))
                  = (if Qltb T (t + 1000 * routingStep)
                     then MAX ((T - t) / 1000) (1 / 1000) else routingStep,
                     if Qltb T (t + 1000 * routingStep)
                     then T else t + 1000 * routingStep))
    by (now destruct (Qltb T (t + 1000 * routingStep))).
  rewrite Hpair. clear Hpair. cbv beta iota.
  set (handed := if Qltb T (t + 1000 * routingStep)
                 then MAX ((T - t) / 1000) (1 / 1000) else routingStep).
  set (next := if Qltb T (t + 1000 * routingStep)
               then T else t + 1000 * routingStep).
  assert (Hroute : forall s2 : State,
            NewRoutingTime (G s2) = t ->
            TotalDuration (proj (G s2)) = T ->
            DoRouting s2 = DoRouting s ->
            let m' := if DoRouting s2
                      then do_call (routing_execute
                                      (RouteModel (proj (G s2))) handed) s2
                      else on_G (set_NewRoutingTime next) s2 in
            ErrorCode (G m') = ERR_NONE ->
            0 < routingStep /\
            TotalDuration (proj (G m')) = T /\
            DoRouting m' = DoRouting s /\
            (DoRouting s = true ->
             (exists (pre : list Call) (model : Z),
                trace m' = pre ++ [routing_execute model handed]) /\
             NewRoutingTime (G m') == t + 1000 * handed) /\
            (DoRouting s = false -> NewRoutingTime (G m') = next)).
  { intros s2 Ht HT Hr. cbv zeta. rewrite Hr.
    destruct (DoRouting s) eqn:Hd; st_simpl; intro Hok.
    - split; [exact Hc|].
      split; [now rewrite total_fixed by reflexivity|].
      split; [exact Hr|].
      split; [|discriminate]. intros _. split.
      + exists (trace s2), (RouteModel (proj (G s2))). reflexivity.
      + rewrite (advances _ _ _ Hok), Ht. reflexivity.
    - split; [exact Hc|]. split; [exact HT|]. split; [exact Hr|].
      split; [discriminate|]. reflexivity. }
  destruct (DoRunoff s).
  - destruct (loop fuel next (count_step s)) as [[r s2]|] eqn:Hloop;
      [|discriminate].
    destruct (runoff_loop_spec _ _ _ _ _ Hloop) as (k & -> & _ & _ & Hb & _).
    destruct (runoff_calls_clock routing_clock total_fixed k (count_step s))
      as [Kt KT].
    destruct (runoff_calls_statics k (count_step s)) as (_ & _ & _ & _ & Kr).
    st_simpl_in Kt. st_simpl_in KT. st_simpl_in Kr.
    destruct r; intro E; injection E as <-.
    + intro Hok. destruct (Hb eq_refl) as [_ Hne]. contradiction.
    + now apply Hroute.
  - intro E. injection E as <-.
    match goal with
    | |- context [on_G (set_NewRoutingTime next) ?x] => apply (Hroute x)
    end; st_simpl.
    + now rewrite routing_clock by reflexivity.
    + now rewrite total_fixed by reflexivity.
    + reflexivity.
Qed.

(** Where that leaves the clock with respect to total duration. *)
Lemma execRouting_bound (fuel : nat) (e : Q) (s m : State) :
  NewRoutingTime (G s) < TotalDuration (proj (G s)) ->
  exec fuel e s = Some m ->
  ErrorCode (G m) = ERR_NONE ->
  let t := NewRoutingTime (G s) in
  let T := TotalDuration (proj (G s)) in
  let routingStep := candidate (count_step s) in
  t < NewRoutingTime (G m) /\
  NewRoutingTime (G m) < T + 1 /\
  (t + 1000 * routingStep <= T ->
   NewRoutingTime (G m) == t + 1000 * routingStep) /\
  (T < t + 1000 * routingStep ->
   (DoRouting s = false -> NewRoutingTime (G m) = T) /\
   (1 <= T - t -> NewRoutingTime (G m) == T) /\
   (T - t < 1 -> DoRouting s = true ->
    NewRoutingTime (G m) == t + 1 /\ T < NewRoutingTime (G m))).
Proof.
  intros Hlt Hm Hok.
  pose proof (execRouting_advance fuel e s m Hlt Hm Hok) as H.
  cbv zeta in *.
  set (t := NewRoutingTime (G s)) in *.
  set (T := TotalDuration (proj (G s))) in *.
  set (routingStep := candidate (count_step s)) in *.
  destruct H as (Hpos & _ & _ & Hon & Hoff).
  destruct (clamped_step t T Hlt) as (_ & C1 & C2 & C3 & C4).
  cbv zeta in C1, C2, C3, C4.
  destruct (Qltb T (t + 1000 * routingStep)) eqn:E.
  - apply Qltb_lt in E.
    destruct (DoRouting s) eqn:Hd.
    + destruct (Hon eq_refl) as [_ Hn].
      split; [rewrite Hn; lra|]. split; [rewrite Hn; lra|].
      split; [intro Hfit; lra|]. intros _.
      split; [discriminate|].
      split; [intro H1; rewrite Hn; now apply C3|].
      intros Hsub _. rewrite Hn. split; [now apply C4|].
      rewrite (C4 Hsub). lra.
    + rewrite (Hoff eq_refl).
      split; [exact Hlt|]. split; [lra|].
      split; [intro Hfit; lra|]. intros _.
      split; [reflexivity|]. split; [reflexivity|discriminate].
  - apply Qltb_ge in E.
    assert (Hn : NewRoutingTime (G m) == t + 1000 * routingStep).
    { destruct (DoRouting s) eqn:Hd.
      - now destruct (Hon eq_refl).
      - now rewrite (Hoff eq_refl). }
    split; [rewrite Hn; lra|]. split; [rewrite Hn; lra|].
    split; [intros _; exact Hn|]. intro Hover. lra.
Qed.

(** In whole milliseconds the clock is not left beyond total duration. *)
Lemma execRouting_whole (fuel : nat) (e : Q) (s m : State) :
  (forall (routingModel : Z) (fixedStep : Q) (g : Shared World),
     whole (1000 * routing_getRoutingStep routingModel fixedStep g)) ->
  whole (NewRoutingTime (G s)) ->
  whole (TotalDuration (proj (G s))) ->
  NewRoutingTime (G s) < TotalDuration (proj (G s)) ->
  exec fuel e s = Some m ->
  ErrorCode (G m) = ERR_NONE ->
  NewRoutingTime (G m) <= TotalDuration (proj (G s)) /\
  whole (NewRoutingTime (G m)).
Proof.
  intros Hsteps [a Ha] [b Hb] Hlt Hm Hok.
  destruct (execRouting_bound fuel e s m Hlt Hm Hok)
    as (_ & _ & Hfit & Hover).
  cbv zeta in Hfit, Hover.
  assert (Hleft : 1 <= TotalDuration (proj (G s)) - NewRoutingTime (G s)).
  { rewrite Ha, Hb in Hlt. rewrite <- Zlt_Qlt in Hlt.
    assert (H1 : (1 <= b - a)%Z) by lia.
    rewrite Zle_Qle in H1. unfold Zminus in H1.
    rewrite inject_Z_plus, inject_Z_opp in H1.
    change (inject_Z 1) with 1 in H1. rewrite Ha, Hb. lra. }
  destruct (Qlt_le_dec (TotalDuration (proj (G s)))
              (NewRoutingTime (G s) + 1000 * candidate (count_step s)))
    as [Hc|Hc].
  - destruct (Hover Hc) as (_ & Hreach & _).
    pose proof (Hreach Hleft) as Hn.
    split; [rewrite Hn; apply Qle_refl|]. exists b. now rewrite Hn.
  - pose proof (Hfit Hc) as Hn. split; [rewrite Hn; exact Hc|].
    assert (Hw : whole (1000 * candidate (count_step s))).
    { unfold candidate_routingStep. destruct (negb _); [|apply Hsteps].
      eexists. change 1000 with (inject_Z 1000).
      rewrite <- inject_Z_mult. reflexivity. }
    destruct Hw as [z Hz]. exists (a + z)%Z.
    rewrite Hn, Ha, Hz, inject_Z_plus. reflexivity.
Qed.

(** One call of [swmm_step] on a started simulation. *)
Lemma swmm_step_advance (fuel : nat) (e e' : Q) (s s' : State)
      (rc : ErrorType) :
  IsOpenFlag s = true ->
  IsStartedFlag s = true ->
  step fuel e s = Some (s', rc, e') ->
  IsOpenFlag s' = true /\ IsStartedFlag s' = true /\
  DoRouting s' = DoRouting s /\
  TotalDuration (proj (G s')) = TotalDuration (proj (G s)) /\
  (ErrorCode (G s') = ERR_NONE ->
   NewRoutingTime (G s) <= NewRoutingTime (G s') /\
   (NewRoutingTime (G s) < TotalDuration (proj (G s)) + 1 ->
    NewRoutingTime (G s') < TotalDuration (proj (G s)) + 1) /\
   (DoRouting s = false ->
    NewRoutingTime (G s) <= TotalDuration (proj (G s)) ->
    NewRoutingTime (G s') <= TotalDuration (proj (G s))) /\
   ((forall (routingModel : Z) (fixedStep : Q) (g : Shared World),
       whole (1000 * routing_getRoutingStep routingModel fixedStep g)) ->
    whole (NewRoutingTime (G s)) ->
    whole (TotalDuration (proj (G s))) ->
    NewRoutingTime (G s) <= TotalDuration (proj (G s)) ->
    NewRoutingTime (G s') <= TotalDuration (proj (G s)) /\
    whole (NewRoutingTime (G s')))).
Proof.
  intros Ho Hs. unfold swmm_step. rewrite Ho, Hs. cbn [negb orb].
  destruct (is_set (ErrorCode (G s))) eqn:He.
  { intro E. inversion E; subst. repeat split; auto. apply Qle_refl. }
  destruct (route_guarded fuel e s) as [m|] eqn:Hm; [|discriminate].
  intro E. inversion E; subst; clear E.
  destruct (save_statics m) as (So & Ss & _ & _ & Sr).
  destruct (save_clock routing_clock total_fixed saving_error m)
    as (Kt & KT & Kerr).
  unfold route_if_not_done in Hm.
  destruct (Qltb (NewRoutingTime (G s)) (TotalDuration (proj (G s))))
    eqn:Hlt.
  - apply Qltb_lt in Hlt.
    destruct (execRouting_statics _ _ _ _ Hm) as (Mo & Ms & _ & _ & Mr).
    assert (MT : TotalDuration (proj (G m)) = TotalDuration (proj (G s))).
    { revert Hm. unfold execRouting.
      destruct (Qleb (candidate (count_step s)) 0).
      { intro E. injection E as <-. reflexivity. }
      destruct (adjust_routingStep _ _) as [a b].
      destruct (DoRunoff (count_step s)).
      - destruct (loop fuel b (count_step s)) as [[r s2]|] eqn:Hloop;
          [|discriminate].
        destruct (runoff_loop_spec _ _ _ _ _ Hloop) as (k & -> & _).
        destruct (runoff_calls_clock routing_clock total_fixed k
                    (count_step s)) as [_ KT2].
        st_simpl_in KT2.
        destruct r; intro E; injection E as <-; [exact KT2|].
        match goal with
        | |- context [if ?c then _ else _] => destruct c
        end; st_simpl; rewrite ?total_fixed by reflexivity; exact KT2.
      - intro E. injection E as <-.
        match goal with
        | |- context [if ?c then _ else _] => destruct c
        end; st_simpl; rewrite ?total_fixed by reflexivity; reflexivity. }
    rewrite So, Ss, Sr, Mo, Ms, Mr, Kt, KT, MT.
    split; [exact Ho|]. split; [exact Hs|]. split; [reflexivity|].
    split; [reflexivity|].
    intro Hok. pose proof (Kerr Hok) as Hokm.
    destruct (execRouting_bound fuel e s m Hlt Hm Hokm)
      as (Hgo & Hnear & Hfit & Hover).
    cbv zeta in Hgo, Hnear, Hfit, Hover.
    split; [now apply Qlt_le_weak|]. split; [intros _; exact Hnear|].
    split.
    + intros Hoff _.
      destruct (Qlt_le_dec (TotalDuration (proj (G s)))
                  (NewRoutingTime (G s)
                   + 1000 * candidate (count_step s))) as [Hc|Hc].
      * destruct (Hover Hc) as (Hreach & _). rewrite (Hreach Hoff).
        apply Qle_refl.
      * rewrite (Hfit Hc). exact Hc.
    + intros Hsteps Hwt HwT _.
      exact (execRouting_whole fuel e s m Hsteps Hwt HwT Hlt Hm Hokm).
  - inversion Hm; subst. rewrite So, Ss, Sr, Kt, KT.
    split; [exact Ho|]. split; [exact Hs|]. split; [reflexivity|].
    split; [reflexivity|].
    intros _. split; [apply Qle_refl|]. repeat split; auto.
Qed.


End StepAdvance.

(** ** The reporting scheduler *)

Lemma count_repeat_runoff (p : Call -> bool) (k : nat) :
  p runoff_execute = false -> count p (repeat runoff_execute k) = 0%nat.
Proof.
  intro H. unfold count.
  induction k as [|k IH]; [reflexivity|]. cbn [repeat filter].
  now rewrite H.
Qed.

(** The orchestrator does not save results. *)
Lemma execRouting_saves_nothing (fuel : nat) (e : Q) (s m : State) :
  exec fuel e s = Some m ->
  count is_output_saveResults (trace m) =
  count is_output_saveResults (trace s).
Proof.
  unfold execRouting.
  destruct (Qleb (candidate (count_step s)) 0).
  { intro H. inversion H. reflexivity. }
  destruct (adjust_routingStep (candidate (count_step s)) (G (count_step s)))
    as [routingStep next].
  destruct (DoRunoff (count_step s)).
  - destruct (loop fuel next (count_step s)) as [[b s2]|] eqn:Hloop;
      [|discriminate].
    destruct (runoff_loop_spec _ _ _ _ _ Hloop) as (k & -> & _).
    assert (Hk : count is_output_saveResults (trace (runoffs k (count_step s)))
                 = count is_output_saveResults (trace s)).
    { rewrite runoff_calls_trace, count_app, count_repeat_runoff
        by reflexivity.
      st_simpl. lia. }
    destruct b; intro H; inversion H; [exact Hk|].
    destruct (DoRouting (runoffs k (count_step s))); st_simpl;
      [|exact Hk].
    rewrite count_app, Hk. unfold count. cbn. lia.
  - intro H. inversion H.
    destruct (DoRouting _); st_simpl; rewrite !count_app; unfold count; cbn;
      lia.
Qed.

Lemma call_reporting (c : Call) (s : State) :
  reporting_untouched extern -> opens_project c = false ->
  ReportTime (G (do_call c s)) = ReportTime (G s) /\
  ReportStep (proj (G (do_call c s))) = ReportStep (proj (G s)).
Proof. intros H Hc. st_simpl. now apply H. Qed.

(** Where [swmm_start] goes on to start a run, the run starts with the
    report time one report step on. *)
Lemma swmm_start_ReportTime (saveResults : bool) (s : State) :
  reporting_untouched extern ->
  ErrorCode (G s) = ERR_NONE ->
  IsOpenFlag s = true ->
  IsStartedFlag s = false ->
  ReportTime (G (fst (start saveResults s))) =
    inject_Z (int_mul 1000 (ReportStep (proj (G s)))) /\
  ReportStep (proj (G (fst (start saveResults s)))) =
    ReportStep (proj (G s)).
Proof.
  intros H He Ho Hs. unfold swmm_start.
  rewrite He, Ho, Hs. cbn [is_set negb orb].
  assert (Hrt : forall c g, opens_project c = false ->
                  ReportTime (extern c g) = ReportTime g)
    by (intros c g Hc; now apply H).
  assert (Hrs : forall c g, opens_project c = false ->
                  ReportStep (proj (extern c g)) = ReportStep (proj g))
    by (intros c g Hc; now apply H).
  repeat match goal with
         | |- context [if ?b then _ else _] => destruct b
         end;
    st_simpl; cbn [fst];
    st_simpl; rewrite ?Hrt, ?Hrs by reflexivity; st_simpl; auto.
Qed.

Lemma runoff_calls_reporting (k : nat) (s : State) :
  reporting_untouched extern ->
  ReportTime (G (runoffs k s)) = ReportTime (G s) /\
  ReportStep (proj (G (runoffs k s))) = ReportStep (proj (G s)).
Proof.
  intro H. induction k as [|k IH]; [simpl; tauto|].
  change (runoffs (S k) s) with (do_call runoff_execute (runoffs k s)).
  destruct (call_reporting runoff_execute (runoffs k s) H eq_refl)
    as [-> ->].
  exact IH.
Qed.

(** The orchestrator leaves the report time and the report step alone. *)
Lemma execRouting_reporting (fuel : nat) (e : Q) (s m : State) :
  reporting_untouched extern ->
  exec fuel e s = Some m ->
  ReportTime (G m) = ReportTime (G s) /\
  ReportStep (proj (G m)) = ReportStep (proj (G s)).
Proof.
  intro H. unfold execRouting.
  destruct (Qleb (candidate (count_step s)) 0).
  { intro E. injection E as <-. st_simpl. tauto. }
  destruct (adjust_routingStep (candidate (count_step s)) (G (count_step s)))
    as [routingStep next].
  assert (Hroute : forall s2 : State,
            ReportTime (G s2) = ReportTime (G s) /\
            ReportStep (proj (G s2)) = ReportStep (proj (G s)) ->
            let m' := if DoRouting s2
                      then do_call (routing_execute
                                      (RouteModel (proj (G s2)))
                                      routingStep) s2
                      else on_G (set_NewRoutingTime next) s2 in
            ReportTime (G m') = ReportTime (G s) /\
            ReportStep (proj (G m')) = ReportStep (proj (G s))).
  { intros s2 H2. cbv zeta. destruct (DoRouting s2).
    - destruct (call_reporting
                  (routing_execute (RouteModel (proj (G s2))) routingStep)
                  s2 H eq_refl) as [-> ->].
      exact H2.
    - st_simpl. exact H2. }
  destruct (DoRunoff (count_step s)).
  - destruct (loop fuel next (count_step s)) as [[b s2]|] eqn:Hloop;
      [|discriminate].
    destruct (runoff_loop_spec _ _ _ _ _ Hloop) as (k & -> & _).
    pose proof (runoff_calls_reporting k (count_step s) H) as Hk.
    st_simpl_in Hk.
    destruct b; intro E; injection E as <-; [exact Hk|].
    now apply Hroute.
  - intro E. injection E as <-.
    match goal with
    | |- context [on_G (set_NewRoutingTime next) ?x] => apply (Hroute x)
    end.
    match goal with
    | |- context [do_call ?c (count_step s)] =>
        destruct (call_reporting c (count_step s) H eq_refl) as [-> ->]
    end.
    st_simpl. tauto.
Qed.

(** C4: a run starts with the report time one report interval on; the
    interval is the [int] product [1000 * ReportStep], that is
    1000 * ReportStep milliseconds whenever that number is the value of an
    [int].  A call of [swmm_step] on a started run without error returns
    (given the runoff engine advances its clock).  With [m] the state the
    orchestrator leaves, whose report time is still the one of entry: when
    the routing clock of [m] has reached the report time, results are
    saved exactly once if saving was asked for at the start, for the
    report time (not the routing clock), and the report time moves on by
    one report interval; otherwise nothing is saved and the state stays
    [m].  No call saves more than once.  (The other modules leave the
    report time and the report step alone.) *)
Theorem C4_report_scheduler (min_runoff_step : Q) :
  0 < min_runoff_step ->
  (forall g : Shared World,
     ErrorCode (extern runoff_execute g) = ERR_NONE ->
     NewRunoffTime g + min_runoff_step
       <= NewRunoffTime (extern runoff_execute g)) ->
  reporting_untouched extern ->
  (forall (saveResults : bool) (s : State),
     ErrorCode (G s) = ERR_NONE ->
     IsOpenFlag s = true ->
     IsStartedFlag s = false ->
     let s0 := fst (start saveResults s) in
     ReportTime (G s0) = inject_Z (int_mul 1000 (ReportStep (proj (G s)))) /\
     ReportStep (proj (G s0)) = ReportStep (proj (G s)) /\
     (fits_int (1000 * ReportStep (proj (G s))) ->
      ReportTime (G s0) = inject_Z (1000 * ReportStep (proj (G s))))) /\
  (forall (e : Q) (s : State),
     ErrorCode (G s) = ERR_NONE ->
     IsOpenFlag s = true ->
     IsStartedFlag s = true ->
     exists fuel0 : nat, forall fuel, (fuel0 <= fuel)%nat ->
       exists (m s' : State) (rc : ErrorType) (e' : Q),
         route_guarded fuel e s = Some m /\
         step fuel e s = Some (s', rc, e') /\
         s' = save m /\
         count is_output_saveResults (trace m) =
           count is_output_saveResults (trace s) /\
         ReportTime (G m) = ReportTime (G s) /\
         ReportStep (proj (G m)) = ReportStep (proj (G s)) /\
         (ReportTime (G m) <= NewRoutingTime (G m) ->
          trace s' =
            trace m ++ (if SaveResultsFlag s
                        then [output_saveResults (ReportTime (G m))]
                        else []) /\
          ReportTime (G s') =
            ReportTime (G m)
            + inject_Z (int_mul 1000 (ReportStep (proj (G m)))) /\
          (fits_int (1000 * ReportStep (proj (G m))) ->
           ReportTime (G s') =
             ReportTime (G m)
             + inject_Z (1000 * ReportStep (proj (G m))))) /\
         (NewRoutingTime (G m) < ReportTime (G m) -> s' = m) /\
         (count is_output_saveResults (trace s') <=
          S (count is_output_saveResults (trace s)))%nat).
Proof.
  intros Hpos Hadv H. split.
  { intros saveResults s He Ho Hs. cbv zeta.
    destruct (swmm_start_ReportTime saveResults s H He Ho Hs) as [Ht Hr].
    split; [exact Ht|]. split; [exact Hr|].
    intro Hfits. rewrite Ht. unfold int_mul.
    now rewrite wrap_int_fits. }
  intros e s He Ho Hs.
  destruct (execRouting_returns min_runoff_step Hpos Hadv e s)
    as [fuel0 H0].
  exists fuel0. intros fuel Hle.
  assert (Hm : exists m, route_guarded fuel e s = Some m).
  { unfold route_if_not_done.
    destruct (Qltb (NewRoutingTime (G s)) (TotalDuration (proj (G s))));
      [exact (H0 fuel Hle)|eauto]. }
  destruct Hm as [m Hm].
  exists m, (save m), (ErrorCode (G (save m))), (new_elapsedTime (G (save m))).
  split; [exact Hm|].
  split.
  { unfold swmm_step. rewrite He, Ho, Hs. cbn [is_set negb orb].
    now rewrite Hm. }
  split; [reflexivity|].
  assert (Hflag : SaveResultsFlag m = SaveResultsFlag s /\
                  count is_output_saveResults (trace m) =
                  count is_output_saveResults (trace s) /\
                  ReportTime (G m) = ReportTime (G s) /\
                  ReportStep (proj (G m)) = ReportStep (proj (G s))).
  { unfold route_if_not_done in Hm.
    destruct (Qltb (NewRoutingTime (G s)) (TotalDuration (proj (G s)))).
    - destruct (execRouting_statics _ _ _ _ Hm) as (_ & _ & Hsv & _).
      split; [exact Hsv|].
      split; [now apply execRouting_saves_nothing with fuel e|].
      now apply execRouting_reporting with fuel e.
    - inversion Hm. auto. }
  destruct Hflag as (Hflag & Hcount & HR & HS).
  split; [exact Hcount|]. split; [exact HR|]. split; [exact HS|].
  unfold save_at_ReportTime.
  destruct (Qleb (ReportTime (G m)) (NewRoutingTime (G m))) eqn:Hdue.
  - rewrite Hflag. split; [|split].
    + intros _.
      assert (Hstep : forall s1 : State,
                ReportTime (G s1) = ReportTime (G m) ->
                ReportStep (proj (G s1)) = ReportStep (proj (G m)) ->
                let s2 :=
                  on_G (fun g =>
                    set_ReportTime
                      (ReportTime g
                       + inject_Z (int_mul 1000 (ReportStep (proj g)))) g)
                    s1 in
                ReportTime (G s2) =
                  ReportTime (G m)
                  + inject_Z (int_mul 1000 (ReportStep (proj (G m)))) /\
                (fits_int (1000 * ReportStep (proj (G m))) ->
                 ReportTime (G s2) =
                   ReportTime (G m)
                   + inject_Z (1000 * ReportStep (proj (G m))))).
      { intros s1 E1 E2. cbv zeta. st_simpl. rewrite E1, E2.
        split; [reflexivity|]. intro Hfits. unfold int_mul.
        now rewrite wrap_int_fits. }
      destruct (SaveResultsFlag s).
      * split; [reflexivity|]. apply Hstep; st_simpl; now apply H.
      * split; [st_simpl; now rewrite app_nil_r|]. now apply Hstep.
    + intro L. apply Qleb_le in Hdue. exfalso.
      exact (Qle_not_lt _ _ Hdue L).
    + destruct (SaveResultsFlag s); st_simpl.
      * rewrite count_app, Hcount. unfold count. cbn. lia.
      * rewrite Hcount. lia.
  - split; [|split].
    + intro L. apply Qleb_gt in Hdue. exfalso.
      exact (Qle_not_lt _ _ L Hdue).
    + reflexivity.
    + rewrite Hcount. lia.
Qed.

(** ** The step length without routing, the climate without runoff *)

Lemma adjust_routingStep_snd (routingStep : Q) (g : Shared World) :
  snd (adjust_routingStep routingStep g) = candidate_instant routingStep g.
Proof.
  unfold adjust_routingStep, candidate_instant. cbv zeta.
  now destruct (Qltb (TotalDuration (proj g))
                     (NewRoutingTime g + 1000 * routingStep)).
Qed.

(** C8 (amended): it is with flow routing off ([DoRouting] false), whatever
    [DoRunoff] is, that the routing step is the smaller of the wet-weather
    step and the reporting step; the routing engine is then not asked.
    With runoff off as well and that step positive, the invocation leaves
    the routing clock advanced by it, or at total duration where that
    would pass it.  With flow routing on the step is the one asked of the
    routing engine, for the routing model and the routing step of the
    project, also when runoff is off; a step that is not positive ends the
    invocation on the invalid-timestep error. *)
Theorem C8_step_without_routing (fuel : nat) (e : Q) (s : State) :
  let smaller :=
    inject_Z (MIN (WetStep (proj (G s))) (ReportStep (proj (G s)))) in
  let asked :=
    routing_getRoutingStep (RouteModel (proj (G s))) (RouteStep (proj (G s)))
                           (G (count_step s)) in
  (DoRouting s = false ->
   candidate (count_step s) = smaller /\
   (DoRunoff s = false -> 0 < smaller ->
    exists s' : State,
      exec fuel e s = Some s' /\
      NewRoutingTime (G s') = candidate_instant smaller (G s))) /\
  (DoRouting s = true ->
   candidate (count_step s) = asked /\
   (asked <= 0 ->
    exec fuel e s = Some (on_G (set_ErrorCode ERR_TIMESTEP) (count_step s))) /\
   (DoRunoff s = false -> 0 < asked ->
    let handed := fst (adjust_routingStep asked (G (count_step s))) in
    exists s' : State,
      exec fuel e s = Some s' /\
      trace s' =
        trace s
        ++ [climate_setState
              (getDateTime datetime_addSeconds (NewRoutingTime (G s))
                           (G (count_step s)));
            routing_execute
              (RouteModel
                 (proj (extern
                          (climate_setState
                             (getDateTime datetime_addSeconds
                                (NewRoutingTime (G s)) (G (count_step s))))
                          (G (count_step s)))))
              handed] /\
      (NewRoutingTime (G s) + 1000 * asked <= TotalDuration (proj (G s)) ->
       handed = asked))).
Proof.
  intros smaller asked. split.
  - intros Hr.
    assert (Hc : candidate (count_step s) = smaller).
    { unfold candidate_routingStep. cbn [count_step on_G DoRouting].
      now rewrite Hr. }
    split; [exact Hc|].
    intros Hn Hpos. unfold execRouting. rewrite Hc.
    apply Qleb_gt in Hpos. rewrite Hpos.
    rewrite (surjective_pairing
               (adjust_routingStep smaller (G (count_step s)))).
    cbn [count_step on_G DoRunoff DoRouting call]. rewrite Hn.
    cbn [count_step on_G DoRunoff DoRouting call]. rewrite Hr.
    eexists. split; [reflexivity|].
    cbn [on_G G set_NewRoutingTime NewRoutingTime].
    now rewrite adjust_routingStep_snd.
  - intros Hr.
    assert (Hc : candidate (count_step s) = asked).
    { unfold candidate_routingStep. cbn [count_step on_G DoRouting].
      rewrite Hr. reflexivity. }
    split; [exact Hc|]. split.
    + intro Hle. unfold execRouting. rewrite Hc.
      apply Qleb_le in Hle. now rewrite Hle.
    + intros Hn Hpos. cbv zeta. unfold execRouting. rewrite Hc.
      pose proof Hpos as Hpos'. apply Qleb_gt in Hpos'. rewrite Hpos'.
      destruct (adjust_routingStep asked (G (count_step s))) as [a b]
        eqn:Eadj.
      cbn [fst]. st_simpl. rewrite Hn. st_simpl. rewrite Hr.
      eexists. split; [reflexivity|]. st_simpl.
      split; [now rewrite <- app_assoc|].
      intro Hfit. unfold adjust_routingStep in Eadj. cbv zeta in Eadj.
      st_simpl_in Eadj. apply Qltb_ge in Hfit. rewrite Hfit in Eadj.
      now injection Eadj as <- _.
Qed.

(** C9 (amended): in an invocation of the orchestrator with runoff off
    that gets past the check of the step length (the routing step computed
    is positive), the runoff engine is not called and the runoff clock
    stays as it is, and the climate state is set exactly once, to the
    date-time of the routing clock as it is on entry; the one other call is
    that of the routing engine, when routing is on. *)
Theorem C9_climate_without_runoff (fuel : nat) (e : Q) (s : State) :
  runoff_clock_is_runoff's extern ->
  DoRunoff s = false ->
  0 < candidate (count_step s) ->
  let theDate :=
    getDateTime datetime_addSeconds (NewRoutingTime (G s)) (G s) in
  let s1 := do_call (climate_setState theDate) (count_step s) in
  exists s' : State,
    exec fuel e s = Some s' /\
    trace s' =
      trace s
      ++ climate_setState theDate
         :: (if DoRouting s
             then [routing_execute (RouteModel (proj (G s1)))
                     (fst (adjust_routingStep (candidate (count_step s))
                                              (G s)))]
             else []) /\
    count is_climate_setState (trace s') =
      S (count is_climate_setState (trace s)) /\
    count is_runoff_execute (trace s') = count is_runoff_execute (trace s) /\
    NewRunoffTime (G s') = NewRunoffTime (G s).
Proof.
  intros Hframe Hn Hpos theDate s1. unfold execRouting.
  apply Qleb_gt in Hpos. rewrite Hpos.
  rewrite (surjective_pairing
             (adjust_routingStep (candidate (count_step s))
                                 (G (count_step s)))).
  st_simpl. rewrite Hn. st_simpl.
  destruct (DoRouting s) eqn:Hr.
  - eexists. split; [reflexivity|].
    subst s1 theDate. unfold getDateTime. st_simpl.
    rewrite <- app_assoc.
    split; [reflexivity|].
    rewrite !count_app. unfold count.
    cbn [filter List.length is_climate_setState is_runoff_execute].
    split; [lia|]. split; [lia|].
    rewrite !Hframe by reflexivity. reflexivity.
  - eexists. split; [reflexivity|].
    subst s1 theDate. unfold getDateTime. st_simpl.
    split; [reflexivity|].
    rewrite !count_app. unfold count.
    cbn [filter List.length is_climate_setState is_runoff_execute].
    split; [lia|]. split; [lia|].
    rewrite !Hframe by reflexivity. reflexivity.
Qed.

(** ** The sticky error code *)

(** C6 (amended): with the error code set, [swmm_start] and [swmm_step]
    return it at once and leave the state (and the elapsed time) as it is.
    [swmm_open] does not: it calls the project loader whatever the error
    code was, having first cleared it, and returns the code the loader
    leaves; with a loader that reports no error it returns no error and
    the project is open. *)
Theorem C6_sticky_error (s : State) :
  ErrorCode (G s) <> ERR_NONE ->
  (forall saveResults : bool,
     start saveResults s = (s, ErrorCode (G s))) /\
  (forall (fuel : nat) (e : Q),
     step fuel e s = Some (s, ErrorCode (G s), e)) /\
  (forall f1 f2 f3 : string,
     (exists rest : list Call,
        trace (fst (open f1 f2 f3 s)) =
        trace s
        ++ datetime_setDateFormat_M_D_Y :: project_open f1 f2 f3 :: rest) /\
     snd (open f1 f2 f3 s) = ErrorCode (G (fst (open f1 f2 f3 s))) /\
     (project_opens_cleanly extern ->
      snd (open f1 f2 f3 s) = ERR_NONE /\
      IsOpenFlag (fst (open f1 f2 f3 s)) = true)).
Proof.
  intro He. apply is_set_true in He.
  split; [intro saveResults; unfold swmm_start; now rewrite He|].
  split; [intros fuel e; unfold swmm_step; now rewrite He|].
  intros f1 f2 f3. unfold swmm_open. st_simpl.
  set (g1 := extern (project_open f1 f2 f3) _).
  split; [|split].
  - repeat match goal with
           | |- context [if ?b then _ else _] => destruct b
           end;
      cbn [fst]; st_simpl; eexists; rewrite <- !app_assoc; reflexivity.
  - repeat match goal with
           | |- context [if ?b then _ else _] => destruct b
           end; reflexivity.
  - intro Hclean.
    assert (H1 : ErrorCode g1 = ERR_NONE)
      by (apply Hclean; reflexivity).
    rewrite H1. cbn [is_set].
    set (g2 := extern project_readInput _).
    assert (H2 : ErrorCode g2 = ERR_NONE)
      by (subst g2; do 2 (apply Hclean; [reflexivity|]); exact H1).
    rewrite H2. cbn [is_set].
    set (g3 := extern project_validate _).
    assert (H3 : ErrorCode g3 = ERR_NONE)
      by (subst g3; do 2 (apply Hclean; [reflexivity|]); exact H2).
    destruct (RptFlags_input (proj g3)); cbn [fst snd]; st_simpl.
    + split; [|reflexivity]. now apply Hclean.
    + split; [exact H3|reflexivity].
Qed.

(** ** Calls out of order *)

(** Returning the not-open code and leaving the state as it is exclude
    each other: the code returned is the error code of the state. *)
Lemma not_open_is_recorded (saveResults : bool) (s : State) :
  ErrorCode (G s) = ERR_NONE ->
  ~ (snd (start saveResults s) = ERR_NOT_OPEN /\
     fst (start saveResults s) = s).
Proof.
  intros He [Hrc Hst].
  assert (Hsnd : snd (start saveResults s) =
                 ErrorCode (G (fst (start saveResults s)))).
  { unfold swmm_start.
    repeat match goal with
           | |- context [if ?b then _ else _] => destruct b
           end; reflexivity. }
  rewrite Hst, He in Hsnd. congruence.
Qed.

(** C7 (amended): without error code set, [swmm_start] on a project that
    is not open or already started, [swmm_step] on one that is not open or
    not started and [swmm_end] on one that is not open do one thing: they
    have the not-open error written to the report, which records it as the
    error code, and return it.  The error code and the report apart, the
    state is as before: the flags and the other file-local variables, the
    clocks (runoff, routing, report time), the step counter and all other
    shared globals. *)
Theorem C7_out_of_order (s : State) :
  error_message_sets_code extern ->
  ErrorCode (G s) = ERR_NONE ->
  let refused := do_call (report_writeErrorMsg ERR_NOT_OPEN "") s in
  (IsOpenFlag s = false \/ IsStartedFlag s = true ->
   forall saveResults : bool,
     start saveResults s = (refused, ERR_NOT_OPEN)) /\
  (IsOpenFlag s = false \/ IsStartedFlag s = false ->
   forall (fuel : nat) (e : Q),
     step fuel e s = Some (refused, ERR_NOT_OPEN, e)) /\
  (IsOpenFlag s = false -> finish s = (refused, ERR_NOT_OPEN)) /\
  (exists w : World,
     refused =
       mkSt (IsOpenFlag s) (IsStartedFlag s) (SaveResultsFlag s)
            (ExceptionCount s) (DoRunoff s) (DoRouting s)
            (recorded ERR_NOT_OPEN w (G s))
            (trace s ++ [report_writeErrorMsg ERR_NOT_OPEN ""])) /\
  same_run s refused /\
  ErrorCode (G refused) = ERR_NOT_OPEN.
Proof.
  intros Hmsg He refused. subst refused.
  destruct (Hmsg ERR_NOT_OPEN ""%string (G s)) as [w Hw].
  assert (Hcode : ErrorCode
                    (extern (report_writeErrorMsg ERR_NOT_OPEN "") (G s))
                  = ERR_NOT_OPEN) by now rewrite Hw.
  split; [|split; [|split; [|split; [|split]]]].
  - intros Hout saveResults. unfold swmm_start. rewrite He. cbn [is_set].
    assert (Hg : negb (IsOpenFlag s) || IsStartedFlag s = true)
      by (destruct Hout as [-> | ->]; [reflexivity|apply orb_true_r]).
    rewrite Hg. st_simpl. now rewrite Hcode.
  - intros Hout fuel e. unfold swmm_step. rewrite He. cbn [is_set].
    assert (Hg : negb (IsOpenFlag s) || negb (IsStartedFlag s) = true)
      by (destruct Hout as [-> | ->]; [reflexivity|apply orb_true_r]).
    rewrite Hg. st_simpl. now rewrite Hcode.
  - intros Hout. unfold swmm_end. rewrite Hout. cbn [negb].
    st_simpl. now rewrite Hcode.
  - exists w. unfold call. now rewrite Hw.
  - unfold same_run. st_simpl. rewrite Hw. cbn [recorded NewRunoffTime
      NewRoutingTime ReportTime StepCount]. repeat split.
  - st_simpl. exact Hcode.
Qed.

(** ** Node indices *)

Lemma Node_at_Some (nodes : list TNode.t) (index : Z) :
  (0 <= index < Z.of_nat (List.length nodes))%Z ->
  exists n : TNode.t, Node_at nodes index = Some n.
Proof.
  intros [H0 H1]. unfold Node_at.
  replace (index <? 0)%Z with false by (symmetry; apply Z.ltb_ge; exact H0).
  destruct (nth_error nodes (Z.to_nat index)) as [n|] eqn:E; [eauto|].
  apply nth_error_None in E. lia.
Qed.

Lemma Node_at_None (nodes : list TNode.t) (index : Z) :
  ~ (0 <= index < Z.of_nat (List.length nodes))%Z ->
  Node_at nodes index = None.
Proof.
  intro H. unfold Node_at.
  destruct (index <? 0)%Z eqn:E; [reflexivity|].
  apply Z.ltb_ge in E. apply nth_error_None. lia.
Qed.

(** C10: with a project open, [swmm_getNodeData] and [swmm_addNodeInflow]
    use the index as it comes.  For an index from 0 to below the number of
    nodes they read, or update, that node and return no error; for any
    other index, negative ones included, the access falls outside the
    array (the result is [Undefined]); in no case do they return an error
    code. *)
Theorem C10_node_index_unchecked
    (index : Z) (data : nodeData.t) (inflow : Q) (s : State) :
  IsOpenFlag s = true ->
  ((0 <= index < Z.of_nat (List.length (Node (G s))))%Z ->
   exists n : TNode.t,
     Node_at (Node (G s)) index = Some n /\
     swmm_getNodeData index data s = Ret (ERR_NONE, nodeData_of n) /\
     swmm_addNodeInflow index inflow s =
       Ret (on_G (fun g =>
              set_Node (Node_put (Node g) (Z.to_nat index)
                                 (TNode.add_dllInflow inflow n)) g) s,
            ERR_NONE)) /\
  (~ (0 <= index < Z.of_nat (List.length (Node (G s))))%Z ->
   swmm_getNodeData index data s = Undefined /\
   swmm_addNodeInflow index inflow s = Undefined) /\
  (forall (rc : ErrorType) (d : nodeData.t),
     swmm_getNodeData index data s = Ret (rc, d) -> rc = ERR_NONE) /\
  (forall (rc : ErrorType) (s' : State),
     swmm_addNodeInflow index inflow s = Ret (s', rc) -> rc = ERR_NONE).
Proof.
  intro Ho. unfold swmm_getNodeData, swmm_addNodeInflow. rewrite Ho.
  split; [|split; [|split]].
  - intro Hin. destruct (Node_at_Some _ _ Hin) as [n Hn].
    exists n. rewrite Hn. auto.
  - intro Hout. rewrite (Node_at_None _ _ Hout). auto.
  - intros rc d. destruct (Node_at (Node (G s)) index); [|discriminate].
    intro E. now inversion E.
  - intros rc s'. destruct (Node_at (Node (G s)) index); [|discriminate].
    intro E. now inversion E.
Qed.

(** By contrast [swmm_getNodeID] turns down an index at or above the
    number of nodes; a negative one it lets through as well. *)
Lemma swmm_getNodeID_checks_above (index : Z) (id : string) (s : State) :
  IsOpenFlag s = true ->
  Nobjects_NODE (proj (G s)) = Z.of_nat (List.length (Node (G s))) ->
  ((Nobjects_NODE (proj (G s)) <= index)%Z ->
   swmm_getNodeID MAXLINE index id s = Ret (ERR_NUMBER, id)) /\
  ((index < 0)%Z -> (0 < Nobjects_NODE (proj (G s)))%Z ->
   swmm_getNodeID MAXLINE index id s = Undefined).
Proof.
  intros Ho Hn. unfold swmm_getNodeID. rewrite Ho. split.
  - intro H. apply Z.leb_le in H. now rewrite H.
  - intros Hneg Hpos.
    replace (Nobjects_NODE (proj (G s)) <=? index)%Z with false
      by (symmetry; apply Z.leb_gt; lia).
    rewrite Node_at_None by lia. reflexivity.
Qed.

End Properties.

(** * The reference instance *)

(** ** It meets what is expected of the other modules *)

Lemma Reference_runoff_advances (g : Shared unit) :
  ErrorCode (Reference.extern runoff_execute g) = ERR_NONE ->
  NewRunoffTime g + 1000 <= NewRunoffTime (Reference.extern runoff_execute g).
Proof.
  unfold Reference.extern.
  destruct (WetStep (proj g) <=? 0)%Z eqn:E; [discriminate|].
  intros _. cbn [set_NewRunoffTime NewRunoffTime].
  apply Z.leb_gt in E. apply Qplus_le_r.
  change 1000 with (inject_Z 1000). rewrite <- Zle_Qle. lia.
Qed.

Lemma Reference_saving_keeps_clocks :
  saving_keeps_clocks Reference.extern.
Proof. intros t g. repeat split. Qed.

Lemma Reference_saving_keeps_error :
  saving_keeps_error Reference.extern.
Proof. intros t g H. exact H. Qed.

Lemma Reference_runoff_clock :
  runoff_clock_is_runoff's Reference.extern.
Proof. intros c g Hs Hr. destruct c; try discriminate; reflexivity. Qed.

Lemma Reference_routing_clock :
  routing_clock_is_routing's Reference.extern.
Proof.
  intros c g Hs Hr. destruct c; try discriminate; try reflexivity.
  unfold Reference.extern. now destruct (WetStep (proj g) <=? 0)%Z.
Qed.

Lemma Reference_total_duration_fixed :
  total_duration_fixed Reference.extern.
Proof.
  intros c g Hs. destruct c; try discriminate; try reflexivity.
  unfold Reference.extern. now destruct (WetStep (proj g) <=? 0)%Z.
Qed.

Lemma Reference_routing_reaches_candidate :
  routing_reaches_candidate Reference.extern.
Proof. intros m st g _. reflexivity. Qed.

Lemma Reference_reporting_untouched :
  reporting_untouched Reference.extern.
Proof.
  intros c g Hc. destruct c; try discriminate; try (split; reflexivity).
  unfold Reference.extern. now destruct (WetStep (proj g) <=? 0)%Z.
Qed.

Lemma Reference_error_message_sets_code :
  error_message_sets_code Reference.extern.
Proof. intros code msg g. exists (world g). reflexivity. Qed.

Lemma Reference_project_opens_cleanly :
  project_opens_cleanly Reference.extern.
Proof. intros c g Hc He. destruct c; try discriminate; exact He. Qed.

Lemma Reference_advancing_routing_clock :
  routing_clock_is_routing's Reference.advancing.
Proof.
  intros c g Hs Hr. destruct c; try discriminate; try reflexivity.
  unfold Reference.advancing, Reference.extern.
  now destruct (WetStep (proj g) <=? 0)%Z.
Qed.

Lemma Reference_advancing_total_duration_fixed :
  total_duration_fixed Reference.advancing.
Proof.
  intros c g Hs. destruct c; try discriminate; try reflexivity.
  unfold Reference.advancing, Reference.extern.
  now destruct (WetStep (proj g) <=? 0)%Z.
Qed.

Lemma Reference_advancing_by_step :
  routing_advances_by_step Reference.advancing.
Proof. intros m st g _. reflexivity. Qed.

Lemma Reference_advancing_saving_keeps_error :
  saving_keeps_error Reference.advancing.
Proof. intros t g H. exact H. Qed.

(** ** The scenario of two days reported daily in steps of six hours *)

(** Runoff off, routing on: eight steps, results saved for day 1 and day
    2, and the eighth call hands back 0. *)
Example two_days_eight_steps :
  match Reference.stepped 8 (Reference.two_days 0 1) with
  | Some (s, e) =>
      StepCount (G s) = 8%Z /\
      List.filter is_output_saveResults (trace s) =
        [output_saveResults 86400000; output_saveResults 172800000] /\
      e = 0 /\
      NewRoutingTime (G s) = 172800000
  | None => False
  end.
Proof. vm_compute. repeat split. Qed.

Example two_days_seventh_step :
  match Reference.stepped 7 (Reference.two_days 0 1) with
  | Some (s, e) => e == 7 / 4 /\ NewRoutingTime (G s) = 151200000
  | None => False
  end.
Proof. vm_compute. repeat split. Qed.

(** ** The claims on concrete projects *)

(** C1 on the two-day project with runoff, just started. *)
Lemma C1_witness :
  let s := Reference.started (Reference.two_days 1 0) in
  IsOpenFlag s = true /\ IsStartedFlag s = true /\
  ErrorCode (G s) = ERR_NONE /\
  exists fuel0 : nat, forall fuel, (fuel0 <= fuel)%nat ->
    exists (s' : St unit) (rc : ErrorType) (e' : Q),
      Reference.step fuel 0 s = Some (s', rc, e').
Proof.
  intro s. split; [reflexivity|]. split; [reflexivity|].
  split; [reflexivity|].
  destruct (C1_elapsed_time unit Reference.extern
              Reference.routing_getRoutingStep Reference.datetime_addSeconds
              1000 eq_refl Reference_runoff_advances 0 s
              Reference_saving_keeps_clocks eq_refl eq_refl eq_refl)
    as [fuel0 H].
  exists fuel0. intros fuel Hle.
  destruct (H fuel Hle) as (m & s' & rc & e' & _ & Hstep & _).
  exists s', rc, e'. exact Hstep.
Defined.



(** C3 on the two-day project with runoff, just started: the invocation
    returns, and without error the runoff clock is five minutes on, where
    the routing clock is taken. *)
Lemma C3_witness :
  let s := Reference.started (Reference.two_days 1 0) in
  DoRunoff s = true /\
  0 < candidate_routingStep Reference.routing_getRoutingStep (count_step s) /\
  exists fuel0 : nat, forall fuel, (fuel0 <= fuel)%nat ->
    exists s' : St unit,
      Reference.route fuel 0 s = Some s' /\
      (ErrorCode (G s') = ERR_NONE -> 300000 <= NewRunoffTime (G s')).
Proof.
  intro s. split; [reflexivity|]. split; [reflexivity|].
  pose proof (C3_runoff_catches_up unit Reference.extern
                Reference.routing_getRoutingStep
                Reference.datetime_addSeconds
                1000 eq_refl Reference_runoff_advances 0 s
                eq_refl eq_refl) as H.
  cbv zeta in H. destruct H as [fuel0 H].
  exists fuel0. intros fuel Hle.
  destruct (H fuel Hle)
    as (k & _ & _ & _ & [(_ & Herr & Hex) | (_ & _ & s' & Hex & _ & Hge)]).
  - eexists. split; [exact Hex|]. intro Hok. contradiction.
  - exists s'. split; [exact Hex|]. intros _.
    exact (Hge Reference_runoff_clock).
Defined.

(** C4 on the project reported and routed every hour: the first report is
    due after an hour, and the first call of [swmm_step] saves results for
    that instant and moves the report time on to two hours. *)
Lemma C4_witness :
  let s := Reference.started Reference.hourly in
  reporting_untouched Reference.extern /\
  fits_int (1000 * 3600) /\
  ReportTime (G s) = inject_Z (1000 * 3600) /\
  exists fuel0 : nat, forall fuel, (fuel0 <= fuel)%nat ->
    exists (s' : St unit) (rc : ErrorType) (e' : Q),
      Reference.step fuel 0 s = Some (s', rc, e') /\
      List.filter is_output_saveResults (trace s')
        = [output_saveResults 3600000] /\
      ReportTime (G s') = 3600000 + inject_Z (1000 * 3600).
Proof.
  intro s.
  pose proof (C4_report_scheduler unit Reference.extern
                Reference.routing_getRoutingStep
                Reference.hotstart_open_result
                Reference.datetime_addSeconds
                1000 eq_refl Reference_runoff_advances
                Reference_reporting_untouched) as [Hstart Hstep].
  assert (Hfits : fits_int (1000 * 3600)) by (unfold fits_int; lia).
  split; [exact Reference_reporting_untouched|].
  split; [exact Hfits|].
  split.
  { destruct (Hstart true (Reference.opened Reference.hourly)
                eq_refl eq_refl eq_refl) as (_ & _ & Hplain).
    exact (Hplain Hfits). }
  destruct (Hstep 0 s eq_refl eq_refl eq_refl) as [fuel0 H].
  exists fuel0. intros fuel Hle.
  destruct (H fuel Hle)
    as (m & s' & rc & e' & Hm & Hrun & _ & _ & HR & HS & Hdue & _).
  exists s', rc, e'. split; [exact Hrun|].
  assert (Hclock : NewRoutingTime (G m) = 3600000 /\
                   List.filter is_output_saveResults (trace m) = []).
  { revert Hm. vm_compute. intro Hm. injection Hm as <-.
    split; reflexivity. }
  destruct Hclock as [Hclock Hnone].
  assert (HRm : ReportTime (G m) = 3600000) by (rewrite HR; reflexivity).
  assert (HSm : ReportStep (proj (G m)) = 3600%Z)
    by (rewrite HS; reflexivity).
  destruct Hdue as (Htrace & _ & Hplain).
  { rewrite HRm, Hclock. apply Qle_refl. }
  rewrite HRm, HSm in *.
  split; [|exact (Hplain Hfits)].
  rewrite Htrace, filter_app, Hnone. reflexivity.
Defined.

(** C5 on the project whose wet-weather step is zero. *)
Lemma C5_witness :
  let s := Reference.started Reference.stalled in
  candidate_routingStep Reference.routing_getRoutingStep (count_step s)
    <= 0 /\
  exists s' : St unit,
    Reference.route 0 0 s = Some s' /\
    ErrorCode (G s') = ERR_TIMESTEP /\
    NewRoutingTime (G s') = NewRoutingTime (G s) /\
    trace s' = trace s.
Proof.
  intro s.
  assert (Hc : candidate_routingStep Reference.routing_getRoutingStep
                 (count_step s) <= 0)
    by (vm_compute; discriminate).
  split; [exact Hc|].
  destruct (C5_invalid_timestep_aborts unit Reference.extern
              Reference.routing_getRoutingStep
              Reference.datetime_addSeconds 0 0 s Hc)
    as (s' & Hex & Herr & _ & Hclock & _ & _ & Htrace & _).
  exists s'. auto.
Defined.

(** C6, as first stated, fails for [swmm_open]: called with the error code
    set, it does not return that code but none, and it does not leave the
    state alone (the started flag is cleared, the loader is called). *)
Lemma C6_counterexample :
  let r := Reference.open "in" "rpt" "out" Reference.started_twice in
  ErrorCode (G Reference.started_twice) = ERR_NOT_OPEN /\
  ~ (snd r = ErrorCode (G Reference.started_twice) /\
     fst r = Reference.started_twice) /\
  snd r = ERR_NONE /\
  IsStartedFlag Reference.started_twice = true /\
  IsStartedFlag (fst r) = false /\
  List.length (trace (fst r))
    = (List.length (trace Reference.started_twice) + 6)%nat.
Proof.
  intro r. split; [reflexivity|]. split.
  - intros [Hrc _]. vm_compute in Hrc. discriminate.
  - repeat split.
Qed.

(** C6 as amended, on the simulation started twice. *)
Lemma C6_witness :
  ErrorCode (G Reference.started_twice) <> ERR_NONE /\
  Reference.start true Reference.started_twice
    = (Reference.started_twice, ERR_NOT_OPEN) /\
  Reference.step 0 0 Reference.started_twice
    = Some (Reference.started_twice, ERR_NOT_OPEN, 0).
Proof.
  assert (He : ErrorCode (G Reference.started_twice) <> ERR_NONE)
    by (vm_compute; discriminate).
  split; [exact He|].
  destruct (C6_sticky_error unit Reference.extern
              Reference.routing_getRoutingStep Reference.hotstart_open_result
              Reference.datetime_addSeconds Reference.started_twice He)
    as (Hstart & Hstep & _).
  split; [exact (Hstart true)|exact (Hstep 0%nat 0)].
Defined.

(** C7, as first stated, fails: a second [swmm_start] returns the not-open
    code, and the state is not as before: the error code is now set, and
    the next [swmm_step] does nothing but return it. *)
Lemma C7_counterexample :
  let s := Reference.started (Reference.two_days 0 1) in
  let r := Reference.start true s in
  ErrorCode (G s) = ERR_NONE /\
  IsOpenFlag s = true /\ IsStartedFlag s = true /\
  snd r = ERR_NOT_OPEN /\
  ~ (snd r = ERR_NOT_OPEN /\ fst r = s) /\
  ErrorCode (G (fst r)) = ERR_NOT_OPEN /\
  Reference.step 0 0 (fst r) = Some (fst r, ERR_NOT_OPEN, 0).
Proof.
  intros s r. repeat (split; [reflexivity|]). split; [|split; reflexivity].
  intros [_ H]. apply (f_equal (fun x => ErrorCode (G x))) in H.
  vm_compute in H. discriminate.
Qed.

(** C7 as amended, on a second [swmm_start]. *)
Lemma C7_witness :
  let s := Reference.started (Reference.two_days 0 1) in
  error_message_sets_code Reference.extern /\
  ErrorCode (G s) = ERR_NONE /\
  Reference.start true s =
    (call Reference.extern (report_writeErrorMsg ERR_NOT_OPEN "") s,
     ERR_NOT_OPEN) /\
  same_run s (call Reference.extern (report_writeErrorMsg ERR_NOT_OPEN "") s).
Proof.
  intro s. split; [exact Reference_error_message_sets_code|].
  split; [reflexivity|].
  pose proof (C7_out_of_order unit Reference.extern
                Reference.routing_getRoutingStep
                Reference.hotstart_open_result
                Reference.datetime_addSeconds s
                Reference_error_message_sets_code eq_refl) as H.
  cbv zeta in H. destruct H as (Hstart & _ & _ & _ & Hsame & _).
  split; [exact (Hstart (or_intror eq_refl) true)|exact Hsame].
Defined.

(** C8, as first stated, fails: with runoff off and routing on, the step
    is the one the routing engine gives (here six hours), not the smaller
    of the wet-weather step and the reporting step (five minutes). *)
Lemma C8_counterexample :
  let s := Reference.started (Reference.two_days 0 1) in
  DoRunoff s = false /\
  DoRouting s = true /\
  candidate_routingStep Reference.routing_getRoutingStep (count_step s)
    == 21600 /\
  inject_Z (MIN (WetStep (proj (G s))) (ReportStep (proj (G s)))) == 300 /\
  ~ (candidate_routingStep Reference.routing_getRoutingStep (count_step s)
     == inject_Z (MIN (WetStep (proj (G s))) (ReportStep (proj (G s))))).
Proof.
  intro s. repeat (split; [reflexivity|]).
  vm_compute. discriminate.
Qed.

(** C8 as amended: on the two-day project without nodes the step is the
    smaller of the two; on the one without subcatchments it is the one
    asked of the routing engine. *)
Lemma C8_witness :
  let s := Reference.started (Reference.two_days 1 0) in
  let r := Reference.started (Reference.two_days 0 1) in
  DoRouting s = false /\
  candidate_routingStep Reference.routing_getRoutingStep (count_step s)
    = inject_Z (MIN (WetStep (proj (G s))) (ReportStep (proj (G s)))) /\
  DoRouting r = true /\ DoRunoff r = false /\
  candidate_routingStep Reference.routing_getRoutingStep (count_step r)
    = Reference.routing_getRoutingStep (RouteModel (proj (G r)))
        (RouteStep (proj (G r))) (G (count_step r)).
Proof.
  intros s r. split; [reflexivity|].
  split.
  { exact (proj1 (proj1 (C8_step_without_routing unit Reference.extern
                           Reference.routing_getRoutingStep
                           Reference.datetime_addSeconds 0 0 s)
                    eq_refl)). }
  split; [reflexivity|]. split; [reflexivity|].
  exact (proj1 (proj2 (C8_step_without_routing unit Reference.extern
                         Reference.routing_getRoutingStep
                         Reference.datetime_addSeconds 0 0 r)
                  eq_refl)).
Defined.

(** C9, as first stated, fails: with runoff off and a step that is not
    positive, the invocation ends on the invalid-timestep error without
    the climate state having been set. *)
Lemma C9_counterexample :
  let s := Reference.started Reference.stalled in
  DoRunoff s = false /\
  exists s' : St unit,
    Reference.route 0 0 s = Some s' /\
    ErrorCode (G s') = ERR_TIMESTEP /\
    count is_climate_setState (trace s') =
      count is_climate_setState (trace s) /\
    ~ (count is_climate_setState (trace s') =
       S (count is_climate_setState (trace s))).
Proof.
  intro s. split; [reflexivity|].
  eexists. split; [vm_compute; reflexivity|].
  split; [reflexivity|]. split; [reflexivity|].
  vm_compute. discriminate.
Qed.

(** C9 as amended, on the two-day project without subcatchments. *)
Lemma C9_witness :
  let s := Reference.started (Reference.two_days 0 1) in
  runoff_clock_is_runoff's Reference.extern /\
  DoRunoff s = false /\
  0 < candidate_routingStep Reference.routing_getRoutingStep (count_step s) /\
  exists s' : St unit,
    Reference.route 0 0 s = Some s' /\
    count is_climate_setState (trace s') =
      S (count is_climate_setState (trace s)) /\
    NewRunoffTime (G s') = NewRunoffTime (G s).
Proof.
  intro s. split; [exact Reference_runoff_clock|].
  split; [reflexivity|]. split; [reflexivity|].
  pose proof (C9_climate_without_runoff unit Reference.extern
                Reference.routing_getRoutingStep
                Reference.datetime_addSeconds 0 0 s
                Reference_runoff_clock eq_refl eq_refl) as H.
  cbv zeta in H. destruct H as (s' & Hex & _ & Hclimate & _ & Hclock).
  exists s'. auto.
Defined.

(** C10 on the one-node project: index 5 and index -1 fall outside. *)
Lemma C10_witness :
  let s := Reference.opened (Reference.two_days 0 1) in
  let blank := nodeData_of Reference.a_node in
  IsOpenFlag s = true /\
  swmm_getNodeData 5 blank s = Undefined /\
  swmm_addNodeInflow 5 1 s = Undefined /\
  swmm_getNodeData (-1) blank s = Undefined /\
  swmm_getNodeData 0 blank s = Ret (ERR_NONE, nodeData_of Reference.a_node).
Proof.
  intros s blank. split; [reflexivity|].
  destruct (C10_node_index_unchecked unit 5 blank 1 s eq_refl)
    as (_ & Hout & _).
  destruct (Hout ltac:(vm_compute; intros [_ H]; discriminate)) as [H1 H2].
  split; [exact H1|]. split; [exact H2|]. split; reflexivity.
Defined.

(** * More properties: the rest of [swmm5.c] *)

(** ** Strings *)

Lemma substring0_length (s : string) :
  forall n : nat,
    String.length (substring 0 n s) = Nat.min (String.length s) n.
Proof.
  induction s as [|c s IH]; intros [|n]; cbn; try reflexivity.
  now rewrite IH.
Qed.

Lemma substring0_prefix (s : string) :
  forall n : nat, exists rest : string, s = (substring 0 n s ++ rest)%string.
Proof.
  induction s as [|c s IH]; intros [|n]; cbn.
  - now exists EmptyString.
  - now exists EmptyString.
  - now exists (String c s).
  - destruct (IH n) as [rest Hrest]. exists rest. now rewrite <- Hrest.
Qed.

Lemma substring0_all (s : string) :
  forall n : nat, (String.length s <= n)%nat -> substring 0 n s = s.
Proof.
  induction s as [|c s IH]; intros [|n] H; cbn in *; try reflexivity;
    try lia.
  rewrite IH by lia. reflexivity.
Qed.

(** X1: [sstrncpy] leaves in the destination the first [maxlen] characters
    of the source, all of it when it is not longer: the copy is never
    longer than [maxlen], it is a prefix of the source, and it is the
    source when that has at most [maxlen] characters. *)
Theorem sstrncpy_truncates (src : string) (maxlen : nat) :
  String.length (sstrncpy src maxlen)
    = Nat.min (String.length src) maxlen /\
  (exists rest : string, src = (sstrncpy src maxlen ++ rest)%string) /\
  ((String.length src <= maxlen)%nat -> sstrncpy src maxlen = src).
Proof.
  unfold sstrncpy. split; [apply substring0_length|].
  split; [apply substring0_prefix|apply substring0_all].
Qed.

Section StringProperties.

Variable UCHAR : ascii -> ascii.

Lemma strcomp_folded (s1 : string) :
  forall s2 : string,
    s1 <> EmptyString -> s2 <> EmptyString ->
    NUL_apart UCHAR s1 -> NUL_apart UCHAR s2 ->
    strcomp UCHAR s1 s2 =
    Ret (if list_eq_dec ascii_dec (folded UCHAR s1) (folded UCHAR s2)
         then 1%Z else 0%Z).
Proof.
  induction s1 as [|c1 r1 IH]; intros [|c2 r2] H1 H2 N1 N2;
    try congruence.
  cbn [strcomp folded]. destruct N1 as [N1 N1r]. destruct N2 as [N2 N2r].
  destruct (Ascii.eqb (UCHAR c1) (UCHAR c2)) eqn:E.
  - apply Ascii.eqb_eq in E.
    destruct r1 as [|d1 t1]; destruct r2 as [|d2 t2].
    + cbn [folded]. rewrite E.
      destruct (list_eq_dec ascii_dec [UCHAR c2] [UCHAR c2]);
        [reflexivity|congruence].
    + cbn [strcomp folded]. destruct N2r as [N2r _].
      replace (Ascii.eqb (UCHAR zero) (UCHAR d2)) with false
        by (symmetry; apply Ascii.eqb_neq; congruence).
      destruct (list_eq_dec ascii_dec _ _) as [Heq|]; [|reflexivity].
      discriminate Heq.
    + cbn [strcomp folded]. destruct N1r as [N1r _].
      replace (Ascii.eqb (UCHAR d1) (UCHAR zero)) with false
        by (symmetry; apply Ascii.eqb_neq; congruence).
      destruct (list_eq_dec ascii_dec _ _) as [Heq|]; [|reflexivity].
      discriminate Heq.
    + rewrite IH by (try discriminate; assumption).
      f_equal.
      destruct (list_eq_dec ascii_dec (folded UCHAR (String d1 t1))
                            (folded UCHAR (String d2 t2))) as [Hr|Hr];
        destruct (list_eq_dec ascii_dec _ _) as [Hf|Hf];
        try reflexivity.
      * exfalso. apply Hf. cbn [folded] in *. congruence.
      * exfalso. apply Hr. cbn [folded] in *. congruence.
  - apply Ascii.eqb_neq in E.
    destruct (list_eq_dec ascii_dec _ _) as [Heq|]; [|reflexivity].
    exfalso. apply E. cbn [folded] in Heq. congruence.
Qed.

(** X2: on two non-empty strings none of whose characters [UCHAR] takes
    for the closing NUL, [strcomp] returns 1 when the two strings agree
    character by character under [UCHAR], and 0 otherwise: it compares
    the strings as [UCHAR] folds them, lengths included. *)
Theorem strcomp_compares_folded (s1 s2 : string) :
  s1 <> EmptyString -> s2 <> EmptyString ->
  NUL_apart UCHAR s1 -> NUL_apart UCHAR s2 ->
  (folded UCHAR s1 = folded UCHAR s2 -> strcomp UCHAR s1 s2 = Ret 1%Z) /\
  (folded UCHAR s1 <> folded UCHAR s2 -> strcomp UCHAR s1 s2 = Ret 0%Z).
Proof.
  intros H1 H2 N1 N2. rewrite (strcomp_folded s1 s2 H1 H2 N1 N2).
  destruct (list_eq_dec ascii_dec _ _); split; intro; congruence.
Qed.

(** X3: [strcomp] is symmetric, and on non-empty strings it is reflexive
    and transitive: being told equal is an equivalence. *)
Theorem strcomp_equivalence (s1 s2 s3 : string) :
  s1 <> EmptyString -> s2 <> EmptyString -> s3 <> EmptyString ->
  NUL_apart UCHAR s1 -> NUL_apart UCHAR s2 -> NUL_apart UCHAR s3 ->
  strcomp UCHAR s1 s1 = Ret 1%Z /\
  strcomp UCHAR s1 s2 = strcomp UCHAR s2 s1 /\
  (strcomp UCHAR s1 s2 = Ret 1%Z -> strcomp UCHAR s2 s3 = Ret 1%Z ->
   strcomp UCHAR s1 s3 = Ret 1%Z).
Proof.
  intros H1 H2 H3 N1 N2 N3.
  rewrite (strcomp_folded s1 s1 H1 H1 N1 N1),
          (strcomp_folded s1 s2 H1 H2 N1 N2),
          (strcomp_folded s2 s1 H2 H1 N2 N1),
          (strcomp_folded s2 s3 H2 H3 N2 N3),
          (strcomp_folded s1 s3 H1 H3 N1 N3).
  repeat match goal with
         | |- context [list_eq_dec ?d ?a ?b] =>
             destruct (list_eq_dec d a b)
         end;
    repeat split; intros; congruence.
Qed.

(** X4: the empty string is the edge of [strcomp].  Against a non-empty
    string (whose first character is not taken for NUL) it is told
    different, on either side; two empty strings are not compared at all:
    the closing NULs agree, and the loop then reads the character after
    the NUL of the first string. *)
Theorem strcomp_empty (c : ascii) (r : string) :
  UCHAR c <> UCHAR zero ->
  strcomp UCHAR EmptyString (String c r) = Ret 0%Z /\
  strcomp UCHAR (String c r) EmptyString = Ret 0%Z /\
  strcomp UCHAR EmptyString EmptyString = Undefined.
Proof.
  intro H. cbn [strcomp].
  replace (Ascii.eqb (UCHAR zero) (UCHAR c)) with false
    by (symmetry; apply Ascii.eqb_neq; congruence).
  replace (Ascii.eqb (UCHAR c) (UCHAR zero)) with false
    by (symmetry; apply Ascii.eqb_neq; congruence).
  rewrite Ascii.eqb_refl. auto.
Qed.

End StringProperties.

(** ** Node values in bulk *)

Lemma array_put_length {A : Type} (a : list A) :
  forall (i : nat) (x : A), List.length (array_put a i x) = List.length a.
Proof.
  induction a as [|y a IH]; intros [|i] x; cbn; try reflexivity.
  now rewrite IH.
Qed.

Lemma array_put_middle {A : Type} (pre : list A) :
  forall (y x : A) (post : list A),
    array_put (pre ++ y :: post) (List.length pre) x = pre ++ x :: post.
Proof.
  induction pre as [|p pre IH]; intros y x post; cbn; [reflexivity|].
  now rewrite IH.
Qed.

Lemma copy_nodes_middle (field : TNode.t -> Q) (mid : list TNode.t) :
  forall (before after : list TNode.t) (pre old post : list Q),
    List.length pre = List.length before ->
    List.length old = List.length mid ->
    copy_nodes field (before ++ mid ++ after) (List.length mid)
               (List.length before) (pre ++ old ++ post)
    = Ret (pre ++ map field mid ++ post).
Proof.
  induction mid as [|n mid IH]; intros before after pre old post Hp Ho.
  - destruct old; [reflexivity|discriminate].
  - destruct old as [|o old]; [discriminate|].
    cbn [List.length copy_nodes].
    rewrite nth_error_app2 by lia. rewrite Nat.sub_diag. cbn [nth_error app].
    replace (List.length before <? List.length (pre ++ o :: old ++ post))%nat
      with true
      by (symmetry; apply Nat.ltb_lt; rewrite length_app; cbn; lia).
    rewrite <- Hp, array_put_middle.
    replace (before ++ n :: mid ++ after)
      with ((before ++ [n]) ++ mid ++ after)
      by (now rewrite <- app_assoc).
    replace (pre ++ field n :: old ++ post)
      with ((pre ++ [field n]) ++ old ++ post)
      by (now rewrite <- app_assoc).
    replace (S (List.length pre)) with (List.length (before ++ [n]))
      by (rewrite length_app; cbn; lia).
    rewrite IH.
    + cbn [map]. now rewrite <- app_assoc.
    + rewrite !length_app. cbn. lia.
    + cbn in Ho. lia.
Qed.

Lemma copy_nodes_ret (field : TNode.t -> Q) (nodes : list TNode.t)
    (buf : list Q) :
  (List.length nodes <= List.length buf)%nat ->
  copy_nodes field nodes (List.length nodes) 0 buf =
  Ret (map field nodes ++ skipn (List.length nodes) buf).
Proof.
  intro H.
  pose proof (copy_nodes_middle field nodes [] [] []
                (firstn (List.length nodes) buf)
                (skipn (List.length nodes) buf) eq_refl) as Hm.
  cbn [app List.length] in Hm.
  rewrite app_nil_r, firstn_skipn in Hm.
  apply Hm. rewrite length_firstn. lia.
Qed.

Lemma copy_nodes_out_of_bounds (field : TNode.t -> Q)
    (nodes : list TNode.t) (count : nat) :
  forall (i : nat) (buf : list Q),
    (i <= List.length nodes)%nat -> (i <= List.length buf)%nat ->
    (List.length nodes < i + count \/ List.length buf < i + count)%nat ->
    copy_nodes field nodes count i buf = Undefined.
Proof.
  induction count as [|count IH]; intros i buf Hn Hb Hout;
    cbn [copy_nodes]; [lia|].
  destruct (nth_error nodes i) as [n|] eqn:En; [|reflexivity].
  assert (Hi : (i < List.length nodes)%nat)
    by (apply nth_error_Some; congruence).
  destruct (i <? List.length buf)%nat eqn:Eb; [|reflexivity].
  apply Nat.ltb_lt in Eb.
  apply IH; rewrite ?array_put_length; lia.
Qed.

(** X5: with a project open whose node array has as many nodes as the
    node count says, the three bulk accessors fill the first entries of
    the caller's array with the inflow, the outflow and the head (invert
    elevation plus depth) of each node in order and leave the entries
    after those as they were, provided the array has room for all nodes;
    an array with fewer entries than there are nodes is overrun
    ([Undefined]). *)
Theorem node_values_in_bulk (World : Type) (buf : list Q) (s : St World) :
  IsOpenFlag s = true ->
  Nobjects_NODE (proj (G s)) = Z.of_nat (List.length (Node (G s))) ->
  let nodes := Node (G s) in
  let rest := skipn (List.length nodes) buf in
  ((List.length nodes <= List.length buf)%nat ->
   swmm_getNodeInflows buf s
     = Ret (ERR_NONE, map TNode.inflow nodes ++ rest) /\
   swmm_getNodeOutflows buf s
     = Ret (ERR_NONE, map TNode.outflow nodes ++ rest) /\
   swmm_getNodeHeads buf s
     = Ret (ERR_NONE,
            map (fun n => TNode.invertElev n + TNode.newDepth n) nodes
            ++ rest)) /\
  ((List.length buf < List.length nodes)%nat ->
   swmm_getNodeInflows buf s = Undefined /\
   swmm_getNodeOutflows buf s = Undefined /\
   swmm_getNodeHeads buf s = Undefined).
Proof.
  intros Ho Hn nodes rest.
  unfold swmm_getNodeInflows, swmm_getNodeOutflows, swmm_getNodeHeads,
    get_node_values.
  rewrite Ho, Hn, Nat2Z.id. fold nodes. split.
  - intro Hroom. rewrite !copy_nodes_ret by exact Hroom. auto.
  - intro Hshort.
    rewrite !copy_nodes_out_of_bounds by (cbn; lia). auto.
Qed.

(** X6: what the bulk accessors report for a node is what
    [swmm_getNodeData] reports for it: entry [i] of the arrays they fill
    is the inflow, the outflow and the head of the node record of index
    [i]. *)
Theorem bulk_agrees_with_getNodeData (World : Type) (buf : list Q)
    (data : nodeData.t) (i : nat) (s : St World) :
  IsOpenFlag s = true ->
  Nobjects_NODE (proj (G s)) = Z.of_nat (List.length (Node (G s))) ->
  (List.length (Node (G s)) <= List.length buf)%nat ->
  (i < List.length (Node (G s)))%nat ->
  exists (d : nodeData.t) (flows outflows heads : list Q),
    swmm_getNodeData (Z.of_nat i) data s = Ret (ERR_NONE, d) /\
    swmm_getNodeInflows buf s = Ret (ERR_NONE, flows) /\
    swmm_getNodeOutflows buf s = Ret (ERR_NONE, outflows) /\
    swmm_getNodeHeads buf s = Ret (ERR_NONE, heads) /\
    nth_error flows i = Some (nodeData.inflow d) /\
    nth_error outflows i = Some (nodeData.outflow d) /\
    nth_error heads i = Some (nodeData.head d).
Proof.
  intros Ho Hn Hroom Hi.
  destruct (nth_error (Node (G s)) i) as [n|] eqn:En.
  2:{ apply nth_error_None in En. lia. }
  exists (nodeData_of n). do 3 eexists.
  split.
  { unfold swmm_getNodeData, Node_at. rewrite Ho.
    replace (Z.of_nat i <? 0)%Z with false by (symmetry; apply Z.ltb_ge; lia).
    now rewrite Nat2Z.id, En. }
  unfold swmm_getNodeInflows, swmm_getNodeOutflows, swmm_getNodeHeads,
    get_node_values.
  rewrite Ho, Hn, Nat2Z.id, !copy_nodes_ret by exact Hroom.
  do 3 (split; [reflexivity|]).
  repeat split;
    (rewrite nth_error_app1 by (rewrite length_map; exact Hi);
     rewrite nth_error_map, En; reflexivity).
Qed.

(** ** Node updates *)

Lemma Node_put_length (nodes : list TNode.t) :
  forall (i : nat) (n : TNode.t),
    List.length (Node_put nodes i n) = List.length nodes.
Proof.
  induction nodes as [|y nodes IH]; intros [|i] n; cbn; try reflexivity.
  now rewrite IH.
Qed.

Lemma Node_put_same (nodes : list TNode.t) :
  forall (i : nat) (n : TNode.t),
    (i < List.length nodes)%nat ->
    nth_error (Node_put nodes i n) i = Some n.
Proof.
  induction nodes as [|y nodes IH]; intros [|i] n H; cbn in *; try lia.
  - reflexivity.
  - apply IH. lia.
Qed.

Lemma Node_put_other (nodes : list TNode.t) :
  forall (i j : nat) (n : TNode.t),
    i <> j -> nth_error (Node_put nodes i n) j = nth_error nodes j.
Proof.
  induction nodes as [|y nodes IH]; intros [|i] [|j] n H; cbn;
    try reflexivity; try congruence.
  apply IH. congruence.
Qed.

Lemma Node_put_commute (nodes : list TNode.t) :
  forall (i j : nat) (n m : TNode.t),
    i <> j ->
    Node_put (Node_put nodes i n) j m = Node_put (Node_put nodes j m) i n.
Proof.
  induction nodes as [|y nodes IH]; intros [|i] [|j] n m H; cbn;
    try reflexivity; try congruence.
  f_equal. apply IH. congruence.
Qed.

(** The node an index points at, once the node at [index] is replaced. *)
Lemma Node_at_put (nodes : list TNode.t) (index j : Z) (n n' : TNode.t) :
  Node_at nodes index = Some n ->
  Node_at (Node_put nodes (Z.to_nat index) n') j =
  if (j =? index)%Z then Some n' else Node_at nodes j.
Proof.
  unfold Node_at. intro H.
  destruct (index <? 0)%Z eqn:Ei; [discriminate|]. apply Z.ltb_ge in Ei.
  assert (Hlt : (Z.to_nat index < List.length nodes)%nat)
    by (apply nth_error_Some; congruence).
  destruct (j =? index)%Z eqn:Ej.
  - apply Z.eqb_eq in Ej. subst j.
    replace (index <? 0)%Z with false by (symmetry; apply Z.ltb_ge; lia).
    now apply Node_put_same.
  - apply Z.eqb_neq in Ej.
    destruct (j <? 0)%Z eqn:Ej0; [reflexivity|]. apply Z.ltb_ge in Ej0.
    apply Node_put_other. lia.
Qed.

(** X7: an inflow added to a node in range is added to that node's
    [dllInflow] and to nothing else: the other nodes, the number of nodes
    and the rest of the state stay as they are, and so does everything
    [swmm_getNodeData] reports, for that node as for the others (the
    added inflow is not among the values it copies). *)
Theorem addNodeInflow_only_dllInflow (World : Type) (index : Z)
    (inflow : Q) (n : TNode.t) (s : St World) :
  IsOpenFlag s = true ->
  Node_at (Node (G s)) index = Some n ->
  exists s' : St World,
    swmm_addNodeInflow index inflow s = Ret (s', ERR_NONE) /\
    Node_at (Node (G s')) index = Some (TNode.add_dllInflow inflow n) /\
    TNode.dllInflow (TNode.add_dllInflow inflow n)
      = TNode.dllInflow n + inflow /\
    (forall j : Z, j <> index ->
       Node_at (Node (G s')) j = Node_at (Node (G s)) j) /\
    List.length (Node (G s')) = List.length (Node (G s)) /\
    (forall (j : Z) (data : nodeData.t),
       swmm_getNodeData j data s' = swmm_getNodeData j data s) /\
    s' = on_G (set_Node (Node (G s'))) s.
Proof.
  intros Ho Hn. unfold swmm_addNodeInflow. rewrite Ho, Hn.
  eexists. split; [reflexivity|].
  cbn [on_G G set_Node Node].
  assert (Hat : forall j : Z,
            Node_at (Node_put (Node (G s)) (Z.to_nat index)
                              (TNode.add_dllInflow inflow n)) j
            = if (j =? index)%Z then Some (TNode.add_dllInflow inflow n)
              else Node_at (Node (G s)) j)
    by (intro j; now apply Node_at_put with n).
  split; [rewrite Hat, Z.eqb_refl; reflexivity|].
  split; [reflexivity|].
  split.
  { intros j Hj. rewrite Hat.
    now replace (j =? index)%Z with false
      by (symmetry; apply Z.eqb_neq; exact Hj). }
  split; [apply Node_put_length|].
  split; [|reflexivity].
  intros j data. unfold swmm_getNodeData.
  cbn [on_G IsOpenFlag G set_Node Node]. rewrite Ho, Hat.
  destruct (j =? index)%Z eqn:Ej; [|reflexivity].
  apply Z.eqb_eq in Ej. subst j. now rewrite Hn.
Qed.

(** X8: inflows add up and do not interfere: two inflows added to one
    node leave its [dllInflow] increased by the one, then by the other,
    and inflows added to two different nodes give the same state in
    either order. *)
Theorem addNodeInflow_composes (World : Type) (i j : Z) (a b : Q)
    (n m : TNode.t) (s : St World) :
  IsOpenFlag s = true ->
  Node_at (Node (G s)) i = Some n ->
  Node_at (Node (G s)) j = Some m ->
  (exists s' : St World,
     then_addNodeInflow i b (swmm_addNodeInflow i a s) = Ret (s', ERR_NONE) /\
     exists n' : TNode.t,
       Node_at (Node (G s')) i = Some n' /\
       TNode.dllInflow n' = TNode.dllInflow n + a + b) /\
  (i <> j ->
   then_addNodeInflow j b (swmm_addNodeInflow i a s)
   = then_addNodeInflow i a (swmm_addNodeInflow j b s)).
Proof.
  intros Ho Hi Hj. split.
  - unfold swmm_addNodeInflow at 1. rewrite Ho, Hi.
    cbn [then_addNodeInflow]. unfold swmm_addNodeInflow.
    cbn [on_G IsOpenFlag G set_Node Node]. rewrite Ho.
    rewrite (Node_at_put _ i i n _ Hi), Z.eqb_refl.
    eexists. split; [reflexivity|].
    cbn [on_G G set_Node Node].
    eexists. split.
    + erewrite Node_at_put, Z.eqb_refl; [reflexivity|].
      rewrite (Node_at_put _ i i n _ Hi), Z.eqb_refl. reflexivity.
    + reflexivity.
  - intro Hne.
    unfold swmm_addNodeInflow at 1 2. rewrite Ho, Hi, Hj.
    cbn [then_addNodeInflow]. unfold swmm_addNodeInflow.
    cbn [on_G IsOpenFlag G set_Node Node]. rewrite Ho.
    rewrite (Node_at_put _ i j n _ Hi), (Node_at_put _ j i m _ Hj).
    replace (j =? i)%Z with false by (symmetry; apply Z.eqb_neq; congruence).
    replace (i =? j)%Z with false by (symmetry; apply Z.eqb_neq; congruence).
    rewrite Hi, Hj. cbn [on_G G set_Node Node].
    assert (Hnat : Z.to_nat i <> Z.to_nat j).
    { unfold Node_at in Hi, Hj.
      destruct (i <? 0)%Z eqn:Ei; [discriminate|].
      destruct (j <? 0)%Z eqn:Ej; [discriminate|].
      apply Z.ltb_ge in Ei. apply Z.ltb_ge in Ej. lia. }
    unfold on_G. cbn [G IsOpenFlag IsStartedFlag SaveResultsFlag
      ExceptionCount DoRunoff DoRouting trace set_Node Node ErrorCode
      WarningCode NewRunoffTime NewRoutingTime ReportTime StepCount
      NonConvergeCount RunoffError GwaterError FlowError QualError proj
      world].
    now rewrite (Node_put_commute _ _ _ _ _ Hnat).
Qed.

(** X9: the full depth set for a node in range is what [swmm_getNodeData]
    then reports for it, together with the crest elevation that goes with
    it (invert elevation plus the new full depth) and the full volume
    [node_getVolume] gives for the new depth; the head, the flows and the
    depth of the node are as before, and so are the other nodes. *)
Theorem setNodeFullDepth_round_trip (World : Type)
    (node_getVolume : Z -> Q -> Shared World -> Q)
    (index : Z) (depth : Q) (n : TNode.t) (data : nodeData.t)
    (s : St World) :
  IsOpenFlag s = true ->
  Node_at (Node (G s)) index = Some n ->
  exists (s' : St World) (d : nodeData.t),
    swmm_setNodeFullDepth node_getVolume index depth s
      = Ret (s', ERR_NONE) /\
    swmm_getNodeData index data s' = Ret (ERR_NONE, d) /\
    nodeData.fullDepth d = depth /\
    nodeData.crestElev d = TNode.invertElev n + depth /\
    nodeData.fullVolume d =
      node_getVolume index depth
        (set_Node (Node_put (Node (G s)) (Z.to_nat index)
                            (TNode_set_fullDepth depth n)) (G s)) /\
    nodeData.head d = TNode.invertElev n + TNode.newDepth n /\
    nodeData.inflow d = TNode.inflow n /\
    nodeData.outflow d = TNode.outflow n /\
    nodeData.newDepth d = TNode.newDepth n /\
    nodeData.pondedArea d = TNode.pondedArea n /\
    List.length (Node (G s')) = List.length (Node (G s)) /\
    (forall j : Z, j <> index ->
       swmm_getNodeData j data s' = swmm_getNodeData j data s).
Proof.
  intros Ho Hn. unfold swmm_setNodeFullDepth. rewrite Ho, Hn.
  set (n1 := TNode_set_fullDepth depth n).
  set (g1 := set_Node (Node_put (Node (G s)) (Z.to_nat index) n1) (G s)).
  set (n2 := TNode_set_fullVolume (node_getVolume index depth g1) n1).
  assert (H1 : Node_at (Node g1) index = Some n1).
  { subst g1. cbn [set_Node Node].
    rewrite (Node_at_put _ index index n n1 Hn), Z.eqb_refl. reflexivity. }
  assert (H2 : forall j : Z,
            Node_at (Node_put (Node g1) (Z.to_nat index) n2) j
            = if (j =? index)%Z then Some n2 else Node_at (Node (G s)) j).
  { intro j. rewrite (Node_at_put _ index j n1 n2 H1).
    destruct (j =? index)%Z eqn:Ej; [reflexivity|].
    subst g1. cbn [set_Node Node].
    rewrite (Node_at_put _ index j n n1 Hn), Ej. reflexivity. }
  eexists. exists (nodeData_of n2). split; [reflexivity|].
  unfold swmm_getNodeData. cbn [on_G IsOpenFlag G set_Node Node].
  rewrite Ho, H2, Z.eqb_refl.
  split; [reflexivity|].
  do 8 (split; [reflexivity|]).
  split.
  { rewrite Node_put_length. subst g1. cbn [set_Node Node].
    apply Node_put_length. }
  intros j Hj. rewrite H2.
  now replace (j =? index)%Z with false
    by (symmetry; apply Z.eqb_neq; exact Hj).
Qed.

(** X10: the ponded area set for a node in range is what
    [swmm_getNodeData] then reports for it; everything else it reports
    for that node, and all it reports for the other nodes, is as
    before. *)
Theorem setNodePondedArea_round_trip (World : Type)
    (index : Z) (area : Q) (n : TNode.t) (data : nodeData.t)
    (s : St World) :
  IsOpenFlag s = true ->
  Node_at (Node (G s)) index = Some n ->
  exists (s' : St World),
    swmm_setNodePondedArea index area s = Ret (s', ERR_NONE) /\
    swmm_getNodeData index data s'
      = Ret (ERR_NONE, nodeData_of (TNode_set_pondedArea area n)) /\
    nodeData.pondedArea (nodeData_of (TNode_set_pondedArea area n))
      = area /\
    nodeData.fullDepth (nodeData_of (TNode_set_pondedArea area n))
      = TNode.fullDepth n /\
    nodeData.head (nodeData_of (TNode_set_pondedArea area n))
      = TNode.invertElev n + TNode.newDepth n /\
    List.length (Node (G s')) = List.length (Node (G s)) /\
    (forall j : Z, j <> index ->
       swmm_getNodeData j data s' = swmm_getNodeData j data s).
Proof.
  intros Ho Hn. unfold swmm_setNodePondedArea. rewrite Ho, Hn.
  eexists. split; [reflexivity|].
  unfold swmm_getNodeData. cbn [on_G IsOpenFlag G set_Node Node].
  rewrite Ho.
  rewrite (Node_at_put _ index index n _ Hn), Z.eqb_refl.
  split; [reflexivity|].
  do 3 (split; [reflexivity|]).
  split; [apply Node_put_length|].
  intros j Hj. rewrite (Node_at_put _ index j n _ Hn).
  now replace (j =? index)%Z with false
    by (symmetry; apply Z.eqb_neq; exact Hj).
Qed.

(** X11: [swmm_getNodeID] on an open project whose node array has as many
    nodes as the node count says: an index at or above the count is
    turned down with the number error and the caller's string is left
    alone; for an index in range the string becomes the node's ID cut to
    [MAXLINE] characters, the ID itself when it is not longer; a negative
    index is not turned down but read from before the array. *)
Theorem getNodeID_by_index (World : Type) (MAXLINE : nat)
    (index : Z) (id : string) (s : St World) :
  IsOpenFlag s = true ->
  Nobjects_NODE (proj (G s)) = Z.of_nat (List.length (Node (G s))) ->
  ((Nobjects_NODE (proj (G s)) <= index)%Z ->
   swmm_getNodeID MAXLINE index id s = Ret (ERR_NUMBER, id)) /\
  ((0 <= index < Nobjects_NODE (proj (G s)))%Z ->
   exists (n : TNode.t) (id' : string),
     Node_at (Node (G s)) index = Some n /\
     swmm_getNodeID MAXLINE index id s = Ret (ERR_NONE, id') /\
     (String.length id' <= MAXLINE)%nat /\
     (exists rest : string, TNode.ID n = (id' ++ rest)%string) /\
     ((String.length (TNode.ID n) <= MAXLINE)%nat -> id' = TNode.ID n)) /\
  ((index < 0)%Z -> (0 < Nobjects_NODE (proj (G s)))%Z ->
   swmm_getNodeID MAXLINE index id s = Undefined).
Proof.
  intros Ho Hcount. unfold swmm_getNodeID. rewrite Ho.
  split; [|split].
  - intro H. apply Z.leb_le in H. now rewrite H.
  - intro H.
    replace (Nobjects_NODE (proj (G s)) <=? index)%Z with false
      by (symmetry; apply Z.leb_gt; lia).
    destruct (Node_at_Some (Node (G s)) index) as [n Hn]; [lia|].
    rewrite Hn. exists n, (sstrncpy (TNode.ID n) MAXLINE).
    split; [reflexivity|]. split; [reflexivity|]. unfold sstrncpy.
    split; [rewrite substring0_length; lia|].
    split; [apply substring0_prefix|apply substring0_all].
  - intros Hneg Hpos.
    replace (Nobjects_NODE (proj (G s)) <=? index)%Z with false
      by (symmetry; apply Z.leb_gt; lia).
    rewrite Node_at_None by lia. reflexivity.
Qed.

(** ** The exception filter *)

Lemma xfilter_counts_step (World : Type)
    (service : Service -> Shared World -> Shared World)
    (xc : ExceptionCode) (elapsedTime : Q) (step : Z) (s : St World) :
  continuable xc = true ->
  ExceptionCount (fst (xfilter service xc elapsedTime step s))
    = (ExceptionCount s + 1)%Z /\
  snd (xfilter service xc elapsedTime step s)
    = (if (ExceptionCount s + 1 <? MAX_EXCEPTIONS)%Z
       then EXCEPTION_CONTINUE_EXECUTION
       else EXCEPTION_EXECUTE_HANDLER).
Proof.
  unfold xfilter, continuable.
  destruct (xfilter_case xc) as [msg rc]. cbn [snd].
  destruct rc; cbn [is_EXECUTE_HANDLER negb]; [discriminate|].
  intros _. cbn [set_ExceptionCount ExceptionCount].
  rewrite Z.leb_antisym.
  destruct (ExceptionCount s + 1 <? MAX_EXCEPTIONS)%Z; cbn [negb];
    split; reflexivity.
Qed.

(** X12: what [xfilter] answers and what it does to the exception count.
    An access violation, a floating point stack violation and any
    exception it does not know halt execution and are not counted.  Any
    other exception is counted, and execution continues after it exactly
    when the count, this one included, is still below [MAX_EXCEPTIONS].
    The flags and the shared globals are only touched by the line written
    to the report. *)
Theorem xfilter_counts_continuable (World : Type)
    (service : Service -> Shared World -> Shared World)
    (xc : ExceptionCode) (elapsedTime : Q) (step : Z) (s : St World) :
  let r := xfilter service xc elapsedTime step s in
  (continuable xc = false <->
   xc = EXCEPTION_ACCESS_VIOLATION \/ xc = EXCEPTION_FLT_STACK_CHECK \/
   exists n : Z, xc = EXCEPTION_other n) /\
  (continuable xc = false ->
   snd r = EXCEPTION_EXECUTE_HANDLER /\
   ExceptionCount (fst r) = ExceptionCount s) /\
  (continuable xc = true ->
   ExceptionCount (fst r) = (ExceptionCount s + 1)%Z /\
   ((ExceptionCount s + 1 < MAX_EXCEPTIONS)%Z ->
    snd r = EXCEPTION_CONTINUE_EXECUTION) /\
   ((MAX_EXCEPTIONS <= ExceptionCount s + 1)%Z ->
    snd r = EXCEPTION_EXECUTE_HANDLER)) /\
  IsOpenFlag (fst r) = IsOpenFlag s /\
  IsStartedFlag (fst r) = IsStartedFlag s /\
  trace (fst r) = trace s /\
  exists line : string, G (fst r) = service (report_writeLine line) (G s).
Proof.
  cbv zeta. split.
  { split.
    - destruct xc; cbn; intro H; try discriminate; eauto.
    - intros [-> | [-> | [n ->]]]; reflexivity. }
  unfold xfilter, continuable.
  destruct (xfilter_case xc) as [msg rc]. cbn [snd].
  destruct rc; cbn [is_EXECUTE_HANDLER negb].
  - split; [intros _; split; reflexivity|].
    split; [discriminate|]. repeat split. eexists. reflexivity.
  - split; [discriminate|].
    cbn [set_ExceptionCount ExceptionCount].
    destruct (MAX_EXCEPTIONS <=? ExceptionCount s + 1)%Z eqn:E.
    + apply Z.leb_le in E.
      split; [intros _; split; [reflexivity|split; [lia|reflexivity]]|].
      repeat split. eexists. reflexivity.
    + apply Z.leb_gt in E.
      split; [intros _; split; [reflexivity|split; [reflexivity|lia]]|].
      repeat split. eexists. reflexivity.
Qed.

Lemma xfilter_all_continuable (World : Type)
    (service : Service -> Shared World -> Shared World)
    (elapsedTime : Q) (step : Z) (xcs : list ExceptionCode) :
  forall s : St World,
    forallb continuable xcs = true ->
    let r := xfilter_all service xcs elapsedTime step s in
    ExceptionCount (fst r)
      = (ExceptionCount s + Z.of_nat (List.length xcs))%Z /\
    List.length (snd r) = List.length xcs /\
    forall k : nat, (k < List.length xcs)%nat ->
      nth_error (snd r) k =
      Some (if (ExceptionCount s + Z.of_nat k + 1 <? MAX_EXCEPTIONS)%Z
            then EXCEPTION_CONTINUE_EXECUTION
            else EXCEPTION_EXECUTE_HANDLER).
Proof.
  induction xcs as [|xc xcs IH]; intros s Hall; cbv zeta.
  - cbn. split; [lia|]. split; [reflexivity|]. intros k Hk. lia.
  - cbn [forallb] in Hall. apply andb_true_iff in Hall.
    destruct Hall as [Hxc Hall].
    cbn [xfilter_all].
    pose proof (xfilter_counts_step World service xc elapsedTime step s Hxc)
      as Hstep.
    destruct (xfilter service xc elapsedTime step s) as [s1 rc].
    cbn [fst snd] in Hstep. destruct Hstep as (Hcount & Hrc).
    specialize (IH s1 Hall). cbv zeta in IH.
    destruct (xfilter_all service xcs elapsedTime step s1) as [s2 rcs].
    cbn [fst snd] in *. destruct IH as (IHc & IHl & IHk).
    cbn [List.length].
    split; [rewrite IHc, Hcount; lia|].
    split; [now rewrite IHl|].
    intros [|k] Hk; cbn [nth_error].
    + rewrite Hrc.
      now replace (ExceptionCount s + Z.of_nat 0 + 1)%Z
        with (ExceptionCount s + 1)%Z by lia.
    + rewrite IHk by lia. rewrite Hcount.
      now replace (ExceptionCount s + 1 + Z.of_nat k + 1)%Z
        with (ExceptionCount s + Z.of_nat (S k) + 1)%Z by lia.
Qed.

(** X13: from an exception count of zero, as [swmm_open] and [swmm_start]
    leave it, with continuable exceptions only: execution continues after
    each of the first [MAX_EXCEPTIONS - 1] and is halted at every one from
    the [MAX_EXCEPTIONS]-th on; the count in the end is the number of
    exceptions. *)
Theorem xfilter_ceiling (World : Type)
    (service : Service -> Shared World -> Shared World)
    (elapsedTime : Q) (step : Z) (xcs : list ExceptionCode)
    (s : St World) :
  ExceptionCount s = 0%Z ->
  forallb continuable xcs = true ->
  let r := xfilter_all service xcs elapsedTime step s in
  ExceptionCount (fst r) = Z.of_nat (List.length xcs) /\
  forall k : nat, (k < List.length xcs)%nat ->
    ((S k < 100)%nat ->
     nth_error (snd r) k = Some EXCEPTION_CONTINUE_EXECUTION) /\
    ((100 <= S k)%nat ->
     nth_error (snd r) k = Some EXCEPTION_EXECUTE_HANDLER).
Proof.
  intros H0 Hall.
  destruct (xfilter_all_continuable World service elapsedTime step xcs s Hall)
    as (Hc & _ & Hk).
  cbv zeta. split; [rewrite Hc, H0; lia|].
  intros k Hlt. rewrite (Hk k Hlt), H0. unfold MAX_EXCEPTIONS.
  split; intro H.
  - now replace (0 + Z.of_nat k + 1 <? 100)%Z with true
      by (symmetry; apply Z.ltb_lt; lia).
  - now replace (0 + Z.of_nat k + 1 <? 100)%Z with false
      by (symmetry; apply Z.ltb_ge; lia).
Qed.

(** ** Conversion factors and elapsed time *)

(** X14: with [FLOW] not beyond the ten rows of [Ucf], a quantity code
    from 0 on, a unit system of 0 or 1 and flow units from 0 to 5, [UCF]
    finds a factor in its tables, and the factor is positive (dividing by
    it is safe); for flow, in cubic feet per second (flow units 0), it is
    1.  A negative code below [FLOW] reads from before the table. *)
Theorem UCF_defined_positive (FLOW UnitSystem FlowUnits u : Z) :
  (FLOW <= 10)%Z ->
  (0 <= UnitSystem <= 1)%Z ->
  (0 <= FlowUnits <= 5)%Z ->
  ((0 <= u)%Z ->
   exists f : Q, UCF FLOW UnitSystem FlowUnits u = Ret f /\ 0 < f) /\
  ((FLOW <= u)%Z -> FlowUnits = 0%Z ->
   UCF FLOW UnitSystem FlowUnits u = Ret 1.0) /\
  ((u < 0)%Z -> (u < FLOW)%Z ->
   UCF FLOW UnitSystem FlowUnits u = Undefined).
Proof.
  intros HF HU HQ. split; [|split].
  - intro Hu. unfold UCF.
    destruct (u <? FLOW)%Z eqn:E.
    + apply Z.ltb_lt in E.
      assert (Hcases : (u = 0 \/ u = 1 \/ u = 2 \/ u = 3 \/ u = 4
                        \/ u = 5 \/ u = 6 \/ u = 7 \/ u = 8 \/ u = 9)%Z)
        by lia.
      assert (Hus : (UnitSystem = 0 \/ UnitSystem = 1)%Z) by lia.
      repeat (destruct Hcases as [-> | Hcases]);
        try subst u;
        (destruct Hus as [-> | ->]; cbn; eexists; split; reflexivity).
    + assert (Hfu : (FlowUnits = 0 \/ FlowUnits = 1 \/ FlowUnits = 2
                     \/ FlowUnits = 3 \/ FlowUnits = 4 \/ FlowUnits = 5)%Z)
        by lia.
      repeat (destruct Hfu as [-> | Hfu]); try subst FlowUnits;
        (cbn; eexists; split; reflexivity).
  - intros Hu ->. unfold UCF.
    now replace (u <? FLOW)%Z with false by (symmetry; apply Z.ltb_ge; lia).
  - intros Hneg Hlt. unfold UCF, at_index.
    replace (u <? FLOW)%Z with true by (symmetry; apply Z.ltb_lt; lia).
    now replace (u <? 0)%Z with true by (symmetry; apply Z.ltb_lt; lia).
Qed.

Lemma trunc_nonneg (x : Q) : 0 <= x -> trunc x = Qfloor x.
Proof.
  intro H. destruct x as [n d]. unfold trunc, Qfloor. cbn [Qnum Qden].
  apply Z.quot_div_nonneg; [|lia].
  unfold Qle in H. cbn in H. lia.
Qed.

(** X15: [getElapsedTime] for a date at or before the start of the
    simulation gives zero days, hours and minutes; for a later date the
    days are the whole days elapsed since the start (never negative, and
    less than a day short of the time elapsed), the hours and minutes
    those [datetime_decodeTime] finds in the time elapsed. *)
Theorem getElapsedTime_days (World : Type)
    (datetime_decodeTime : Q -> Z * Z * Z)
    (aDate : Q) (g : Shared World) :
  let x := aDate - StartDateTime (proj g) in
  (aDate <= StartDateTime (proj g) ->
   getElapsedTime datetime_decodeTime aDate g = (0, 0, 0)%Z) /\
  (StartDateTime (proj g) < aDate ->
   exists days hrs mins : Z,
     getElapsedTime datetime_decodeTime aDate g = (days, hrs, mins) /\
     (0 <= days)%Z /\
     inject_Z days <= x /\ x < inject_Z days + 1 /\
     hrs = fst (fst (datetime_decodeTime x)) /\
     mins = snd (fst (datetime_decodeTime x))).
Proof.
  cbv zeta. unfold getElapsedTime. split.
  - intro H.
    replace (Qleb (aDate - StartDateTime (proj g)) 0) with true
      by (symmetry; apply Qleb_le; lra).
    reflexivity.
  - intro H.
    replace (Qleb (aDate - StartDateTime (proj g)) 0) with false
      by (symmetry; apply Qleb_gt; lra).
    set (x := aDate - StartDateTime (proj g)).
    assert (Hx : 0 <= x) by (subst x; lra).
    destruct (datetime_decodeTime x) as [[hrs mins] secs].
    exists (trunc x), hrs, mins. split; [reflexivity|].
    rewrite trunc_nonneg by exact Hx.
    split.
    { change 0%Z with (Qfloor 0). now apply Qfloor_resp_le. }
    split; [apply Qfloor_le|].
    split; [|split; reflexivity].
    pose proof (Qlt_floor x) as Hlt.
    rewrite inject_Z_plus in Hlt. exact Hlt.
Qed.

(** ** The life cycle *)

Section LifeCycle.

Variable World : Type.
Variable extern : Call -> Shared World -> Shared World.
Variable routing_getRoutingStep : Z -> Q -> Shared World -> Q.
Variable hotstart_open_result : Shared World -> bool.
Variable datetime_addSeconds : Q -> Q -> Q.
Variable service : Service -> Shared World -> Shared World.
Variable Fout_scratch : Shared World -> bool.
Variable Finp_file : Shared World -> bool.
Variable Frpt_file : Shared World -> bool.

Local Abbreviation State := (St World).
Local Abbreviation do_call := (call extern).
Local Abbreviation loop := (runoff_loop extern).
Local Abbreviation exec :=
  (execRouting extern routing_getRoutingStep datetime_addSeconds).
Local Abbreviation route_guarded :=
  (route_if_not_done extern routing_getRoutingStep datetime_addSeconds).
Local Abbreviation step :=
  (swmm_step extern routing_getRoutingStep datetime_addSeconds).
Local Abbreviation start := (swmm_start extern hotstart_open_result).
Local Abbreviation save := (save_at_ReportTime extern).
Local Abbreviation open := (swmm_open extern).
Local Abbreviation finish := (swmm_end extern).
Local Abbreviation close :=
  (swmm_close service Fout_scratch Finp_file Frpt_file).
Local Abbreviation refused :=
  (do_call (report_writeErrorMsg ERR_NOT_OPEN "")).

Ltac state_simpl :=
  cbn [call on_G count_step perform
       trace G IsOpenFlag IsStartedFlag SaveResultsFlag ExceptionCount
       DoRunoff DoRouting statics
       set_IsOpenFlag set_IsStartedFlag set_SaveResultsFlag
       set_ExceptionCount set_DoRunoff set_DoRouting
       ErrorCode WarningCode NewRunoffTime NewRoutingTime ReportTime
       StepCount NonConvergeCount RunoffError GwaterError FlowError
       QualError Node proj world
       set_ErrorCode set_WarningCode set_NewRunoffTime set_NewRoutingTime
       set_ReportTime set_StepCount set_NonConvergeCount
       clear_continuity_errors set_Node fst snd].

Ltac state_simpl_in H :=
  cbn [call on_G count_step perform
       trace G IsOpenFlag IsStartedFlag SaveResultsFlag ExceptionCount
       DoRunoff DoRouting statics
       set_IsOpenFlag set_IsStartedFlag set_SaveResultsFlag
       set_ExceptionCount set_DoRunoff set_DoRouting
       ErrorCode WarningCode NewRunoffTime NewRoutingTime ReportTime
       StepCount NonConvergeCount RunoffError GwaterError FlowError
       QualError Node proj world
       set_ErrorCode set_WarningCode set_NewRunoffTime set_NewRoutingTime
       set_ReportTime set_StepCount set_NonConvergeCount
       clear_continuity_errors set_Node fst snd] in H.

Ltac split_ifs :=
  repeat match goal with
         | |- context [if ?b then _ else _] => destruct b eqn:?
         end.

Ltac split_inner_ifs :=
  repeat (match goal with
          | |- context [if ?b then _ else _] =>
              lazymatch b with
              | context [if _ then _ else _] => fail
              | _ => destruct b eqn:?
              end
          end; state_simpl; cbn [negb]).

Section MassBalance.

Variable float_of_double : Q -> Q.

Local Abbreviation getMassBalErr := (swmm_getMassBalErr float_of_double).

(** X16: [swmm_close] returns 0 whatever the error code is, and leaves
    the engine closed: both phase flags are off and no call of the run is
    made.  From there [swmm_end] only reports the not-open error,
    [swmm_start] and [swmm_step] return the error code if one is set and
    otherwise only report the not-open error, the mass balance errors
    read as zero and the node accessors answer not-open. *)
Theorem close_leaves_closed (s : State) :
  let s' := fst (close s) in
  snd (close s) = ERR_NONE /\
  IsOpenFlag s' = false /\ IsStartedFlag s' = false /\
  trace s' = trace s /\
  finish s' = (refused s', ErrorCode (G (refused s'))) /\
  (forall saveResults : bool,
     start saveResults s' =
     if is_set (ErrorCode (G s')) then (s', ErrorCode (G s'))
     else (refused s', ErrorCode (G (refused s')))) /\
  (forall (fuel : nat) (e : Q),
     step fuel e s' =
     if is_set (ErrorCode (G s')) then Some (s', ErrorCode (G s'), e)
     else Some (refused s', ErrorCode (G (refused s')), e)) /\
  getMassBalErr s' = (0, 0, 0, ERR_NONE) /\
  (forall (index : Z) (data : nodeData.t),
     swmm_getNodeData index data s' = Ret (ERR_NOT_OPEN, data)) /\
  (forall (index : Z) (inflow : Q),
     swmm_addNodeInflow index inflow s' = Ret (s', ERR_NOT_OPEN)).
Proof.
  cbv zeta.
  assert (Hflags : IsOpenFlag (fst (close s)) = false /\
                   IsStartedFlag (fst (close s)) = false /\
                   trace (fst (close s)) = trace s).
  { unfold swmm_close. split_ifs; state_simpl; repeat split. }
  destruct Hflags as (Ho & Hs & Ht).
  split; [reflexivity|].
  split; [exact Ho|]. split; [exact Hs|]. split; [exact Ht|].
  split; [unfold swmm_end; now rewrite Ho|].
  split.
  { intro saveResults. unfold swmm_start. rewrite Ho.
    now destruct (is_set (ErrorCode (G (fst (close s))))). }
  split.
  { intros fuel e. unfold swmm_step. rewrite Ho.
    now destruct (is_set (ErrorCode (G (fst (close s))))). }
  split; [unfold swmm_getMassBalErr; now rewrite Ho|].
  split.
  - intros index data. unfold swmm_getNodeData. now rewrite Ho.
  - intros index inflow. unfold swmm_addNodeInflow. now rewrite Ho.
Qed.

(** X17: [swmm_end] on an open project leaves it open and not started,
    and returns the error code as it then is; a second [swmm_end] changes
    nothing at all, nor does [swmm_end] on a project that was not started.
    Once the run is ended the mass balance errors read as the values the
    shared globals hold, cast to [float]. *)
Theorem end_settles (s : State) :
  IsOpenFlag s = true ->
  let s1 := fst (finish s) in
  IsOpenFlag s1 = true /\ IsStartedFlag s1 = false /\
  snd (finish s) = ErrorCode (G s1) /\
  finish s1 = (s1, ErrorCode (G s1)) /\
  (IsStartedFlag s = false -> finish s = (s, ErrorCode (G s))) /\
  getMassBalErr s1
    = (float_of_double (RunoffError (G s1)),
       float_of_double (FlowError (G s1)),
       float_of_double (QualError (G s1)), ERR_NONE).
Proof.
  intros Ho. cbv zeta.
  assert (Hflags : IsOpenFlag (fst (finish s)) = true /\
                   IsStartedFlag (fst (finish s)) = false).
  { unfold swmm_end. rewrite Ho. cbn [negb fst].
    destruct (IsStartedFlag s) eqn:Hs; [|now split].
    split_inner_ifs; now split. }
  destruct Hflags as [Ho1 Hs1].
  split; [exact Ho1|]. split; [exact Hs1|].
  split; [unfold swmm_end; rewrite Ho; reflexivity|].
  split; [unfold swmm_end at 1; now rewrite Ho1, Hs1|].
  split; [intro Hs; unfold swmm_end; now rewrite Ho, Hs|].
  unfold swmm_getMassBalErr. now rewrite Ho1, Hs1.
Qed.

End MassBalance.

(** X18: [swmm_end] on a started run closes what was opened whatever the
    error code is: statistics, mass balance, then rainfall unless it is
    ignored, runoff if it is computed, routing (for the routing model of
    the project) if it is computed, and the hot start files last, each
    once and in this order.  The reports on mass balance and statistics
    are asked for, in this order, only if no error code is set once the
    output file is ended.  (The calls made leave the options of the
    project alone.) *)
Theorem end_tears_down (s : State) :
  teardown_keeps_options extern ->
  IsOpenFlag s = true ->
  IsStartedFlag s = true ->
  let s0 := if Fout_file (proj (G s)) then do_call output_end s else s in
  exists t : list Call,
    trace (fst (finish s)) = trace s ++ t /\
    List.filter is_closing t =
      [stats_close; massbal_close]
      ++ (if IgnoreRainfall (proj (G s)) then [] else [rain_close])
      ++ (if DoRunoff s then [runoff_close] else [])
      ++ (if DoRouting s
          then [routing_close (RouteModel (proj (G s)))] else [])
      ++ [hotstart_close] /\
    List.filter is_summary t =
      (if negb (is_set (ErrorCode (G s0)))
       then [massbal_report; stats_report]
       else []).
Proof.
  intros Hopt Ho Hs. cbv zeta. unfold swmm_end. rewrite Ho, Hs.
  cbn [negb fst].
  assert (Hrain : forall c g, is_teardown c = true ->
            IgnoreRainfall (proj (extern c g)) = IgnoreRainfall (proj g))
    by (intros c g Hc; now apply Hopt).
  assert (Hmodel : forall c g, is_teardown c = true ->
            RouteModel (proj (extern c g)) = RouteModel (proj g))
    by (intros c g Hc; now apply Hopt).
  repeat (match goal with
          | |- context [if ?b then _ else _] =>
              lazymatch b with
              | context [if _ then _ else _] => fail
              | _ => destruct b eqn:?
              end
          end; state_simpl; cbn [negb];
          rewrite ?Hrain, ?Hmodel by reflexivity);
    rewrite <- ?app_assoc; cbn [app];
    first [ solve [ eexists; (split; [reflexivity|]);
                    cbn [List.filter is_closing is_summary app];
                    split; reflexivity ]
          | solve [ exfalso; cbn [negb] in *; congruence ] ].
Qed.

Lemma swmm_start_marks_started (saveResults : bool) (s : State) :
  IsOpenFlag s = true -> IsStartedFlag s = false ->
  ErrorCode (G s) = ERR_NONE ->
  IsStartedFlag (fst (start saveResults s)) = true.
Proof.
  intros Ho Hs He. unfold swmm_start. rewrite He, Ho, Hs.
  cbn [is_set negb orb]. split_inner_ifs; reflexivity.
Qed.

(** X19: [swmm_start] on an open project that is not started and has no
    error code set marks the run started and clears the exception count
    before anything can fail, and returns the error code as it then is;
    it writes no error message.  The [saveResults] argument is stored only
    by a start that gets as far as writing the options to the report: a
    start cut short by the rainfall files or the hot start file leaves
    [SaveResultsFlag] as it was, with the run marked started all the
    same. *)
Theorem start_in_order (saveResults : bool) (s : State) :
  IsOpenFlag s = true ->
  IsStartedFlag s = false ->
  ErrorCode (G s) = ERR_NONE ->
  let s' := fst (start saveResults s) in
  IsOpenFlag s' = true /\ IsStartedFlag s' = true /\
  ExceptionCount s' = 0%Z /\
  snd (start saveResults s) = ErrorCode (G s') /\
  count is_report_writeErrorMsg (trace s')
    = count is_report_writeErrorMsg (trace s) /\
  ((count is_report_writeOptions (trace s')
      = S (count is_report_writeOptions (trace s)) /\
    SaveResultsFlag s' = saveResults)
   \/
   (count is_report_writeOptions (trace s')
      = count is_report_writeOptions (trace s) /\
    SaveResultsFlag s' = SaveResultsFlag s)).
Proof.
  intros Ho Hs He. cbv zeta. unfold swmm_start. rewrite He, Ho, Hs.
  cbn [is_set negb orb].
  split_inner_ifs;
    rewrite ?count_app; unfold count;
    cbn [List.filter List.length is_report_writeErrorMsg
         is_report_writeOptions];
    (split; [exact Ho|]); (split; [reflexivity|]);
    (split; [reflexivity|]); (split; [reflexivity|]);
    (split; [lia|]);
    first [ left; split; [lia|reflexivity]
          | right; split; [lia|reflexivity] ].
Qed.

(** X20: a run that was ended without error code can be started again
    on the same open project, with no [swmm_close] and [swmm_open] in
    between: the second [swmm_start] is not turned down. *)
Theorem restart_after_end (saveResults : bool) (s : State) :
  IsOpenFlag s = true ->
  ErrorCode (G (fst (finish s))) = ERR_NONE ->
  let s2 := fst (start saveResults (fst (finish s))) in
  IsStartedFlag (fst (finish s)) = false /\
  IsStartedFlag s2 = true /\
  count is_report_writeErrorMsg (trace s2)
    = count is_report_writeErrorMsg (trace (fst (finish s))).
Proof.
  intros Ho He. cbv zeta.
  assert (Hflags : IsOpenFlag (fst (finish s)) = true /\
                   IsStartedFlag (fst (finish s)) = false).
  { unfold swmm_end. rewrite Ho. cbn [negb fst].
    destruct (IsStartedFlag s) eqn:Hs; [|now split].
    split_inner_ifs; now split. }
  destruct Hflags as [Ho1 Hs1].
  split; [exact Hs1|].
  split; [now apply swmm_start_marks_started|].
  set (s1 := fst (finish s)) in *. clearbody s1.
  unfold swmm_start. rewrite He, Ho1, Hs1. cbn [is_set negb orb].
  split_inner_ifs;
    rewrite ?count_app; unfold count;
    cbn [List.filter List.length is_report_writeErrorMsg]; lia.
Qed.

Lemma runoff_loop_keeps_statics (fuel : nat) (next : Q) :
  forall (s s' : State) (b : bool),
    loop fuel next s = Some (b, s') -> statics s' = statics s.
Proof.
  induction fuel as [|fuel IH]; intros s s' b H;
    rewrite runoff_loop_eq in H;
    destruct (Qltb (NewRunoffTime (G s)) next);
    try discriminate; try (now inversion H).
  destruct (is_set (ErrorCode (G (do_call runoff_execute s)))).
  - now inversion H.
  - now rewrite (IH _ _ _ H).
Qed.

Lemma execRouting_keeps_statics (fuel : nat) (e : Q) (s m : State) :
  exec fuel e s = Some m -> statics m = statics s.
Proof.
  unfold execRouting.
  destruct (Qleb _ 0); [intro H; now inversion H|].
  destruct (adjust_routingStep _ _) as [a b].
  destruct (DoRunoff (count_step s)).
  - destruct (loop fuel b (count_step s)) as [[r s2]|] eqn:Hloop;
      [|discriminate].
    apply runoff_loop_keeps_statics in Hloop.
    destruct r; intro H; injection H as <-; [exact Hloop|].
    transitivity (statics s2); [|exact Hloop].
    match goal with |- context [if ?c then _ else _] => destruct c end;
      reflexivity.
  - intro H. injection H as <-.
    match goal with |- context [if ?c then _ else _] => destruct c end;
      reflexivity.
Qed.

Lemma save_keeps_statics (m : State) : statics (save m) = statics m.
Proof.
  unfold save_at_ReportTime.
  destruct (Qleb _ _); [|reflexivity].
  destruct (SaveResultsFlag m) eqn:E; unfold statics; state_simpl;
    now rewrite ?E.
Qed.

Lemma swmm_step_keeps_statics (fuel : nat) (e e' : Q) (rc : ErrorType)
    (s s' : State) :
  step fuel e s = Some (s', rc, e') ->
  statics s' = statics s.
Proof.
  unfold swmm_step.
  destruct (is_set (ErrorCode (G s))); [intro H; now inversion H|].
  destruct (negb (IsOpenFlag s) || negb (IsStartedFlag s));
    [intro H; now inversion H|].
  destruct (route_guarded fuel e s) as [m|] eqn:Hm; [|discriminate].
  intro H. inversion H; subst; clear H.
  rewrite save_keeps_statics.
  unfold route_if_not_done in Hm.
  destruct (Qltb _ _); [|now inversion Hm].
  now apply execRouting_keeps_statics with fuel e.
Qed.

(** X21: calls of [swmm_step], however many and whatever the state they
    are made in, never change a file-local variable of the driver: the
    project stays open or closed, the run started or not, and the
    exception count, the save flag and the choice of what is computed
    (runoff, routing) stay as [swmm_start] set them. *)
Theorem step_keeps_statics (fuels : list nat) :
  forall (e e' : Q) (s s' : State),
    swmm_steps extern routing_getRoutingStep datetime_addSeconds
      fuels e s = Some (s', e') ->
    statics s' = statics s.
Proof.
  induction fuels as [|fuel rest IH]; intros e e' s s' Hrun.
  { now inversion Hrun. }
  cbn [swmm_steps] in Hrun.
  destruct (step fuel e s) as [[[s1 rc] e1]|] eqn:Hstep; [|discriminate].
  rewrite (IH _ _ _ _ Hrun).
  now apply swmm_step_keeps_statics with fuel e e1 rc.
Qed.

Section StepCounter.

Hypothesis step_count : step_count_is_the_driver's extern.

Lemma runoff_loop_keeps_StepCount (fuel : nat) (next : Q) :
  forall (s s' : State) (b : bool),
    loop fuel next s = Some (b, s') ->
    StepCount (G s') = StepCount (G s).
Proof.
  induction fuel as [|fuel IH]; intros s s' b H;
    rewrite runoff_loop_eq in H;
    destruct (Qltb (NewRunoffTime (G s)) next);
    try discriminate; try (now inversion H).
  destruct (is_set (ErrorCode (G (do_call runoff_execute s)))).
  - inversion H. state_simpl. now apply step_count.
  - rewrite (IH _ _ _ H). state_simpl. now apply step_count.
Qed.

(** X22: the step counter counts the invocations of the orchestrator: a
    call of [swmm_step] on a started run without error code adds one to
    it when the routing clock is short of total duration, whether or not
    the step then fails, and leaves it alone once total duration is
    reached (the other modules leaving the counter alone). *)
Theorem step_counts_invocations (fuel : nat) (e e' : Q) (rc : ErrorType)
    (s s' : State) :
  IsOpenFlag s = true ->
  IsStartedFlag s = true ->
  ErrorCode (G s) = ERR_NONE ->
  step fuel e s = Some (s', rc, e') ->
  (NewRoutingTime (G s) < TotalDuration (proj (G s)) ->
   StepCount (G s') = (StepCount (G s) + 1)%Z) /\
  (TotalDuration (proj (G s)) <= NewRoutingTime (G s) ->
   StepCount (G s') = StepCount (G s)).
Proof.
  intros Ho Hs He. unfold swmm_step. rewrite He, Ho, Hs.
  cbn [is_set negb orb].
  destruct (route_guarded fuel e s) as [m|] eqn:Hm; [|discriminate].
  intro H. inversion H; subst; clear H.
  assert (Hsave : StepCount (G (save m)) = StepCount (G m)).
  { unfold save_at_ReportTime. destruct (Qleb _ _); [|reflexivity].
    destruct (SaveResultsFlag m); state_simpl; [|reflexivity].
    now apply step_count. }
  rewrite Hsave. unfold route_if_not_done in Hm.
  destruct (Qltb (NewRoutingTime (G s)) (TotalDuration (proj (G s))))
    eqn:Hlt.
  - split; [intros _|].
    2:{ intro Hge. apply Qltb_lt in Hlt. exfalso.
        exact (Qle_not_lt _ _ Hge Hlt). }
    revert Hm. unfold execRouting.
    destruct (Qleb _ 0); [intro H; now inversion H|].
    destruct (adjust_routingStep _ _) as [a b].
    destruct (DoRunoff (count_step s)).
    + destruct (loop fuel b (count_step s)) as [[r s2]|] eqn:Hloop;
        [|discriminate].
      apply runoff_loop_keeps_StepCount in Hloop.
      destruct r; intro H; injection H as <-; [exact Hloop|].
      match goal with |- context [if ?c then _ else _] => destruct c end;
        state_simpl; rewrite ?step_count by reflexivity; exact Hloop.
    + intro H. injection H as <-.
      match goal with |- context [if ?c then _ else _] => destruct c end;
        state_simpl; rewrite ?step_count by reflexivity; reflexivity.
  - inversion Hm; subst. split; [|reflexivity].
    intro L. apply Qltb_ge in Hlt. exfalso. exact (Qle_not_lt _ _ Hlt L).
Qed.

End StepCounter.

(** X23: how far [swmm_open] gets shows in what it leaves.  It always
    leaves the run not started and the exception count at zero, and
    returns the error code as it then is.  If opening the files leaves an
    error, the project is not marked open and nothing is read.  If
    reading the input leaves an error, the project stays marked open
    though its data were not validated, and [swmm_start] then does nothing
    but return that error. *)
Theorem open_marks_progress (f1 f2 f3 : string) (s : State) :
  let g1 :=
    extern (project_open f1 f2 f3)
      (set_WarningCode 0
         (set_ErrorCode ERR_NONE
            (extern datetime_setDateFormat_M_D_Y (G s)))) in
  let g2 := extern project_readInput (extern report_writeLogo g1) in
  let r := open f1 f2 f3 s in
  IsStartedFlag (fst r) = false /\
  ExceptionCount (fst r) = 0%Z /\
  snd r = ErrorCode (G (fst r)) /\
  (ErrorCode g1 <> ERR_NONE ->
   IsOpenFlag (fst r) = false /\
   G (fst r) = g1 /\
   trace (fst r)
     = trace s ++ [datetime_setDateFormat_M_D_Y; project_open f1 f2 f3]) /\
  (ErrorCode g1 = ERR_NONE ->
   IsOpenFlag (fst r) = true /\
   (ErrorCode g2 <> ERR_NONE ->
    G (fst r) = g2 /\
    trace (fst r)
      = trace s ++ [datetime_setDateFormat_M_D_Y; project_open f1 f2 f3;
                    report_writeLogo; project_readInput] /\
    forall saveResults : bool,
      start saveResults (fst r) = (fst r, ErrorCode g2))).
Proof.
  cbv zeta. unfold swmm_open. state_simpl.
  set (g1 := extern (project_open f1 f2 f3) _).
  set (g2 := extern project_readInput (extern report_writeLogo g1)).
  destruct (is_set (ErrorCode g1)) eqn:E1; state_simpl.
  - apply is_set_true in E1.
    repeat (split; [reflexivity|]). split.
    + intros _. split; [reflexivity|]. split; [reflexivity|].
      now rewrite <- app_assoc.
    + intro H. contradiction.
  - apply is_set_false in E1.
    destruct (is_set (ErrorCode g2)) eqn:E2; state_simpl.
    + repeat (split; [reflexivity|]). split; [intro H; contradiction|].
      intros _. split; [reflexivity|]. intros _.
      split; [reflexivity|].
      split; [now rewrite <- !app_assoc|].
      intro saveResults.
      match goal with
      | |- start _ ?s1 = _ =>
          assert (HG : ErrorCode (G s1) = ErrorCode g2) by reflexivity;
          set (s' := s1) in *
      end.
      unfold swmm_start. now rewrite HG, E2.
    + apply is_set_false in E2.
      destruct (RptFlags_input _); state_simpl;
        (repeat (split; [reflexivity|])); (split; [intro H; contradiction|]);
        intros _; (split; [reflexivity|]); intro H; contradiction.
Qed.

(** *** The report instants *)

Lemma report_instants_above (n : nat) :
  forall t0 t interval : Q,
    0 < interval -> t0 < t ->
    Forall (Qlt t0) (report_instants n t interval).
Proof.
  induction n as [|n IH]; intros t0 t interval Hpos Hlt;
    cbn [report_instants]; constructor; [exact Hlt|].
  apply IH; [exact Hpos|lra].
Qed.

Lemma report_instants_sorted (n : nat) :
  forall t interval : Q,
    0 < interval -> StronglySorted Qlt (report_instants n t interval).
Proof.
  induction n as [|n IH]; intros t interval Hpos;
    cbn [report_instants]; constructor.
  - now apply IH.
  - apply report_instants_above; [exact Hpos|lra].
Qed.

Lemma report_instants_still (n : nat) :
  forall t x : Q, In x (report_instants n t 0) -> x == t.
Proof.
  induction n as [|n IH]; intros t x Hin; cbn [report_instants] in Hin.
  - destruct Hin.
  - destruct Hin as [<-|Hin]; [reflexivity|].
    rewrite (IH _ _ Hin). lra.
Qed.

Section ReportInstants.

Hypothesis reporting : reporting_untouched extern.

Lemma call_keeps_schedule (c : Call) (s : State) :
  opens_project c = false -> is_output_saveResults c = false ->
  schedule (do_call c s) = schedule s.
Proof.
  intros Hc Hsave. unfold schedule. state_simpl.
  rewrite filter_app. cbn [List.filter]. rewrite Hsave, app_nil_r.
  destruct (reporting c (G s) Hc) as [-> ->]. reflexivity.
Qed.

Lemma runoff_loop_keeps_schedule (fuel : nat) (next : Q) :
  forall (s s' : State) (b : bool),
    loop fuel next s = Some (b, s') -> schedule s' = schedule s.
Proof.
  induction fuel as [|fuel IH]; intros s s' b H;
    rewrite runoff_loop_eq in H;
    destruct (Qltb (NewRunoffTime (G s)) next);
    try discriminate; try (now inversion H).
  destruct (is_set (ErrorCode (G (do_call runoff_execute s)))).
  - inversion H. now apply call_keeps_schedule.
  - rewrite (IH _ _ _ H). now apply call_keeps_schedule.
Qed.

Lemma execRouting_keeps_schedule (fuel : nat) (e : Q) (s m : State) :
  exec fuel e s = Some m -> schedule m = schedule s.
Proof.
  unfold execRouting.
  destruct (Qleb _ 0); [intro H; now inversion H|].
  destruct (adjust_routingStep _ _) as [a b].
  destruct (DoRunoff (count_step s)).
  - destruct (loop fuel b (count_step s)) as [[r s2]|] eqn:Hloop;
      [|discriminate].
    apply runoff_loop_keeps_schedule in Hloop.
    destruct r; intro H; injection H as <-; [exact Hloop|].
    transitivity (schedule s2); [|exact Hloop].
    match goal with |- context [if ?c then _ else _] => destruct c end;
      [now apply call_keeps_schedule|reflexivity].
  - intro H. injection H as <-.
    match goal with |- context [if ?c then _ else _] => destruct c end.
    + rewrite !call_keeps_schedule by reflexivity. reflexivity.
    + transitivity (schedule (do_call (climate_setState
                     (getDateTime datetime_addSeconds
                        (NewRoutingTime (G (count_step s)))
                        (G (count_step s)))) (count_step s)));
        [reflexivity|].
      rewrite call_keeps_schedule by reflexivity. reflexivity.
Qed.

(** A call of [swmm_step] either leaves the schedule alone or saves for
    the report time and moves it on. *)
Lemma swmm_step_schedule (fuel : nat) (e e' : Q) (rc : ErrorType)
    (s s' : State) :
  step fuel e s = Some (s', rc, e') ->
  schedule s' = schedule s \/
  schedule s' =
    (List.filter is_output_saveResults (trace s)
       ++ (if SaveResultsFlag s
           then [output_saveResults (ReportTime (G s))] else []),
     ReportTime (G s) + inject_Z (int_mul 1000 (ReportStep (proj (G s)))),
     ReportStep (proj (G s))).
Proof.
  unfold swmm_step.
  destruct (is_set (ErrorCode (G s))); [intro H; inversion H; now left|].
  destruct (negb (IsOpenFlag s) || negb (IsStartedFlag s)).
  { intro H. inversion H. left. now apply call_keeps_schedule. }
  destruct (route_guarded fuel e s) as [m|] eqn:Hm; [|discriminate].
  intro H. inversion H; subst; clear H.
  assert (Hm' : schedule m = schedule s /\
                SaveResultsFlag m = SaveResultsFlag s).
  { unfold route_if_not_done in Hm.
    destruct (Qltb _ _); [|inversion Hm; now split].
    split; [now apply execRouting_keeps_schedule with fuel e|].
    apply execRouting_keeps_statics in Hm. now inversion Hm. }
  destruct Hm' as [Hsched Hflag].
  unfold schedule in Hsched. injection Hsched as Ht HR HS.
  unfold save_at_ReportTime.
  destruct (Qleb _ _); [right|left; unfold schedule; congruence].
  rewrite Hflag. destruct (SaveResultsFlag s); unfold schedule; state_simpl.
  - rewrite filter_app. cbn [List.filter is_output_saveResults].
    destruct (reporting (output_saveResults (ReportTime (G m))) (G m)
                eq_refl) as [-> ->].
    now rewrite Ht, HR, HS.
  - now rewrite app_nil_r, Ht, HR, HS.
Qed.

Lemma swmm_steps_schedule (fuels : list nat) :
  forall (e e' : Q) (s s' : State),
    swmm_steps extern routing_getRoutingStep datetime_addSeconds
      fuels e s = Some (s', e') ->
    let interval := inject_Z (int_mul 1000 (ReportStep (proj (G s)))) in
    exists n : nat,
      (n <= List.length fuels)%nat /\
      List.filter is_output_saveResults (trace s') =
        List.filter is_output_saveResults (trace s)
          ++ (if SaveResultsFlag s
              then map output_saveResults
                     (report_instants n (ReportTime (G s)) interval)
              else []) /\
      ReportTime (G s') = report_instant_after n (ReportTime (G s)) interval /\
      ReportStep (proj (G s')) = ReportStep (proj (G s)).
Proof.
  induction fuels as [|fuel rest IH]; intros e e' s s' Hrun; cbv zeta.
  { inversion Hrun; subst. exists 0%nat. cbn [List.length].
    split; [lia|]. split; [|split; reflexivity].
    destruct (SaveResultsFlag s'); now rewrite app_nil_r. }
  cbn [swmm_steps] in Hrun.
  destruct (step fuel e s) as [[[s1 rc] e1]|] eqn:Hstep; [|discriminate].
  pose proof (swmm_step_keeps_statics _ _ _ _ _ _ Hstep) as Hst.
  assert (Hflag : SaveResultsFlag s1 = SaveResultsFlag s)
    by now inversion Hst.
  destruct (IH _ _ _ _ Hrun) as (n & Hn & Ht & HR & HS).
  cbv zeta in Ht, HR. rewrite Hflag in Ht.
  destruct (swmm_step_schedule _ _ _ _ _ _ Hstep) as [Hsame|Hsaved];
    [unfold schedule in Hsame|unfold schedule in Hsaved].
  - injection Hsame as Ht1 HR1 HS1. exists n. cbn [List.length].
    split; [lia|]. rewrite Ht, HR, HS, Ht1, HR1, HS1. now repeat split.
  - injection Hsaved as Ht1 HR1 HS1. exists (S n). cbn [List.length].
    split; [lia|]. rewrite Ht, HR, HS, Ht1, HR1, HS1.
    cbn [report_instants report_instant_after map].
    split; [|now split].
    rewrite <- app_assoc. f_equal. now destruct (SaveResultsFlag s).
Qed.

(** X24: over any sequence of calls of [swmm_step], whatever the state
    they are made in, the results saved are saved for evenly spaced
    instants: the report time the sequence starts with, then one report
    interval later, and so on, at most one instant for each call; the
    report time ends at the instant that follows them.  The interval is
    the [int] product [1000 * ReportStep], that is 1000 * ReportStep
    milliseconds whenever that number is the value of an [int].  When the
    interval is positive the instants are in order and none is saved for
    twice; a report step of zero has every save made for the same
    instant.  Without the save flag the report time moves in the same way
    and nothing is saved.  (The other modules leave the report time and
    the report step alone.) *)
Theorem saves_evenly_spaced (fuels : list nat) :
  forall (e e' : Q) (s s' : State),
    swmm_steps extern routing_getRoutingStep datetime_addSeconds
      fuels e s = Some (s', e') ->
    let interval := inject_Z (int_mul 1000 (ReportStep (proj (G s)))) in
    (fits_int (1000 * ReportStep (proj (G s))) ->
     interval = inject_Z (1000 * ReportStep (proj (G s)))) /\
    exists n : nat,
      (n <= List.length fuels)%nat /\
      List.filter is_output_saveResults (trace s') =
        List.filter is_output_saveResults (trace s)
          ++ (if SaveResultsFlag s
              then map output_saveResults
                     (report_instants n (ReportTime (G s)) interval)
              else []) /\
      ReportTime (G s') = report_instant_after n (ReportTime (G s)) interval /\
      ReportStep (proj (G s')) = ReportStep (proj (G s)) /\
      (0 < interval ->
       StronglySorted Qlt (report_instants n (ReportTime (G s)) interval)) /\
      (interval = 0 ->
       forall t : Q,
         In t (report_instants n (ReportTime (G s)) interval) ->
         t == ReportTime (G s)).
Proof.
  intros e e' s s' Hrun. cbv zeta. split.
  { intro Hfits. unfold int_mul. now rewrite wrap_int_fits. }
  destruct (swmm_steps_schedule fuels e e' s s' Hrun)
    as (n & Hn & Ht & HR & HS).
  exists n. split; [exact Hn|]. split; [exact Ht|]. split; [exact HR|].
  split; [exact HS|]. split.
  - now apply report_instants_sorted.
  - intros ->. apply report_instants_still.
Qed.

End ReportInstants.

(** *** The loop of [swmm_run] *)

Section RunEnds.

Variable min_runoff_step : Q.
Hypothesis min_runoff_step_pos : 0 < min_runoff_step.
Hypothesis runoff_execute_advances : forall g : Shared World,
  ErrorCode (extern runoff_execute g) = ERR_NONE ->
  NewRunoffTime g + min_runoff_step <= NewRunoffTime (extern runoff_execute g).

Variable min_routing_step : Q.
Hypothesis min_routing_step_pos : 0 < min_routing_step.
Hypothesis min_routing_step_small : min_routing_step <= 1.
Hypothesis routing_step_bound :
  routing_step_at_least routing_getRoutingStep min_routing_step.

Hypothesis routing_clock : routing_clock_is_routing's extern.
Hypothesis total_fixed : total_duration_fixed extern.
Hypothesis routing_contract : routing_reaches_candidate extern.
Hypothesis saving_error : saving_keeps_error extern.
Hypothesis progress_text : progress_text_is_text service.

Local Abbreviation iteration :=
  (run_iteration extern routing_getRoutingStep datetime_addSeconds service).
Local Abbreviation run_do_while :=
  (run_loop extern routing_getRoutingStep datetime_addSeconds service).
Local Abbreviation run :=
  (swmm_run extern routing_getRoutingStep hotstart_open_result
            datetime_addSeconds service Fout_scratch Finp_file Frpt_file).

Lemma candidate_at_least (s : State) :
  0 < candidate_routingStep routing_getRoutingStep s ->
  min_routing_step <= candidate_routingStep routing_getRoutingStep s.
Proof.
  unfold candidate_routingStep. destruct (negb (DoRouting s)).
  - intro Hpos. apply Qle_trans with 1; [exact min_routing_step_small|].
    change 0 with (inject_Z 0) in Hpos. rewrite <- Zlt_Qlt in Hpos.
    change 1 with (inject_Z 1). rewrite <- Zle_Qle. lia.
  - apply routing_step_bound.
Qed.

(** An invocation of the orchestrator that leaves no error has moved the
    routing clock on by the least step at least, or up to total
    duration. *)
Lemma execRouting_progress (fuel : nat) (e : Q) (s m : State) :
  NewRoutingTime (G s) < TotalDuration (proj (G s)) ->
  exec fuel e s = Some m ->
  ErrorCode (G m) = ERR_NONE ->
  TotalDuration (proj (G s)) <= NewRoutingTime (G m) \/
  NewRoutingTime (G s) + 1000 * min_routing_step <= NewRoutingTime (G m).
Proof.
  intros Hlt. unfold execRouting.
  destruct (Qleb (candidate_routingStep routing_getRoutingStep
                    (count_step s)) 0) eqn:Hc.
  { intro E. injection E as <-. state_simpl. discriminate. }
  apply Qleb_gt in Hc.
  pose proof (candidate_at_least _ Hc) as Hmin.
  pose proof (adjust_routingStep_spec World _ (G (count_step s)) Hc Hlt)
    as Hadj.
  rewrite (surjective_pairing
             (adjust_routingStep
                (candidate_routingStep routing_getRoutingStep (count_step s))
                (G (count_step s)))).
  cbv zeta in Hadj.
  set (cand := candidate_routingStep routing_getRoutingStep (count_step s))
    in *.
  set (adjusted := fst (adjust_routingStep _ _)) in *.
  set (next := snd (adjust_routingStep _ _)) in *.
  destruct Hadj as (_ & _ & Hinst & Hclamped & Hfree).
  assert (Hnext : TotalDuration (proj (G s)) <= next \/
                  NewRoutingTime (G s) + 1000 * min_routing_step <= next).
  { destruct (Qlt_le_dec (TotalDuration (proj (G (count_step s))))
                (NewRoutingTime (G (count_step s)) + 1000 * cand))
      as [Hover|Hfits].
    - left. destruct (Hclamped Hover) as [-> _]. apply Qle_refl.
    - right. destruct (Hfree Hfits) as [_ ->]. state_simpl.
      apply Qplus_le_r. apply Qmult_le_l; [reflexivity|exact Hmin]. }
  assert (Hroute : forall s2 : State,
            NewRoutingTime (G s2) = NewRoutingTime (G s) ->
            TotalDuration (proj (G s2)) = TotalDuration (proj (G s)) ->
            let m' := if DoRouting s2
                      then do_call (routing_execute
                                      (RouteModel (proj (G s2))) adjusted) s2
                      else on_G (set_NewRoutingTime next) s2 in
            ErrorCode (G m') = ERR_NONE ->
            NewRoutingTime (G m') == next).
  { intros s2 Ht HT. cbv zeta. destruct (DoRouting s2); state_simpl.
    - intro Hok. rewrite (routing_contract _ _ _ Hok), <- Hinst.
      unfold candidate_instant. cbv zeta. state_simpl.
      rewrite Ht, HT. reflexivity.
    - reflexivity. }
  assert (Hdone : forall m' : State,
            NewRoutingTime (G m') == next ->
            TotalDuration (proj (G s)) <= NewRoutingTime (G m') \/
            NewRoutingTime (G s) + 1000 * min_routing_step
              <= NewRoutingTime (G m')).
  { intros m' ->. exact Hnext. }
  destruct (DoRunoff (count_step s)).
  - destruct (loop fuel next (count_step s)) as [[r s2]|] eqn:Hloop;
      [|discriminate].
    destruct (runoff_loop_spec World extern _ _ _ _ _ Hloop)
      as (k & -> & _ & _ & Ht & _).
    destruct (runoff_calls_clock World extern routing_clock total_fixed
                k (count_step s)) as [Kt KT].
    state_simpl_in Kt. state_simpl_in KT.
    destruct r; intro E; injection E as <-.
    + intro Hok. destruct (Ht eq_refl) as [_ Hne]. contradiction.
    + intro Hok. apply Hdone. now apply Hroute.
  - intro E. injection E as <-. intro Hok. apply Hdone.
    match type of Hok with
    | context [on_G (set_NewRoutingTime next) ?x] =>
        apply (Hroute x); [| |exact Hok]
    end; state_simpl.
    + now rewrite routing_clock by reflexivity.
    + now rewrite total_fixed by reflexivity.
Qed.

(** A call of [swmm_step] returns, given iterations enough for the
    runoff loop. *)
Lemma swmm_step_returns (e : Q) (s : State) :
  exists (fuel : nat) (s' : State) (rc : ErrorType) (e' : Q),
    step fuel e s = Some (s', rc, e').
Proof.
  unfold swmm_step.
  destruct (is_set (ErrorCode (G s))); [exists 0%nat; eauto|].
  destruct (negb (IsOpenFlag s) || negb (IsStartedFlag s));
    [exists 0%nat; eauto|].
  unfold route_if_not_done.
  destruct (Qltb _ _); [|exists 0%nat; eauto].
  destruct (execRouting_returns World extern routing_getRoutingStep
              datetime_addSeconds min_runoff_step min_runoff_step_pos
              runoff_execute_advances e s) as [fuel0 H0].
  destruct (H0 fuel0 (Nat.le_refl _)) as [m Hm].
  exists fuel0. rewrite Hm. eauto.
Qed.

(** What a call of [swmm_step] on a started run has done when the loop of
    [swmm_run] goes round again. *)
Lemma swmm_step_progress (fuel : nat) (e e' : Q) (rc : ErrorType)
    (s s' : State) :
  IsOpenFlag s = true ->
  IsStartedFlag s = true ->
  step fuel e s = Some (s', rc, e') ->
  TotalDuration (proj (G s')) = TotalDuration (proj (G s)) /\
  (0 < e' -> ErrorCode (G s') = ERR_NONE ->
   NewRoutingTime (G s') < TotalDuration (proj (G s)) /\
   NewRoutingTime (G s) + 1000 * min_routing_step <= NewRoutingTime (G s')).
Proof.
  intros Ho Hs. unfold swmm_step. rewrite Ho, Hs. cbn [negb orb].
  destruct (is_set (ErrorCode (G s))) eqn:He.
  { intro E. inversion E; subst. split; [reflexivity|].
    intros _ Hok. apply is_set_true in He. contradiction. }
  destruct (route_guarded fuel e s) as [m|] eqn:Hm; [|discriminate].
  intro E. inversion E; subst; clear E.
  destruct (save_clock World extern routing_clock total_fixed saving_error m)
    as (Kt & KT & Kerr).
  rewrite Kt, KT. unfold new_elapsedTime. rewrite Kt, KT.
  unfold route_if_not_done in Hm.
  destruct (Qltb (NewRoutingTime (G s)) (TotalDuration (proj (G s))))
    eqn:Hlt.
  - apply Qltb_lt in Hlt.
    destruct (execRouting_clock World extern routing_getRoutingStep
                datetime_addSeconds routing_clock total_fixed
                routing_contract fuel e s m Hlt Hm) as [MT _].
    rewrite MT. split; [reflexivity|].
    destruct (Qltb (NewRoutingTime (G m)) (TotalDuration (proj (G s))))
      eqn:Hm1; [|intro H0; exfalso; exact (Qlt_irrefl _ H0)].
    apply Qltb_lt in Hm1. intros _ Hok. split; [exact Hm1|].
    destruct (execRouting_progress fuel e s m Hlt Hm (Kerr Hok))
      as [Hend|Hmove]; [|exact Hmove].
    exfalso. exact (Qle_not_lt _ _ Hend Hm1).
  - inversion Hm; subst. split; [reflexivity|]. rewrite Hlt.
    intro H0. exfalso. exact (Qlt_irrefl _ H0).
Qed.

(** The same for an iteration of the loop. *)
Lemma run_iteration_progress (fuel : nat) (e e' : Q) (h h' : Z)
    (s s' : State) :
  IsOpenFlag s = true ->
  IsStartedFlag s = true ->
  iteration fuel e h s = Some (s', e', h') ->
  IsOpenFlag s' = true /\ IsStartedFlag s' = true /\
  TotalDuration (proj (G s')) = TotalDuration (proj (G s)) /\
  (0 < e' -> ErrorCode (G s') = ERR_NONE ->
   NewRoutingTime (G s') < TotalDuration (proj (G s)) /\
   NewRoutingTime (G s) + 1000 * min_routing_step <= NewRoutingTime (G s')).
Proof.
  intros Ho Hs. unfold run_iteration.
  destruct (step fuel e s) as [[[s1 rc] e1]|] eqn:Hstep; [|discriminate].
  pose proof (swmm_step_keeps_statics _ _ _ _ _ _ Hstep) as Hst.
  assert (Hflags : IsOpenFlag s1 = true /\ IsStartedFlag s1 = true)
    by (inversion Hst; split; congruence).
  destruct (swmm_step_progress _ _ _ _ _ _ Ho Hs Hstep) as [HT Hgo].
  destruct (_ <? _)%Z; intro E; inversion E; subst; clear E.
  - state_simpl.
    match goal with
    | |- context [service (sprintf_Msg ?d ?h) ?g] =>
        destruct (progress_text d h g) as (-> & -> & ->)
    end.
    tauto.
  - tauto.
Qed.

(** The loop ends: within one iteration more than the least step goes
    into what is left of total duration. *)
Lemma run_loop_ends (n : nat) :
  forall (e : Q) (h : Z) (s : State),
    IsOpenFlag s = true ->
    IsStartedFlag s = true ->
    TotalDuration (proj (G s)) - NewRoutingTime (G s)
      <= inject_Z (Z.of_nat n) * (1000 * min_routing_step) ->
    exists (fuels : list nat) (s' : State) (e' : Q) (h' : Z),
      (List.length fuels <= S n)%nat /\
      run_do_while fuels e h s = Some (s', e', h') /\
      IsOpenFlag s' = true /\ IsStartedFlag s' = true /\
      (e' <= 0 \/ ErrorCode (G s') <> ERR_NONE).
Proof.
  induction n as [|n IH]; intros e h s Ho Hs Hleft;
    destruct (swmm_step_returns e s) as (fuel & s1 & rc & e1 & Hstep);
    assert (Hit : exists s' e' h', iteration fuel e h s = Some (s', e', h'))
      by (unfold run_iteration; rewrite Hstep;
          destruct (_ <? _)%Z; eauto);
    destruct Hit as (s' & e' & h' & Hit);
    destruct (run_iteration_progress _ _ _ _ _ _ _ Ho Hs Hit)
      as (Ho' & Hs' & HT & Hgo);
    destruct (Qltb 0 e' && negb (is_set (ErrorCode (G s')))) eqn:Hcond.
  - exfalso. apply andb_prop in Hcond. destruct Hcond as [Hpos Hok].
    apply Qltb_lt in Hpos. apply negb_true_iff, is_set_false in Hok.
    destruct (Hgo Hpos Hok) as [Hshort Hmoved].
    change (inject_Z (Z.of_nat 0)) with 0 in Hleft.
    assert (H1 : 0 < 1000 * min_routing_step)
      by (apply Qmult_lt_0_compat; [reflexivity|exact min_routing_step_pos]).
    lra.
  - exists [fuel], s', e', h'. cbn [List.length run_loop].
    rewrite Hit, Hcond. split; [lia|]. split; [reflexivity|].
    split; [exact Ho'|]. split; [exact Hs'|].
    apply andb_false_iff in Hcond. destruct Hcond as [Hpos|Hok].
    + left. now apply Qltb_ge.
    + right. apply negb_false_iff in Hok. now apply is_set_true.
  - apply andb_prop in Hcond. destruct Hcond as [Hpos Hok].
    assert (Hcond : Qltb 0 e' && negb (is_set (ErrorCode (G s'))) = true)
      by (now rewrite Hpos, Hok).
    apply Qltb_lt in Hpos. apply negb_true_iff, is_set_false in Hok.
    destruct (Hgo Hpos Hok) as [Hshort Hmoved].
    destruct (IH e' h' s' Ho' Hs') as (fuels & s2 & e2 & h2 & Hlen & Hrun
                                       & Ho2 & Hs2 & Hstop).
    { rewrite HT. rewrite Nat2Z.inj_succ in Hleft. unfold Z.succ in Hleft.
      rewrite inject_Z_plus in Hleft. change (inject_Z 1) with 1 in Hleft.
      set (d := 1000 * min_routing_step) in *.
      setoid_replace ((inject_Z (Z.of_nat n) + 1) * d)
        with (inject_Z (Z.of_nat n) * d + d) in Hleft by ring.
      lra. }
    exists (fuel :: fuels), s2, e2, h2. cbn [List.length run_loop].
    rewrite Hit, Hcond. split; [lia|]. now repeat split.
  - exists [fuel], s', e', h'. cbn [List.length run_loop].
    rewrite Hit, Hcond. split; [lia|]. split; [reflexivity|].
    split; [exact Ho'|]. split; [exact Hs'|].
    apply andb_false_iff in Hcond. destruct Hcond as [Hpos|Hok].
    + left. now apply Qltb_ge.
    + right. apply negb_false_iff in Hok. now apply is_set_true.
Qed.

(** X25: the loop of [swmm_run] ends.  On an open, started run it comes
    to an end after at most one iteration more than the least routing step
    goes into what is left of total duration, with the elapsed time handed
    back not positive or an error code set, the run still open and
    started.  (Each runoff step that leaves no error advances the runoff
    clock by a least amount; no positive routing step is shorter than a
    least step of a second at most; the routing engine leaves the clock at
    the candidate instant; the other calls leave the routing clock, total
    duration and a set error code alone.) *)
Theorem run_loop_terminates (n : nat) (e : Q) (h : Z) (s : State) :
  IsOpenFlag s = true ->
  IsStartedFlag s = true ->
  TotalDuration (proj (G s)) - NewRoutingTime (G s)
    <= inject_Z (Z.of_nat n) * (1000 * min_routing_step) ->
  exists (fuels : list nat) (s' : State) (e' : Q) (h' : Z),
    (List.length fuels <= S n)%nat /\
    run_loop extern routing_getRoutingStep datetime_addSeconds service
      fuels e h s = Some (s', e', h') /\
    IsOpenFlag s' = true /\ IsStartedFlag s' = true /\
    (e' <= 0 \/ ErrorCode (G s') <> ERR_NONE).
Proof. apply run_loop_ends. Qed.

Lemma swmm_open_marks_open (f1 f2 f3 : string) (s : State) :
  ErrorCode (G (fst (open f1 f2 f3 s))) = ERR_NONE ->
  IsOpenFlag (fst (open f1 f2 f3 s)) = true /\
  IsStartedFlag (fst (open f1 f2 f3 s)) = false.
Proof.
  unfold swmm_open. state_simpl.
  set (g1 := extern (project_open f1 f2 f3) _).
  destruct (is_set (ErrorCode g1)) eqn:E1; state_simpl.
  { intro H. apply is_set_true in E1. exfalso. exact (E1 H). }
  set (g2 := extern project_readInput (extern report_writeLogo g1)).
  destruct (is_set (ErrorCode g2)) eqn:E2; state_simpl.
  { intro H. apply is_set_true in E2. exfalso. exact (E2 H). }
  intros _. destruct (RptFlags_input _); split; reflexivity.
Qed.

(** X26: [swmm_run] returns, and it returns with the engine closed: both
    phase flags off, the code handed back being the error code as it then
    is; this holds for any run that returns.  (Same expectations of the
    other modules as for the loop.) *)
Theorem run_returns_closed (f1 f2 f3 : string) (s : State) :
  (exists (fuels : list nat) (r : State * ErrorType),
     run fuels f1 f2 f3 s = Some r) /\
  (forall (fuels : list nat) (s' : State) (rc : ErrorType),
     run fuels f1 f2 f3 s = Some (s', rc) ->
     IsOpenFlag s' = false /\ IsStartedFlag s' = false /\
     rc = ErrorCode (G s')).
Proof.
  split.
  - unfold swmm_run.
    set (s1 := fst (open f1 f2 f3 (on_G (set_ErrorCode ERR_NONE) s))).
    destruct (negb (is_set (ErrorCode (G s1)))) eqn:E1;
      [|exists []; eauto].
    apply negb_true_iff, is_set_false in E1.
    destruct (swmm_open_marks_open _ _ _ _ E1) as [Ho1 Hs1].
    fold s1 in Ho1, Hs1.
    set (s2 := fst (start true s1)).
    destruct (negb (is_set (ErrorCode (G s2)))) eqn:E2;
      [|exists []; eauto].
    assert (Hs2 : IsStartedFlag s2 = true)
      by now apply swmm_start_marks_started.
    assert (Ho2 : IsOpenFlag s2 = true).
    { unfold s2, swmm_start. rewrite E1, Ho1, Hs1. cbn [is_set negb orb].
      split_inner_ifs; exact Ho1. }
    destruct (Q_archimedean
                (TotalDuration (proj (G s2)) - NewRoutingTime (G s2))
                (1000 * min_routing_step)) as [n Hn].
    { apply Qmult_lt_0_compat; [reflexivity|exact min_routing_step_pos]. }
    destruct (run_loop_ends n 0 0%Z s2 Ho2 Hs2 Hn)
      as (fuels & s3 & e3 & h3 & _ & Hrun & _).
    exists fuels. rewrite Hrun. eauto.
  - intros fuels s' rc. unfold swmm_run.
    match goal with
    | |- match ?x with Some _ => _ | None => _ end = _ -> _ =>
        destruct x as [s4|]; [|discriminate]
    end.
    intro H. injection H as <- <-.
    unfold swmm_close. split_ifs; state_simpl; repeat split.
Qed.

End RunEnds.

(** X27: [swmm_run] skips what cannot run.  It clears the error code
    first, whatever it was.  When [swmm_open] leaves an error, neither
    [swmm_start] nor [swmm_step] nor [swmm_end] is called: the calls made
    are those of [swmm_open].  When [swmm_open] succeeds and [swmm_start]
    leaves an error, no step is made, yet [swmm_end] is called.  Either
    way the run returns, whatever the bounds given for the loops. *)
Theorem run_skips_what_cannot_run (fuels : list nat) (f1 f2 f3 : string)
    (s : State) :
  let run :=
    swmm_run extern routing_getRoutingStep hotstart_open_result
             datetime_addSeconds service Fout_scratch Finp_file Frpt_file in
  let s1 := fst (open f1 f2 f3 (on_G (set_ErrorCode ERR_NONE) s)) in
  let s2 := fst (start true s1) in
  (ErrorCode (G s1) <> ERR_NONE ->
   exists (s' : State) (rc : ErrorType),
     run fuels f1 f2 f3 s = Some (s', rc) /\ trace s' = trace s1) /\
  (ErrorCode (G s1) = ERR_NONE -> ErrorCode (G s2) <> ERR_NONE ->
   exists (s' : State) (rc : ErrorType),
     run fuels f1 f2 f3 s = Some (s', rc) /\
     trace s' = trace (fst (finish s2))).
Proof.
  cbv zeta.
  assert (Hreport : forall x : State, trace (fst (swmm_report service
                                            Fout_scratch x)) = trace x).
  { intro x. unfold swmm_report. split_ifs; reflexivity. }
  assert (Hclose : forall x : State, trace (fst (close x)) = trace x).
  { intro x. unfold swmm_close. split_ifs; reflexivity. }
  split.
  - intro He. apply is_set_true in He. unfold swmm_run. rewrite He.
    cbn [negb]. do 2 eexists. split; [reflexivity|].
    rewrite Hclose. destruct (Fout_scratch _); [apply Hreport|reflexivity].
  - intros He1 He2. apply is_set_false in He1. apply is_set_true in He2.
    unfold swmm_run. rewrite He1. cbn [negb]. rewrite He2. cbn [negb].
    do 2 eexists. split; [reflexivity|].
    rewrite Hclose. destruct (Fout_scratch _); [apply Hreport|reflexivity].
Qed.

End LifeCycle.

(** * The reference instance, continued *)

Lemma Reference_step_count : step_count_is_the_driver's Reference.extern.
Proof.
  intros c g Hs. destruct c; try discriminate; try reflexivity.
  unfold Reference.extern. now destruct (WetStep (proj g) <=? 0)%Z.
Qed.

Lemma Reference2_routing_step_at_least :
  routing_step_at_least Reference2.routing_getRoutingStep 1.
Proof. intros m fixedStep g _. apply MAX_lower. Qed.

Lemma Reference_teardown_keeps_options :
  teardown_keeps_options Reference.extern.
Proof.
  intros c g Hc. destruct c; try discriminate; split; reflexivity.
Qed.

Lemma Reference2_progress_text : progress_text_is_text Reference2.service.
Proof. intros d h g. repeat split. Qed.

(** ** The further properties on concrete projects *)

Ltac apart :=
  vm_compute;
  repeat (split; [let H := fresh in intro H; discriminate H|]);
  exact I.

(** X2 on the IDs j1, J1 and J2. *)
Lemma strcomp_compares_folded_witness :
  strcomp Reference2.UCHAR "j1" "J1" = Ret 1%Z /\
  strcomp Reference2.UCHAR "J1" "J2" = Ret 0%Z.
Proof.
  split.
  - apply (strcomp_compares_folded Reference2.UCHAR "j1" "J1");
      [discriminate|discriminate|apart|apart|reflexivity].
  - apply (strcomp_compares_folded Reference2.UCHAR "J1" "J2");
      [discriminate|discriminate|apart|apart|].
    vm_compute. discriminate.
Defined.

(** X3 on the IDs j1, J1 and j1. *)
Lemma strcomp_equivalence_witness :
  strcomp Reference2.UCHAR "j1" "j1" = Ret 1%Z /\
  strcomp Reference2.UCHAR "j1" "J1" = strcomp Reference2.UCHAR "J1" "j1".
Proof.
  destruct (strcomp_equivalence Reference2.UCHAR "j1" "J1" "j1")
    as (Hrefl & Hsym & _);
    [discriminate|discriminate|discriminate|apart|apart|apart|].
  split; [exact Hrefl|exact Hsym].
Defined.

(** X4 on the ID J1. *)
Lemma strcomp_empty_witness :
  strcomp Reference2.UCHAR "" "J1" = Ret 0%Z /\
  strcomp Reference2.UCHAR "J1" "" = Ret 0%Z /\
  strcomp Reference2.UCHAR "" "" = Undefined.
Proof.
  apply (strcomp_empty Reference2.UCHAR "J" "1").
  vm_compute. intro H. discriminate H.
Defined.

(** X5 on the project with two nodes and an array of three entries. *)
Lemma node_values_in_bulk_witness :
  IsOpenFlag Reference2.two_nodes = true /\
  swmm_getNodeInflows [7; 7; 7] Reference2.two_nodes
    = Ret (ERR_NONE, [0; 3 # 2; 7]) /\
  swmm_getNodeHeads [7] Reference2.two_nodes = Undefined.
Proof.
  split; [reflexivity|].
  destruct (node_values_in_bulk unit [7; 7; 7] Reference2.two_nodes
              eq_refl eq_refl) as [Hroom _].
  destruct (node_values_in_bulk unit [7] Reference2.two_nodes
              eq_refl eq_refl) as [_ Hshort].
  destruct (Hroom ltac:(cbn; lia)) as (Hin & _).
  destruct (Hshort ltac:(cbn; lia)) as (_ & _ & Hheads).
  split; [exact Hin|exact Hheads].
Defined.

(** X6 on the second of two nodes. *)
Lemma bulk_agrees_with_getNodeData_witness :
  exists (d : nodeData.t) (flows : list Q),
    swmm_getNodeData 1 (nodeData_of Reference.a_node) Reference2.two_nodes
      = Ret (ERR_NONE, d) /\
    swmm_getNodeInflows [7; 7; 7] Reference2.two_nodes
      = Ret (ERR_NONE, flows) /\
    nth_error flows 1 = Some (nodeData.inflow d).
Proof.
  destruct (bulk_agrees_with_getNodeData unit [7; 7; 7]
              (nodeData_of Reference.a_node) 1 Reference2.two_nodes
              eq_refl eq_refl ltac:(cbn; lia) ltac:(cbn; lia))
    as (d & flows & outflows & heads & Hd & Hin & _ & _ & Hnth & _).
  exists d, flows. auto.
Defined.

(** X7 on the second of two nodes. *)
Lemma addNodeInflow_only_dllInflow_witness :
  exists s' : St unit,
    swmm_addNodeInflow 1 5 Reference2.two_nodes = Ret (s', ERR_NONE) /\
    Node_at (Node (G s')) 0 = Some Reference.a_node /\
    Node_at (Node (G s')) 1
      = Some (TNode.add_dllInflow 5 Reference2.b_node).
Proof.
  destruct (addNodeInflow_only_dllInflow unit 1 5 Reference2.b_node
              Reference2.two_nodes eq_refl eq_refl)
    as (s' & Hadd & Hat & _ & Hother & _).
  exists s'. split; [exact Hadd|]. split; [|exact Hat].
  rewrite Hother by discriminate. reflexivity.
Defined.

(** X8 on the two nodes. *)
Lemma addNodeInflow_composes_witness :
  then_addNodeInflow 1 3 (swmm_addNodeInflow 0 2 Reference2.two_nodes)
  = then_addNodeInflow 0 2 (swmm_addNodeInflow 1 3 Reference2.two_nodes).
Proof.
  destruct (addNodeInflow_composes unit 0 1 2 3 Reference.a_node
              Reference2.b_node Reference2.two_nodes
              eq_refl eq_refl eq_refl) as [_ Hcomm].
  apply Hcomm. discriminate.
Defined.

(** X9 on the second of two nodes. *)
Lemma setNodeFullDepth_round_trip_witness :
  exists (s' : St unit) (d : nodeData.t),
    swmm_setNodeFullDepth Reference2.node_getVolume 1 4 Reference2.two_nodes
      = Ret (s', ERR_NONE) /\
    swmm_getNodeData 1 (nodeData_of Reference.a_node) s'
      = Ret (ERR_NONE, d) /\
    nodeData.fullDepth d = 4 /\
    nodeData.crestElev d = 8 + 4.
Proof.
  destruct (setNodeFullDepth_round_trip unit Reference2.node_getVolume 1 4
              Reference2.b_node (nodeData_of Reference.a_node)
              Reference2.two_nodes eq_refl eq_refl)
    as (s' & d & Hset & Hget & Hdepth & Hcrest & _).
  exists s', d. auto.
Defined.

(** X10 on the second of two nodes. *)
Lemma setNodePondedArea_round_trip_witness :
  exists s' : St unit,
    swmm_setNodePondedArea 1 9 Reference2.two_nodes = Ret (s', ERR_NONE) /\
    swmm_getNodeData 1 (nodeData_of Reference.a_node) s'
      = Ret (ERR_NONE,
             nodeData_of (TNode_set_pondedArea 9 Reference2.b_node)).
Proof.
  destruct (setNodePondedArea_round_trip unit 1 9 Reference2.b_node
              (nodeData_of Reference.a_node) Reference2.two_nodes
              eq_refl eq_refl)
    as (s' & Hset & Hget & _).
  exists s'. auto.
Defined.

(** X11 on the project with two nodes. *)
Lemma getNodeID_by_index_witness :
  swmm_getNodeID 1024 2 "none" Reference2.two_nodes
    = Ret (ERR_NUMBER, "none"%string) /\
  swmm_getNodeID 1024 (-1) "none" Reference2.two_nodes = Undefined.
Proof.
  destruct (getNodeID_by_index unit 1024 2 "none" Reference2.two_nodes
              eq_refl eq_refl) as (Habove & _).
  destruct (getNodeID_by_index unit 1024 (-1) "none" Reference2.two_nodes
              eq_refl eq_refl) as (_ & _ & Hbelow).
  split; [apply Habove; cbn; lia|apply Hbelow; cbn; lia].
Defined.

(** X13 on two overflows. *)
Lemma xfilter_ceiling_witness :
  let r := xfilter_all Reference2.service
             [EXCEPTION_FLT_OVERFLOW; EXCEPTION_INT_OVERFLOW] 0 1
             Reference2.two_nodes in
  ExceptionCount (fst r) = 2%Z /\
  nth_error (snd r) 1 = Some EXCEPTION_CONTINUE_EXECUTION.
Proof.
  pose proof (xfilter_ceiling unit Reference2.service 0 1
                [EXCEPTION_FLT_OVERFLOW; EXCEPTION_INT_OVERFLOW]
                Reference2.two_nodes eq_refl eq_refl) as H.
  cbv zeta in H. destruct H as [Hcount Hk].
  split; [exact Hcount|].
  destruct (Hk 1%nat ltac:(cbn; lia)) as [Hgo _].
  apply Hgo. lia.
Defined.

(** X14 for lengths (code 3) in US units. *)
Lemma UCF_defined_positive_witness :
  exists f : Q, UCF 10 0 0 3 = Ret f /\ 0 < f.
Proof.
  destruct (UCF_defined_positive 10 0 0 3 ltac:(lia) ltac:(lia) ltac:(lia))
    as [H _].
  apply H. lia.
Defined.

(** X17 on the two-day project, started. *)
Lemma end_settles_witness :
  let s1 := fst (Reference.finish (Reference.started (Reference.two_days 0 1)))
  in
  IsOpenFlag s1 = true /\ IsStartedFlag s1 = false /\
  Reference.finish s1 = (s1, ErrorCode (G s1)).
Proof.
  pose proof (end_settles unit Reference.extern Reference2.float_of_double
                (Reference.started (Reference.two_days 0 1)) eq_refl) as H.
  cbv zeta in H. destruct H as (Ho & Hs & _ & Hagain & _).
  cbv zeta. split; [exact Ho|]. split; [exact Hs|exact Hagain].
Defined.

(** X18 on the two-day project, started. *)
Lemma end_tears_down_witness :
  let s := Reference.started (Reference.two_days 0 1) in
  teardown_keeps_options Reference.extern /\
  exists t : list Call,
    trace (fst (Reference.finish s)) = trace s ++ t /\
    List.filter is_closing t =
      [stats_close; massbal_close; rain_close; routing_close 0;
       hotstart_close].
Proof.
  intro s. split; [exact Reference_teardown_keeps_options|].
  pose proof (end_tears_down unit Reference.extern s
                Reference_teardown_keeps_options eq_refl eq_refl) as H.
  cbv zeta in H. destruct H as (t & Ht & Hclosing & _).
  exists t. split; [exact Ht|exact Hclosing].
Defined.

(** X19 on the two-day project, opened. *)
Lemma start_in_order_witness :
  let s' := Reference.started (Reference.two_days 0 1) in
  IsOpenFlag s' = true /\ IsStartedFlag s' = true /\
  ExceptionCount s' = 0%Z.
Proof.
  pose proof (start_in_order unit Reference.extern
                Reference.hotstart_open_result true
                (Reference.opened (Reference.two_days 0 1))
                eq_refl eq_refl eq_refl) as H.
  cbv zeta in H. destruct H as (Ho & Hs & Hx & _).
  cbv zeta. split; [exact Ho|]. split; [exact Hs|exact Hx].
Defined.

(** X20 on the two-day project, started and ended. *)
Lemma restart_after_end_witness :
  let s1 := fst (Reference.finish (Reference.started (Reference.two_days 0 1)))
  in
  IsStartedFlag s1 = false /\
  IsStartedFlag (fst (Reference.start true s1)) = true.
Proof.
  pose proof (restart_after_end unit Reference.extern
                Reference.hotstart_open_result true
                (Reference.started (Reference.two_days 0 1))
                eq_refl eq_refl) as H.
  cbv zeta in H. destruct H as (Hs & Hs2 & _).
  cbv zeta. split; [exact Hs|exact Hs2].
Defined.

(** X21 on the eight steps of the two-day project. *)
Lemma step_keeps_statics_witness :
  let s := Reference.started (Reference.two_days 0 1) in
  exists (s' : St unit) (e' : Q),
    swmm_steps Reference.extern Reference.routing_getRoutingStep
      Reference.datetime_addSeconds (repeat 1000%nat 8) 0 s
      = Some (s', e') /\
    statics s' = statics s.
Proof.
  intro s.
  assert (E : exists s' e',
            swmm_steps Reference.extern Reference.routing_getRoutingStep
              Reference.datetime_addSeconds (repeat 1000%nat 8) 0 s
            = Some (s', e'))
    by (vm_compute; do 2 eexists; reflexivity).
  destruct E as (s' & e' & E). exists s', e'.
  split; [exact E|].
  exact (step_keeps_statics unit Reference.extern
           Reference.routing_getRoutingStep Reference.datetime_addSeconds
           (repeat 1000%nat 8) 0 e' s s' E).
Defined.

(** X22 on the first step of the two-day project. *)
Lemma step_counts_invocations_witness :
  let s := Reference.started (Reference.two_days 0 1) in
  exists (s' : St unit) (rc : ErrorType) (e' : Q),
    swmm_step Reference.extern Reference.routing_getRoutingStep
      Reference.datetime_addSeconds 0 0 s = Some (s', rc, e') /\
    StepCount (G s') = (StepCount (G s) + 1)%Z.
Proof.
  intro s.
  assert (E : exists s' rc e',
            swmm_step Reference.extern Reference.routing_getRoutingStep
              Reference.datetime_addSeconds 0 0 s = Some (s', rc, e'))
    by (vm_compute; do 3 eexists; reflexivity).
  destruct E as (s' & rc & e' & E). exists s', rc, e'.
  split; [exact E|].
  destruct (step_counts_invocations unit Reference.extern
              Reference.routing_getRoutingStep Reference.datetime_addSeconds
              Reference_step_count 0 0 e' rc s s'
              eq_refl eq_refl eq_refl E) as [Hshort _].
  apply Hshort. reflexivity.
Defined.

(** X24 on the eight steps of the two-day project. *)
Lemma saves_evenly_spaced_witness :
  let s := Reference.started (Reference.two_days 0 1) in
  let interval := inject_Z (int_mul 1000 (ReportStep (proj (G s)))) in
  exists (s' : St unit) (e' : Q) (n : nat),
    swmm_steps Reference.extern Reference.routing_getRoutingStep
      Reference.datetime_addSeconds (repeat 1000%nat 8) 0 s
      = Some (s', e') /\
    (n <= 8)%nat /\
    List.filter is_output_saveResults (trace s') =
      List.filter is_output_saveResults (trace s)
        ++ (if SaveResultsFlag s
            then map output_saveResults
                   (report_instants n (ReportTime (G s)) interval)
            else []) /\
    StronglySorted Qlt (report_instants n (ReportTime (G s)) interval).
Proof.
  intros s interval.
  assert (E : exists s' e',
            swmm_steps Reference.extern Reference.routing_getRoutingStep
              Reference.datetime_addSeconds (repeat 1000%nat 8) 0 s
            = Some (s', e'))
    by (vm_compute; do 2 eexists; reflexivity).
  destruct E as (s' & e' & E).
  pose proof (saves_evenly_spaced unit Reference.extern
                Reference.routing_getRoutingStep
                Reference.datetime_addSeconds
                Reference_reporting_untouched
                (repeat 1000%nat 8) 0 e' s s' E) as H.
  cbv zeta in H. destruct H as (_ & n & Hn & Hsaved & _ & _ & Hsorted & _).
  exists s', e', n. split; [exact E|]. split; [exact Hn|].
  split; [exact Hsaved|]. apply Hsorted. reflexivity.
Defined.

(** X25 on the one-minute project, started. *)
Lemma run_loop_terminates_witness :
  let s :=
    fst (swmm_start Reference.extern Reference.hotstart_open_result true
           (Reference.opened Reference2.one_minute)) in
  IsOpenFlag s = true /\ IsStartedFlag s = true /\
  exists (fuels : list nat) (s' : St unit) (e' : Q) (h' : Z),
    (List.length fuels <= 61)%nat /\
    run_loop Reference.extern Reference2.routing_getRoutingStep
      Reference.datetime_addSeconds Reference2.service fuels 0 0 s
      = Some (s', e', h') /\
    (e' <= 0 \/ ErrorCode (G s') <> ERR_NONE).
Proof.
  intro s. split; [reflexivity|]. split; [reflexivity|].
  destruct (run_loop_terminates unit Reference.extern
              Reference2.routing_getRoutingStep
              Reference.datetime_addSeconds Reference2.service
              1000 eq_refl Reference_runoff_advances
              1 eq_refl ltac:(discriminate)
              Reference2_routing_step_at_least
              Reference_routing_clock Reference_total_duration_fixed
              Reference_routing_reaches_candidate
              Reference_saving_keeps_error Reference2_progress_text
              60 0 0%Z s eq_refl eq_refl ltac:(vm_compute; discriminate))
    as (fuels & s' & e' & h' & Hlen & Hrun & _ & _ & Hstop).
  exists fuels, s', e', h'. auto.
Defined.

(** X26 on the one-minute project. *)
Lemma run_returns_closed_witness :
  exists (fuels : list nat) (r : St unit * ErrorType),
    swmm_run Reference.extern Reference2.routing_getRoutingStep
      Reference.hotstart_open_result Reference.datetime_addSeconds
      Reference2.service Reference2.Fout_scratch Reference2.Finp_file
      Reference2.Frpt_file fuels "in" "rpt" "out"
      (Reference.closed Reference2.one_minute) = Some r.
Proof.
  exact (proj1 (run_returns_closed unit Reference.extern
                  Reference2.routing_getRoutingStep
                  Reference.hotstart_open_result
                  Reference.datetime_addSeconds Reference2.service
                  Reference2.Fout_scratch Reference2.Finp_file
                  Reference2.Frpt_file
                  1000 eq_refl Reference_runoff_advances
                  1 eq_refl ltac:(discriminate)
                  Reference2_routing_step_at_least
                  Reference_routing_clock Reference_total_duration_fixed
                  Reference_routing_reaches_candidate
                  Reference_saving_keeps_error Reference2_progress_text
                  "in" "rpt" "out" (Reference.closed Reference2.one_minute))).
Defined.
